(** * Study-management backend: persistence and export contract

    A shallow embedding of the Express route handlers of the backend
    server (study plans, notes, flashcards, chat, dashboard statistics and
    the text export), over an explicit model of the five MySQL tables the
    handlers read and write through [pool.execute].

    Conventions of the embedding:
    - a JavaScript string is a [string]; its characters are read as code
      units below 256;
    - a number that the handlers only ever use as an integer (ids, counts,
      hours, percentages, millisecond instants) is a [Z];
    - a request field that may be absent from the JSON body is an [option];
    - an [await pool.execute(...)] is a step of the [db] monad below, which
      threads the tables and lets a statement throw; the tables keep what
      earlier statements wrote when a later one throws, since the handlers
      open no transaction;
    - the generative model is an argument of the handlers that build a
      prompt: a function from the prompt to the parsed reply;
    - a handler takes one reading of the clock, [now], which stands for
      each [new Date()] and [Date.now()] of its body and for the
      [created_at] that the database gives to the rows it inserts. *)

From Stdlib Require Import ZArith List String Ascii Bool Lia DecimalString.
From Stdlib Require Import Permutation Sorted.
Import ListNotations.

Notation "s1 +++ s2" := (String.append s1 s2)
  (at level 60, right associativity) : string_scope.
Local Open Scope string_scope.
Local Open Scope Z_scope.
Local Open Scope list_scope.

(* ================================================================== *)
(** * JavaScript helpers *)
(* ================================================================== *)

(** The character [\n], the double quote and the no-break space (code
    unit 160, U+00A0), which template literals of the source contain. *)
Definition nl : string := String (Ascii.Ascii false true false true false false false false) EmptyString.
Definition dq : string := String (Ascii.Ascii false true false false false true false false) EmptyString.
Definition nbsp : string := String (Ascii.Ascii false false false false false true false true) EmptyString.

(** [`${n}`] for an integer [n]. *)
Definition show_Z (n : Z) : string := NilZero.string_of_int (Z.to_int n).

(** [s.repeat(n)]. *)
Fixpoint repeat_string (s : string) (n : nat) : string :=
  match n with
  | O => EmptyString
  | S n' => s +++ repeat_string s n'
  end.

(** [xs.join(sep)]. *)
Fixpoint join (sep : string) (xs : list string) : string :=
  match xs with
  | [] => EmptyString
  | [x] => x
  | x :: rest => x +++ sep +++ join sep rest
  end.

(** Truthiness of an optional string and of an optional integer: an absent
    field, the empty string and [0] are falsy. *)
Definition truthy_string (v : option string) : bool :=
  match v with
  | Some s => negb (String.eqb s EmptyString)
  | None => false
  end.

Definition truthy_Z (v : option Z) : bool :=
  match v with
  | Some n => negb (n =? 0)
  | None => false
  end.

(** [v || d] on optional strings and integers. *)
Definition or_string (v : option string) (d : string) : string :=
  match v with
  | Some s => if String.eqb s EmptyString then d else s
  | None => d
  end.

Definition or_Z (v : option Z) (d : Z) : Z :=
  match v with
  | Some n => if n =? 0 then d else n
  | None => d
  end.

(** [Math.ceil(a / b)] for integers [a] and [b > 0]. *)
Definition ceil_div (a b : Z) : Z := - ((- a) / b).

(** The class [\s] of a regular expression, on code units below 256:
    tab, line feed, vertical tab, form feed, carriage return, space and
    the no-break space. *)
Definition is_space (c : ascii) : bool :=
  match nat_of_ascii c with
  | 9%nat | 10%nat | 11%nat | 12%nat | 13%nat | 32%nat | 160%nat => true
  | _ => false
  end.

(** [s.replace(/\s+/g, '-')]: every maximal run of white space becomes one
    hyphen.  [in_run] tells that the previous character was white space, so
    that the hyphen of the current run is already written. *)
Fixpoint replace_spaces_from (in_run : bool) (s : string) : string :=
  match s with
  | EmptyString => EmptyString
  | String c rest =>
      if is_space c
      then if in_run
           then replace_spaces_from true rest
           else String "-" (replace_spaces_from true rest)
      else String c (replace_spaces_from false rest)
  end.

Definition replace_spaces (s : string) : string := replace_spaces_from false s.

(* ================================================================== *)
(** * The tables *)
(* ================================================================== *)

(** One entry of a generated study plan, as the prompt of
    [/generate-study-plan] prescribes it. *)
Record week_entry := {
  week : Z;
  topic : string;
  hours : Z;
  tasks : list string
}.

(** The column [user_id] is [NULL] in every row the handlers write and is
    read by none of them; it is left out.  [plan_json] holds the value that
    [JSON.parse] gives back from the stored text. *)
Record study_plan_row := {
  sp_id : Z;
  sp_course_name : string;
  sp_deadline : Z;
  sp_hours_per_day : Z;
  sp_days_until : Z;
  sp_total_hours : Z;
  sp_plan_json : list week_entry;
  sp_progress : Z;
  sp_completed : bool;
  sp_created_at : Z
}.

Inductive source := pdf | local_file | ai.

Record note_row := {
  n_id : Z;
  n_title : string;
  n_content : string;
  n_source : source;
  n_file_name : option string;
  n_created_at : Z
}.

Record flashcard_set_row := {
  fs_id : Z;
  fs_topic : string;
  fs_total_count : Z;
  fs_known_count : Z;
  fs_created_at : Z
}.

Record flashcard_row := {
  fc_id : Z;
  fc_set_id : Z;
  fc_question : string;
  fc_answer : string;
  fc_known : bool
}.

Inductive chat_role := user | assistant.

Record chat_row := {
  ch_id : Z;
  ch_role : chat_role;
  ch_content : string;
  ch_created_at : Z
}.

(** A table: its rows in insertion order and its [AUTO_INCREMENT] counter,
    the source of [result.insertId]. *)
Record table (R : Type) := {
  rows : list R;
  auto_increment : Z
}.
Arguments rows {R} _.
Arguments auto_increment {R} _.

Record tables := {
  study_plans : table study_plan_row;
  notes : table note_row;
  flashcard_sets : table flashcard_set_row;
  flashcards : table flashcard_row;
  chat_history : table chat_row
}.

Definition empty_table {R : Type} : table R := {| rows := []; auto_increment := 1 |}.

Definition empty_tables : tables :=
  {| study_plans := empty_table; notes := empty_table;
     flashcard_sets := empty_table; flashcards := empty_table;
     chat_history := empty_table |}.

Definition with_study_plans (t : tables) (x : table study_plan_row) : tables :=
  {| study_plans := x; notes := notes t; flashcard_sets := flashcard_sets t;
     flashcards := flashcards t; chat_history := chat_history t |}.

Definition with_notes (t : tables) (x : table note_row) : tables :=
  {| study_plans := study_plans t; notes := x; flashcard_sets := flashcard_sets t;
     flashcards := flashcards t; chat_history := chat_history t |}.

Definition with_flashcard_sets (t : tables) (x : table flashcard_set_row) : tables :=
  {| study_plans := study_plans t; notes := notes t; flashcard_sets := x;
     flashcards := flashcards t; chat_history := chat_history t |}.

Definition with_flashcards (t : tables) (x : table flashcard_row) : tables :=
  {| study_plans := study_plans t; notes := notes t; flashcard_sets := flashcard_sets t;
     flashcards := x; chat_history := chat_history t |}.

Definition with_chat_history (t : tables) (x : table chat_row) : tables :=
  {| study_plans := study_plans t; notes := notes t; flashcard_sets := flashcard_sets t;
     flashcards := flashcards t; chat_history := x |}.

(** The four statement shapes the handlers use. *)
Definition insert_row {R : Type} (mk : Z -> R) (t : table R) : Z * table R :=
  (auto_increment t,
   {| rows := rows t ++ [mk (auto_increment t)];
      auto_increment := auto_increment t + 1 |}).

Definition update_rows {R : Type} (where_ : R -> bool) (set : R -> R) (t : table R) : table R :=
  {| rows := map (fun r => if where_ r then set r else r) (rows t);
     auto_increment := auto_increment t |}.

Definition delete_rows {R : Type} (where_ : R -> bool) (t : table R) : table R :=
  {| rows := filter (fun r => negb (where_ r)) (rows t);
     auto_increment := auto_increment t |}.

Definition select_rows {R : Type} (where_ : R -> bool) (t : table R) : list R :=
  filter where_ (rows t).

(** What the table definitions say about [flashcards.set_id].  The
    definitions are not part of the source, so the handlers are modelled
    for each possibility: no constraint, a foreign key that refuses to
    delete a referenced set, and a foreign key that deletes the cards with
    the set. *)
Inductive set_id_constraint := NoForeignKey | OnDeleteRestrict | OnDeleteCascade.

(* ================================================================== *)
(** * Statements, exceptions and responses *)
(* ================================================================== *)

Inductive outcome (A : Type) :=
| Returned (a : A)
| Thrown.
Arguments Returned {A} _.
Arguments Thrown {A}.

(** A computation over the tables that may throw.  The tables are part of
    the result in both cases. *)
Definition db (A : Type) : Type := tables -> outcome A * tables.

Definition ret {A : Type} (a : A) : db A := fun t => (Returned a, t).

Definition throw {A : Type} : db A := fun t => (Thrown, t).

Definition bind {A B : Type} (m : db A) (k : A -> db B) : db B :=
  fun t =>
    match m t with
    | (Returned a, t') => k a t'
    | (Thrown, t') => (Thrown, t')
    end.

Notation "x <- m ;; k" := (bind m (fun x => k))
  (at level 61, m at next level, right associativity).
Notation "m ;;; k" := (bind m (fun _ => k))
  (at level 61, right associativity).

(** A value that a rejected promise or a failed [JSON.parse] withholds. *)
Definition await {A : Type} (v : option A) : db A :=
  match v with
  | Some a => ret a
  | None => throw
  end.

Inductive response (A : Type) :=
| Json (body : A)
| Error (status : Z) (error : string).
Arguments Json {A} _.
Arguments Error {A} _ _.

Definition handler (A : Type) : Type := tables -> response A * tables.

(** [try { ... } catch (error) { res.status(500).json({ error: message }) }]. *)
Definition try_catch {A : Type} (message : string) (body : db (response A)) : handler A :=
  fun t =>
    match body t with
    | (Returned r, t') => (r, t')
    | (Thrown, t') => (Error 500 message, t')
    end.

(* ================================================================== *)
(** * Flashcards routes *)
(* ================================================================== *)

(** An element of the array the model replies with.  A property that the
    object lacks reads as [undefined], here [None]. *)
Record generated_card := {
  question : option string;
  answer : option string
}.

(** A card and a set as the responses carry them. *)
Record card := {
  card_id : Z;
  card_question : string;
  card_answer : string;
  card_known : bool
}.

Record flashcard_set := {
  set_id : Z;
  set_topic : string;
  set_cards : list card;
  set_createdAt : Z;
  set_knownCount : Z;
  set_totalCount : Z
}.

Record generate_flashcards_body := {
  gf_topic : option string;
  gf_count : option Z
}.

Record save_flashcard_status_body := {
  ss_setId : Z;
  ss_cardId : Z;
  ss_known : bool
}.

(** [`${v}`] for a string that may be [undefined]. *)
Definition show_string (v : option string) : string :=
  match v with
  | Some s => s
  | None => "undefined"
  end.

Definition flashcards_prompt (cardCount : Z) (topic : option string) : string :=
  "Generate a set of " +++ show_Z cardCount +++ " flashcards for the topic: "
    +++ dq +++ show_string topic +++ dq +++ "." +++ nl
  +++ "        " +++ nl
  +++ "        The output MUST be a JSON array of objects." +++ nl
  +++ "        Each object in the array MUST have the following structure:" +++ nl
  +++ "        {" +++ nl
  +++ "          " +++ dq +++ "question" +++ dq +++ ": [string, The flashcard question]," +++ nl
  +++ "          " +++ dq +++ "answer" +++ dq +++ ": [string, The detailed answer to the question]" +++ nl
  +++ "        }" +++ nl
  +++ "        " +++ nl
  +++ "        Do not include any other text, explanation, or markdown formatting outside of the JSON array.".

(** [INSERT INTO flashcard_sets (user_id, topic, total_count, known_count)]. *)
Definition insert_flashcard_set (topic : string) (total_count known_count now : Z) : db Z :=
  fun t =>
    let '(insertId, x) :=
      insert_row (fun id => {| fs_id := id; fs_topic := topic;
                               fs_total_count := total_count;
                               fs_known_count := known_count;
                               fs_created_at := now |})
                 (flashcard_sets t) in
    (Returned insertId, with_flashcard_sets t x).

(** [INSERT INTO flashcards (set_id, question, answer, known)].  The driver
    refuses a bind parameter that is [undefined] before it sends anything. *)
Definition insert_flashcard (setId : Z) (q a : option string) (known : bool) : db Z :=
  fun t =>
    match q, a with
    | Some q', Some a' =>
        let '(insertId, x) :=
          insert_row (fun id => {| fc_id := id; fc_set_id := setId;
                                   fc_question := q'; fc_answer := a';
                                   fc_known := known |})
                     (flashcards t) in
        (Returned insertId, with_flashcards t x)
    | _, _ => (Thrown, t)
    end.

(** [UPDATE flashcards SET known = ? WHERE id = ? AND set_id = ?]. *)
Definition update_flashcard_known (known : bool) (cardId setId : Z) : db unit :=
  fun t =>
    (Returned tt,
     with_flashcards t
       (update_rows (fun r => (fc_id r =? cardId) && (fc_set_id r =? setId))
                    (fun r => {| fc_id := fc_id r; fc_set_id := fc_set_id r;
                                 fc_question := fc_question r;
                                 fc_answer := fc_answer r; fc_known := known |})
                    (flashcards t))).

(** [SELECT ... FROM flashcard_sets WHERE id = ?]. *)
Definition select_flashcard_set (setId : Z) : db (list flashcard_set_row) :=
  fun t => (Returned (select_rows (fun r => fs_id r =? setId) (flashcard_sets t)), t).

(** [SELECT id, question, answer, known FROM flashcards WHERE set_id = ?]. *)
Definition card_of_row (r : flashcard_row) : card :=
  {| card_id := fc_id r; card_question := fc_question r;
     card_answer := fc_answer r; card_known := fc_known r |}.

Definition select_cards (setId : Z) : db (list card) :=
  fun t =>
    (Returned (map card_of_row (select_rows (fun r => fc_set_id r =? setId) (flashcards t))), t).

(** [UPDATE flashcard_sets SET known_count = ? WHERE id = ?]. *)
Definition update_known_count (known_count setId : Z) : db unit :=
  fun t =>
    (Returned tt,
     with_flashcard_sets t
       (update_rows (fun r => fs_id r =? setId)
                    (fun r => {| fs_id := fs_id r; fs_topic := fs_topic r;
                                 fs_total_count := fs_total_count r;
                                 fs_known_count := known_count;
                                 fs_created_at := fs_created_at r |})
                    (flashcard_sets t))).

(** [DELETE FROM flashcard_sets WHERE id = ?], the only statement of the
    delete route.  What happens to the cards is the table definitions'
    business: nothing, a refusal while cards reference the set, or their
    removal together with the set. *)
Definition delete_flashcard_set (fk : set_id_constraint) (id : Z) : db unit :=
  fun t =>
    let sets' := delete_rows (fun r => fs_id r =? id) (flashcard_sets t) in
    let referenced :=
      existsb (fun r => fs_id r =? id) (rows (flashcard_sets t))
      && existsb (fun r => fc_set_id r =? id) (rows (flashcards t)) in
    match fk with
    | NoForeignKey => (Returned tt, with_flashcard_sets t sets')
    | OnDeleteRestrict =>
        if referenced then (Thrown, t) else (Returned tt, with_flashcard_sets t sets')
    | OnDeleteCascade =>
        if referenced
        then (Returned tt,
              with_flashcards (with_flashcard_sets t sets')
                (delete_rows (fun r => fc_set_id r =? id) (flashcards t)))
        else (Returned tt, with_flashcard_sets t sets')
    end.

(** The loop [for (const card of generatedCards)] of the generate route:
    one insert per card, the inserted card pushed on [cards]. *)
Fixpoint insert_cards (setId : Z) (generatedCards : list generated_card)
    (cards : list card) : db (list card) :=
  match generatedCards with
  | [] => ret cards
  | c :: rest =>
      insertId <- insert_flashcard setId (question c) (answer c) false ;;
      insert_cards setId rest
        (cards ++ [ {| card_id := insertId;
                       card_question := show_string (question c);
                       card_answer := show_string (answer c);
                       card_known := false |} ])
  end.

(** [POST /generate-flashcards]. *)
Definition generate_flashcards
    (generateContent : string -> option (list generated_card)) (now : Z)
    (body : generate_flashcards_body) : handler flashcard_set :=
  try_catch "Failed to generate flashcards from AI. Check API key/model."
    (let topic := gf_topic body in
     let cardCount := or_Z (gf_count body) 5 in
     let prompt := flashcards_prompt cardCount topic in
     generatedCards <- await (generateContent prompt) ;;
     setId <- insert_flashcard_set (or_string topic "General Study")
                (Z.of_nat (List.length generatedCards)) 0 now ;;
     cards <- insert_cards setId generatedCards [] ;;
     ret (Json {| set_id := setId;
                  set_topic := or_string topic "General Study";
                  set_cards := cards;
                  set_createdAt := now;
                  set_knownCount := 0;
                  set_totalCount := Z.of_nat (List.length cards) |})).

(** [POST /save-flashcard-status]. *)
Definition save_flashcard_status (body : save_flashcard_status_body) : handler flashcard_set :=
  try_catch "Failed to save flashcard status"
    (let setId := ss_setId body in
     let cardId := ss_cardId body in
     let known := ss_known body in
     update_flashcard_known known cardId setId ;;;
     sets <- select_flashcard_set setId ;;
     match sets with
     | set0 :: _ =>
         cards <- select_cards setId ;;
         let newKnownCount := Z.of_nat (List.length (filter card_known cards)) in
         update_known_count newKnownCount setId ;;;
         ret (Json {| set_id := fs_id set0;
                      set_topic := fs_topic set0;
                      set_cards := cards;
                      set_createdAt := fs_created_at set0;
                      set_knownCount := newKnownCount;
                      set_totalCount := fs_total_count set0 |})
     | [] => ret (Error 404 "Flashcard set not found")
     end).

(** [DELETE /flashcard/:id]; the body of a success is [{ success: true }]. *)
Definition delete_flashcard (fk : set_id_constraint) (id : Z) : handler unit :=
  try_catch "Failed to delete flashcard set"
    (delete_flashcard_set fk id ;;;
     ret (Json tt)).

(* ================================================================== *)
(** * Study plan routes *)
(* ================================================================== *)

(** [deadline] is the instant, in milliseconds, that [new Date(deadline)]
    reads from the date string of the body. *)
Record generate_study_plan_body := {
  courseName : option string;
  deadline : option Z;
  hoursPerDay : option Z
}.

Record study_plan := {
  plan_id : Z;
  plan_courseName : string;
  plan_deadline : Z;
  plan_hoursPerDay : Z;
  plan_daysUntil : Z;
  plan_totalHours : Z;
  plan_plan : list week_entry;
  plan_progress : Z;
  plan_completed : bool;
  plan_createdAt : Z
}.

Record update_study_progress_body := {
  usp_id : Z;
  usp_progress : Z;
  usp_completed : bool
}.

Definition study_plan_prompt (courseName : string) (daysUntil totalHours hoursPerDay : Z) : string :=
  "Generate a comprehensive " +++ show_Z daysUntil +++ " day study plan for the course "
    +++ dq +++ courseName +++ dq
    +++ ". The plan should be broken down into approximately "
    +++ show_Z (ceil_div daysUntil 7)
    +++ " weekly phases. The total available study time is " +++ show_Z totalHours
    +++ " hours, with an average of " +++ show_Z hoursPerDay +++ " hours per day." +++ nl
  +++ "        " +++ nl
  +++ "        The output MUST be a JSON array of objects." +++ nl
  +++ "        Each object in the array MUST have the following structure:" +++ nl
  +++ "        {" +++ nl
  +++ "          " +++ dq +++ "week" +++ dq +++ ": [number, e.g., 1]," +++ nl
  +++ "          " +++ dq +++ "topic" +++ dq +++ ": [string, e.g., "
    +++ dq +++ "Introduction and Fundamentals" +++ dq +++ "]," +++ nl
  +++ "          " +++ dq +++ "hours" +++ dq
    +++ ": [number, The estimated hours for this week, ensuring the total hours across all weeks equals "
    +++ show_Z totalHours +++ "]," +++ nl
  +++ "          " +++ dq +++ "tasks" +++ dq +++ ": [array of strings, e.g., ["
    +++ dq +++ "Read chapters 1-3" +++ dq +++ ", "
    +++ dq +++ "Complete practice exercises" +++ dq +++ "]]" +++ nl
  +++ "        }" +++ nl
  +++ "        " +++ nl
  +++ "        Do not include any other text, explanation, or markdown formatting outside of the JSON array.".

(** [INSERT INTO study_plans (...) VALUES (?, ?, ?, ?, ?, ?, ?, ?, ?)]. *)
Definition insert_study_plan (course_name : string)
    (deadline hours_per_day days_until total_hours : Z)
    (plan_json : list week_entry) (progress : Z) (completed : bool) (now : Z) : db Z :=
  fun t =>
    let '(insertId, x) :=
      insert_row (fun id => {| sp_id := id; sp_course_name := course_name;
                               sp_deadline := deadline;
                               sp_hours_per_day := hours_per_day;
                               sp_days_until := days_until;
                               sp_total_hours := total_hours;
                               sp_plan_json := plan_json;
                               sp_progress := progress;
                               sp_completed := completed;
                               sp_created_at := now |})
                 (study_plans t) in
    (Returned insertId, with_study_plans t x).

(** [UPDATE study_plans SET progress = ?, completed = ? WHERE id = ?]. *)
Definition update_progress (progress : Z) (completed : bool) (id : Z) : db unit :=
  fun t =>
    (Returned tt,
     with_study_plans t
       (update_rows (fun r => sp_id r =? id)
                    (fun r => {| sp_id := sp_id r;
                                 sp_course_name := sp_course_name r;
                                 sp_deadline := sp_deadline r;
                                 sp_hours_per_day := sp_hours_per_day r;
                                 sp_days_until := sp_days_until r;
                                 sp_total_hours := sp_total_hours r;
                                 sp_plan_json := sp_plan_json r;
                                 sp_progress := progress;
                                 sp_completed := completed;
                                 sp_created_at := sp_created_at r |})
                    (study_plans t))).

(** [SELECT ... FROM study_plans WHERE id = ?]. *)
Definition select_study_plan (id : Z) : db (list study_plan_row) :=
  fun t => (Returned (select_rows (fun r => sp_id r =? id) (study_plans t)), t).

Definition study_plan_of_row (r : study_plan_row) : study_plan :=
  {| plan_id := sp_id r; plan_courseName := sp_course_name r;
     plan_deadline := sp_deadline r; plan_hoursPerDay := sp_hours_per_day r;
     plan_daysUntil := sp_days_until r; plan_totalHours := sp_total_hours r;
     plan_plan := sp_plan_json r; plan_progress := sp_progress r;
     plan_completed := sp_completed r; plan_createdAt := sp_created_at r |}.

(** [POST /generate-study-plan]; [now] is the reading of the clock. *)
Definition generate_study_plan
    (generateContent : string -> option (list week_entry)) (now : Z)
    (body : generate_study_plan_body) : handler study_plan :=
  try_catch "Failed to generate study plan from AI. Check API key/model."
    (if negb (truthy_string (courseName body))
        || negb (match deadline body with Some _ => true | None => false end)
        || negb (truthy_Z (hoursPerDay body))
     then ret (Error 400 "Missing required fields")
     else
       match courseName body, deadline body, hoursPerDay body with
       | Some courseName, Some deadlineDate, Some hoursPerDay =>
           let today := now in
           let daysUntil := ceil_div (deadlineDate - today) (1000 * 60 * 60 * 24) in
           let totalHours := daysUntil * hoursPerDay in
           if daysUntil <=? 0
           then ret (Error 400 "Deadline must be in the future")
           else
             let prompt := study_plan_prompt courseName daysUntil totalHours hoursPerDay in
             planData <- await (generateContent prompt) ;;
             insertId <- insert_study_plan courseName deadlineDate hoursPerDay
                           daysUntil totalHours planData 0 false now ;;
             ret (Json {| plan_id := insertId;
                          plan_courseName := courseName;
                          plan_deadline := deadlineDate;
                          plan_hoursPerDay := hoursPerDay;
                          plan_daysUntil := daysUntil;
                          plan_totalHours := totalHours;
                          plan_plan := planData;
                          plan_progress := 0;
                          plan_completed := false;
                          plan_createdAt := now |})
       | _, _, _ => ret (Error 400 "Missing required fields")
       end).

(** [POST /update-study-progress]. *)
Definition update_study_progress (body : update_study_progress_body) : handler study_plan :=
  try_catch "Failed to update progress"
    (let id := usp_id body in
     update_progress (usp_progress body) (usp_completed body) id ;;;
     rows <- select_study_plan id ;;
     match rows with
     | row0 :: _ => ret (Json (study_plan_of_row row0))
     | [] => ret (Error 404 "Study plan not found")
     end).

(** [DELETE /studyplan/:id]. *)
Definition delete_study_plan (id : Z) : handler unit :=
  try_catch "Failed to delete study plan"
    ((fun t => (Returned tt,
                with_study_plans t (delete_rows (fun r => sp_id r =? id) (study_plans t))))
     ;;; ret (Json tt)).

(* ================================================================== *)
(** * Notes routes *)
(* ================================================================== *)

Record upload_body := {
  fileName : option string;
  fileContent : option string
}.

Record note := {
  note_id : Z;
  note_title : string;
  note_content : string;
  note_source : source;
  note_createdAt : Z
}.

(** [INSERT INTO notes (user_id, title, content, source, file_name)]; the
    driver refuses [file_name] when it is [undefined]. *)
Definition insert_note (title content : string) (src : source)
    (file_name : option string) (now : Z) : db Z :=
  fun t =>
    match file_name with
    | Some _ =>
        let '(insertId, x) :=
          insert_row (fun id => {| n_id := id; n_title := title;
                                   n_content := content; n_source := src;
                                   n_file_name := file_name;
                                   n_created_at := now |})
                     (notes t) in
        (Returned insertId, with_notes t x)
    | None => (Thrown, t)
    end.

Definition pdf_content (fileName : option string) : string :=
  "# Notes from " +++ show_string fileName +++ nl +++ nl
  +++ "## Summary" +++ nl
  +++ "This is a mock extraction from the uploaded PDF file." +++ nl +++ nl
  +++ "## Key Points" +++ nl
  +++ "- Point 1: Important concept from the document" +++ nl
  +++ "- Point 2: Critical information extracted" +++ nl
  +++ "- Point 3: Summary of main ideas" +++ nl +++ nl
  +++ "## Detailed Notes" +++ nl
  +++ "The document contains valuable information that has been processed and summarized for easy review.".

(** [POST /upload-pdf]. *)
Definition upload_pdf (now : Z) (body : upload_body) : handler note :=
  try_catch "Failed to upload PDF"
    (let fileName := fileName body in
     let fileContent := fileContent body in
     let content := pdf_content fileName in
     insertId <- insert_note ("Notes from " +++ show_string fileName) content pdf fileName now ;;
     ret (Json {| note_id := insertId;
                  note_title := "Notes from " +++ show_string fileName;
                  note_content := content;
                  note_source := pdf;
                  note_createdAt := now |})).

(** [INSERT INTO notes (user_id, title, content, source)], which leaves
    [file_name] to its default. *)
Definition insert_ai_note (title content : string) (now : Z) : db Z :=
  fun t =>
    let '(insertId, x) :=
      insert_row (fun id => {| n_id := id; n_title := title;
                               n_content := content; n_source := ai;
                               n_file_name := None;
                               n_created_at := now |})
                 (notes t) in
    (Returned insertId, with_notes t x).

(** [POST /upload-local-file]; [toLocaleString] renders the clock. *)
Definition upload_local_file (toLocaleString : Z -> string) (now : Z)
    (body : upload_body) : handler note :=
  try_catch "Failed to upload local file"
    (let fileName := fileName body in
     let fileContent := fileContent body in
     if negb (truthy_string fileName) || negb (truthy_string fileContent)
     then ret (Error 400 "Missing file data")
     else
       let content :=
         "# " +++ show_string fileName +++ nl +++ nl
         +++ show_string fileContent +++ nl +++ nl
         +++ "---" +++ nl +++ "*Processed on " +++ toLocaleString now +++ "*" in
       insertId <- insert_note ("Notes from " +++ show_string fileName) content
                     local_file fileName now ;;
       ret (Json {| note_id := insertId;
                    note_title := "Notes from " +++ show_string fileName;
                    note_content := content;
                    note_source := local_file;
                    note_createdAt := now |})).

Record generate_ai_notes_body := {
  an_topic : option string;
  an_content : option string
}.

Definition ai_notes_prompt (topic content : option string) : string :=
  "Generate comprehensive study notes for the topic: " +++ dq +++ show_string topic +++ dq
    +++ ". Use the following content as a source, if provided: " +++ dq
    +++ or_string content "No specific content provided, use general knowledge."
    +++ dq +++ ". " +++ nl
  +++ "        " +++ nl
  +++ "        The notes should be formatted clearly using Markdown with sections for a Summary, Key Concepts (as a bulleted list), and Practice Questions (as a numbered list).".

(** [POST /generate-ai-notes]; the reply of the model is free text. *)
Definition generate_ai_notes (generateContent : string -> option string)
    (toLocaleString : Z -> string) (now : Z) (body : generate_ai_notes_body) : handler note :=
  try_catch "Failed to generate AI notes from AI. Check API key/model."
    (let topic := an_topic body in
     let content := an_content body in
     if negb (truthy_string topic) && negb (truthy_string content)
     then ret (Error 400 "Missing topic or content")
     else
       let prompt := ai_notes_prompt topic content in
       text <- await (generateContent prompt) ;;
       let noteContent :=
         text +++ nl +++ nl +++ "---" +++ nl
         +++ "*Generated by AI on " +++ toLocaleString now +++ "*" in
       insertId <- insert_ai_note (or_string topic "AI Generated Notes") noteContent now ;;
       ret (Json {| note_id := insertId;
                    note_title := or_string topic "AI Generated Notes";
                    note_content := noteContent;
                    note_source := ai;
                    note_createdAt := now |})).

(** [DELETE /note/:id]. *)
Definition delete_note (id : Z) : handler unit :=
  try_catch "Failed to delete note"
    ((fun t => (Returned tt,
                with_notes t (delete_rows (fun r => n_id r =? id) (notes t))))
     ;;; ret (Json tt)).

(* ================================================================== *)
(** * Chat routes *)
(* ================================================================== *)

(** The role names of the generative model. *)
Inductive model_role := model_user | model_model.

Record chat_turn := {
  turn_role : model_role;
  turn_text : string
}.

Record chat_response := {
  cr_id : Z;
  cr_role : chat_role;
  cr_content : string;
  cr_timestamp : Z
}.

(** [INSERT INTO chat_history (user_id, role, content)]. *)
Definition insert_chat (role : chat_role) (text : string) (now : Z) : db Z :=
  fun t =>
    let '(insertId, x) :=
      insert_row (fun id => {| ch_id := id; ch_role := role; ch_content := text;
                               ch_created_at := now |})
                 (chat_history t) in
    (Returned insertId, with_chat_history t x).

(** [SELECT ... FROM chat_history ORDER BY created_at ASC]: the order of
    insertion, for a clock that does not run backwards. *)
Definition select_chat_history : db (list chat_row) :=
  fun t => (Returned (rows (chat_history t)), t).

(** [POST /chat]; [sendMessage] stands for the chat session of the model,
    started on the history and sent the message. *)
Definition chat (sendMessage : list chat_turn -> string -> option string) (now : Z)
    (message : option string) : handler chat_response :=
  try_catch "Failed to process chat message from AI. Check API key/model."
    (if negb (truthy_string message)
     then ret (Error 400 "Message is required")
     else
       insert_chat user (show_string message) now ;;;
       historyRows <- select_chat_history ;;
       let chatHistory :=
         map (fun row => {| turn_role := match ch_role row with
                                         | user => model_user
                                         | assistant => model_model
                                         end;
                            turn_text := ch_content row |}) historyRows in
       aiContent <- await (sendMessage chatHistory (show_string message)) ;;
       insertId <- insert_chat assistant aiContent now ;;
       ret (Json {| cr_id := insertId; cr_role := assistant;
                    cr_content := aiContent; cr_timestamp := now |})).

(** [DELETE /chat-history]. *)
Definition clear_chat_history : handler unit :=
  try_catch "Failed to clear chat history"
    ((fun t => (Returned tt,
                with_chat_history t (delete_rows (fun _ => true) (chat_history t))))
     ;;; ret (Json tt)).

(* ================================================================== *)
(** * Dashboard route *)
(* ================================================================== *)

Record dashboard_stats_body := {
  totalNotes : Z;
  totalStudyPlans : Z;
  totalFlashcards : Z;
  totalTasks : Z;
  completedTasks : Z
}.

(** [SELECT COUNT( * )] and [SELECT SUM(e)]: the sum over no row is [NULL]. *)
Definition sql_count {R : Type} (t : table R) : Z := Z.of_nat (List.length (rows t)).

Definition sql_sum {R : Type} (e : R -> Z) (t : table R) : option Z :=
  match rows t with
  | [] => None
  | _ => Some (fold_right Z.add 0 (map e (rows t)))
  end.

(** [JSON_LENGTH(plan_json)]: the number of elements of the stored array. *)
Definition json_length (r : study_plan_row) : Z := Z.of_nat (List.length (sp_plan_json r)).

(** [FLOOR((progress / 100) * JSON_LENGTH(plan_json))]; the quotient of an
    integer by 100 is exact in the decimal arithmetic of the database. *)
Definition completed_of_row (r : study_plan_row) : Z :=
  (sp_progress r * json_length r) / 100.

(** [GET /dashboard-stats]. *)
Definition dashboard_stats : handler dashboard_stats_body :=
  try_catch "Failed to fetch dashboard stats"
    (fun t =>
       let notesCount := sql_count (notes t) in
       let plansCount := sql_count (study_plans t) in
       let flashcardsCount := sql_sum fs_total_count (flashcard_sets t) in
       let total := sql_sum json_length (study_plans t) in
       let completed := sql_sum completed_of_row (study_plans t) in
       ret (Json {| totalNotes := notesCount;
                    totalStudyPlans := plansCount;
                    totalFlashcards := or_Z flashcardsCount 0;
                    totalTasks := or_Z total 0;
                    completedTasks := or_Z completed 0 |}) t).

(* ================================================================== *)
(** * Export *)
(* ================================================================== *)

Record download_export_body := {
  de_type : option string;
  de_id : option Z;
  de_format : option string
}.

Record export_file := {
  content : string;
  filename : string
}.

(** [xs.map((x, i) => f(x, i))], the index starting at [i]. *)
Fixpoint map_index {A B : Type} (f : A -> Z -> B) (i : Z) (xs : list A) : list B :=
  match xs with
  | [] => []
  | x :: rest => f x i :: map_index f (i + 1) rest
  end.

Definition role_upper (r : chat_role) : string :=
  match r with
  | user => "USER"
  | assistant => "ASSISTANT"
  end.

(** [SELECT * FROM notes WHERE id = ?] and
    [SELECT * FROM flashcards WHERE set_id = ?]. *)
Definition select_note (id : Z) : db (list note_row) :=
  fun t => (Returned (select_rows (fun r => n_id r =? id) (notes t)), t).

Definition select_flashcard_rows (setId : Z) : db (list flashcard_row) :=
  fun t => (Returned (select_rows (fun r => fc_set_id r =? setId) (flashcards t)), t).

Section ExportFormat.

(** The renderings of an instant by [toLocaleDateString] and
    [toLocaleString], which depend on the locale of the server. *)
Variable toLocaleDateString : Z -> string.
Variable toLocaleString : Z -> string.

(** The prefix of a task in the source is a space, a no-break space, a
    hyphen and a space. *)
Definition format_task (t : string) : string := " " +++ nbsp +++ "- " +++ t.

Definition format_week (w : week_entry) : string :=
  "Week " +++ show_Z (week w) +++ ": " +++ topic w +++ nl
  +++ "Hours: " +++ show_Z (hours w) +++ nl
  +++ "Tasks:" +++ nl
  +++ join nl (map format_task (tasks w)) +++ nl.

Definition formatStudyPlanForExport (plan : study_plan_row) : string :=
  let header :=
    "STUDY PLAN: " +++ sp_course_name plan +++ nl
    +++ repeat_string "=" 50 +++ nl +++ nl in
  let details :=
    "Deadline: " +++ toLocaleDateString (sp_deadline plan) +++ nl
    +++ "Hours per day: " +++ show_Z (sp_hours_per_day plan) +++ nl
    +++ "Total hours: " +++ show_Z (sp_total_hours plan) +++ nl
    +++ "Progress: " +++ show_Z (sp_progress plan) +++ "%" +++ nl +++ nl in
  let weeks := join nl (map format_week (sp_plan_json plan)) in
  header +++ details +++ weeks +++ nl
  +++ "Created: " +++ toLocaleString (sp_created_at plan) +++ nl.

Definition format_message (msg : chat_row) : string :=
  "[" +++ toLocaleString (ch_created_at msg) +++ "] " +++ role_upper (ch_role msg) +++ ":" +++ nl
  +++ ch_content msg +++ nl.

Definition formatChatHistoryForExport (history : list chat_row) : string :=
  let header := "CHAT HISTORY" +++ nl +++ repeat_string "=" 50 +++ nl +++ nl in
  let messages := join nl (map format_message history) in
  header +++ messages.

Definition format_card (c : flashcard_row) (i : Z) : string :=
  "Card " +++ show_Z (i + 1) +++ ":" +++ nl
  +++ "Q: " +++ fc_question c +++ nl
  +++ "A: " +++ fc_answer c +++ nl
  +++ "Status: " +++ (if fc_known c then "Known" else "Unknown") +++ nl.

Definition formatFlashcardsForExport (flashcardSet : flashcard_set_row)
    (set_cards : list flashcard_row) : string :=
  let header :=
    "FLASHCARDS: " +++ fs_topic flashcardSet +++ nl
    +++ repeat_string "=" 50 +++ nl +++ nl
    +++ "Total Cards: " +++ show_Z (fs_total_count flashcardSet) +++ nl
    +++ "Known: " +++ show_Z (fs_known_count flashcardSet) +++ nl +++ nl in
  let cards := join nl (map_index format_card 0 set_cards) in
  header +++ cards
  +++ "Created: " +++ toLocaleString (fs_created_at flashcardSet) +++ nl.

(** The end of the export route: an empty [content] is not found. *)
Definition send_export (content filename : string) : db (response export_file) :=
  if String.eqb content EmptyString
  then ret (Error 404 "Content not found")
  else ret (Json {| content := content; filename := filename |}).

(** [POST /download-export]; [now] is [Date.now()].  An [id] that the
    body lacks is a bind parameter that the driver refuses. *)
Definition download_export (now : Z) (body : download_export_body) : handler export_file :=
  try_catch "Failed to export data"
    (let format := show_string (de_format body) in
     match de_type body with
     | Some type =>
         if String.eqb type "study" then
           id <- await (de_id body) ;;
           plans <- select_study_plan id ;;
           match plans with
           | plan :: _ =>
               send_export (formatStudyPlanForExport plan)
                 ("study-plan-" +++ replace_spaces (sp_course_name plan) +++ "-"
                  +++ show_Z now +++ "." +++ format)
           | [] => send_export EmptyString EmptyString
           end
         else if String.eqb type "notes" then
           id <- await (de_id body) ;;
           notes <- select_note id ;;
           match notes with
           | note0 :: _ =>
               send_export (n_content note0)
                 ("note-" +++ replace_spaces (n_title note0) +++ "-"
                  +++ show_Z now +++ "." +++ format)
           | [] => send_export EmptyString EmptyString
           end
         else if String.eqb type "chat" then
           chatRows <- select_chat_history ;;
           send_export (formatChatHistoryForExport chatRows)
             ("chat-history-" +++ show_Z now +++ "." +++ format)
         else if String.eqb type "flashcards" then
           id <- await (de_id body) ;;
           sets <- select_flashcard_set id ;;
           match sets with
           | set0 :: _ =>
               cards <- select_flashcard_rows id ;;
               send_export (formatFlashcardsForExport set0 cards)
                 ("flashcards-" +++ replace_spaces (fs_topic set0) +++ "-"
                  +++ show_Z now +++ "." +++ format)
           | [] => send_export EmptyString EmptyString
           end
         else ret (Error 400 "Invalid export type")
     | None => ret (Error 400 "Invalid export type")
     end).

End ExportFormat.

(* ================================================================== *)
(** * The tables that the routes can produce *)
(* ================================================================== *)

(** A request to one of the routes that write, with the replies of the
    model and the renderings of the clock that the handler consumes. *)
Inductive request :=
| PostGenerateStudyPlan (generateContent : string -> option (list week_entry))
    (now : Z) (body : generate_study_plan_body)
| PostUpdateStudyProgress (body : update_study_progress_body)
| DeleteStudyPlan (id : Z)
| PostUploadPdf (now : Z) (body : upload_body)
| PostUploadLocalFile (toLocaleString : Z -> string) (now : Z) (body : upload_body)
| PostGenerateAiNotes (generateContent : string -> option string)
    (toLocaleString : Z -> string) (now : Z) (body : generate_ai_notes_body)
| DeleteNote (id : Z)
| PostGenerateFlashcards (generateContent : string -> option (list generated_card))
    (now : Z) (body : generate_flashcards_body)
| PostSaveFlashcardStatus (body : save_flashcard_status_body)
| DeleteFlashcard (id : Z)
| PostChat (sendMessage : list chat_turn -> string -> option string)
    (now : Z) (message : option string)
| DeleteChatHistory.

Definition serve (fk : set_id_constraint) (t : tables) (req : request) : tables :=
  match req with
  | PostGenerateStudyPlan generateContent now body =>
      snd (generate_study_plan generateContent now body t)
  | PostUpdateStudyProgress body => snd (update_study_progress body t)
  | DeleteStudyPlan id => snd (delete_study_plan id t)
  | PostUploadPdf now body => snd (upload_pdf now body t)
  | PostUploadLocalFile toLocaleString now body =>
      snd (upload_local_file toLocaleString now body t)
  | PostGenerateAiNotes generateContent toLocaleString now body =>
      snd (generate_ai_notes generateContent toLocaleString now body t)
  | DeleteNote id => snd (delete_note id t)
  | PostGenerateFlashcards generateContent now body =>
      snd (generate_flashcards generateContent now body t)
  | PostSaveFlashcardStatus body => snd (save_flashcard_status body t)
  | DeleteFlashcard id => snd (delete_flashcard fk id t)
  | PostChat sendMessage now message => snd (chat sendMessage now message t)
  | DeleteChatHistory => snd (clear_chat_history t)
  end.

(** The tables that a sequence of requests leads to from empty tables. *)
Inductive reachable (fk : set_id_constraint) : tables -> Prop :=
| reach_empty : reachable fk empty_tables
| reach_serve (t : tables) (req : request) :
    reachable fk t -> reachable fk (serve fk t req).

(* ================================================================== *)
(** * Notions used by the properties *)
(* ================================================================== *)

Definition set_exists (setId : Z) (t : tables) : Prop :=
  exists r, In r (rows (flashcard_sets t)) /\ fs_id r = setId.

Definition plan_exists (id : Z) (t : tables) : Prop :=
  exists r, In r (rows (study_plans t)) /\ sp_id r = id.

(** The number of cards of a set that the table holds as known. *)
Definition known_cards (setId : Z) (t : tables) : Z :=
  Z.of_nat (List.length
    (filter fc_known (select_rows (fun r => fc_set_id r =? setId) (flashcards t)))).

(** Every row of the set [setId] carries the count of its known cards. *)
Definition known_count_consistent (setId : Z) (t : tables) : Prop :=
  forall r, In r (rows (flashcard_sets t)) -> fs_id r = setId ->
            fs_known_count r = known_cards setId t.

(** No card row refers to the set [setId]. *)
Definition no_cards_of (setId : Z) (t : tables) : Prop :=
  forall c, In c (rows (flashcards t)) -> fc_set_id c <> setId.

(** Every card row refers to a set row. *)
Definition cards_have_sets (t : tables) : Prop :=
  forall c, In c (rows (flashcards t)) -> set_exists (fc_set_id c) t.

(** Set ids, in the set rows and in the card rows, are below the counter
    of [flashcard_sets]. *)
Definition set_ids_below_counter (t : tables) : Prop :=
  (forall s, In s (rows (flashcard_sets t)) -> fs_id s < auto_increment (flashcard_sets t))
  /\ (forall c, In c (rows (flashcards t)) -> fc_set_id c < auto_increment (flashcard_sets t)).

(** Plan ids are below the counter of [study_plans]. *)
Definition plan_ids_below_counter (t : tables) : Prop :=
  forall r, In r (rows (study_plans t)) -> sp_id r < auto_increment (study_plans t).

(** The tables after a sequence of [/save-flashcard-status] calls. *)
Definition save_all (calls : list save_flashcard_status_body) (t : tables) : tables :=
  fold_left (fun t' b => snd (save_flashcard_status b t')) calls t.

(** The two writes of [/save-flashcard-status], as functions on the tables. *)
Definition mark_card (b : save_flashcard_status_body) (t : tables) : tables :=
  snd (update_flashcard_known (ss_known b) (ss_cardId b) (ss_setId b) t).

Definition recount (setId : Z) (t : tables) : tables :=
  snd (update_known_count (known_cards setId t) setId t).

Definition day_ms : Z := 1000 * 60 * 60 * 24.

(** An element of the reply with both its properties. *)
Definition has_fields (g : generated_card) : Prop :=
  question g <> None /\ answer g <> None.

(** The rows that the generate routes write on tables [t]: the set, its
    cards with ids from [id] on, and the plan. *)
Fixpoint card_rows (setId id : Z) (generatedCards : list generated_card) : list flashcard_row :=
  match generatedCards with
  | [] => []
  | g :: rest =>
      {| fc_id := id; fc_set_id := setId;
         fc_question := show_string (question g);
         fc_answer := show_string (answer g);
         fc_known := false |} :: card_rows setId (id + 1) rest
  end.

Definition fresh_set_row (now : Z) (body : generate_flashcards_body)
    (generatedCards : list generated_card) (t : tables) : flashcard_set_row :=
  {| fs_id := auto_increment (flashcard_sets t);
     fs_topic := or_string (gf_topic body) "General Study";
     fs_total_count := Z.of_nat (List.length generatedCards);
     fs_known_count := 0;
     fs_created_at := now |}.

Definition fresh_card_rows (generatedCards : list generated_card) (t : tables)
    : list flashcard_row :=
  card_rows (auto_increment (flashcard_sets t)) (auto_increment (flashcards t))
            generatedCards.

Definition fresh_plan_row (now : Z) (cn : string) (dl hpd : Z)
    (planData : list week_entry) (t : tables) : study_plan_row :=
  {| sp_id := auto_increment (study_plans t);
     sp_course_name := cn;
     sp_deadline := dl;
     sp_hours_per_day := hpd;
     sp_days_until := ceil_div (dl - now) day_ms;
     sp_total_hours := ceil_div (dl - now) day_ms * hpd;
     sp_plan_json := planData;
     sp_progress := 0;
     sp_completed := false;
     sp_created_at := now |}.

Definition sum_over {R : Type} (e : R -> Z) (l : list R) : Z :=
  fold_right Z.add 0 (map e l).

(** The number of tasks of a plan: the lengths of the [tasks] arrays of its
    weeks, added up. *)
Definition tasks_of_plan (r : study_plan_row) : Z :=
  sum_over (fun w => Z.of_nat (List.length (tasks w))) (sp_plan_json r).

(** [s] occurs in [text]. *)
Definition occurs_in (s text : string) : Prop :=
  exists before after, text = before +++ s +++ after.

Definition all_spaces (s : string) : bool := forallb is_space (list_ascii_of_string s).

Definition no_spaces (s : string) : bool :=
  forallb (fun c => negb (is_space c)) (list_ascii_of_string s).

Definition starts_with_space (s : string) : bool :=
  match s with
  | String c _ => is_space c
  | EmptyString => false
  end.

(** Whether the scan is inside a run of white space after reading [s]. *)
Fixpoint in_run_after (in_run : bool) (s : string) : bool :=
  match s with
  | EmptyString => in_run
  | String c rest => in_run_after (is_space c) rest
  end.

Definition ends_with_space (s : string) : bool := in_run_after false s.

(** The course names, note titles and set topics that the tables hold. *)
Definition record_title (t : tables) (title : string) : Prop :=
  (exists p, In p (rows (study_plans t)) /\ sp_course_name p = title)
  \/ (exists n, In n (rows (notes t)) /\ n_title n = title)
  \/ (exists s, In s (rows (flashcard_sets t)) /\ fs_topic s = title).

Definition filename_of_response (r : response export_file) : option string :=
  match r with
  | Json file => Some (filename file)
  | Error _ _ => None
  end.

(* ================================================================== *)
(** * Four sentences of the specification, read on their own *)
(* ================================================================== *)

(** Deleting a set leaves no card of it, whatever the table definitions
    say about [set_id]. *)
Definition delete_removes_cards_always : Prop :=
  forall fk id t,
    reachable fk t -> set_exists id t ->
    no_cards_of id (snd (delete_flashcard fk id t)).

(** A status call on a set that does not exist answers 404 and leaves
    every table as it was. *)
Definition not_found_mutates_nothing : Prop :=
  forall fk b t,
    reachable fk t -> ~ set_exists (ss_setId b) t ->
    save_flashcard_status b t = (Error 404 "Flashcard set not found", t).

(** The file name of every export that succeeds carries the slug of a
    title or topic. *)
Definition every_filename_has_slug : Prop :=
  forall toLocaleDateString toLocaleString now body t file,
    fst (download_export toLocaleDateString toLocaleString now body t) = Json file ->
    exists prefix title,
      record_title t title
      /\ filename file
         = prefix +++ "-" +++ replace_spaces title +++ "-" +++ show_Z now
           +++ "." +++ show_string (de_format body).

(** [totalTasks] adds up the lengths of the task arrays of the plans. *)
Definition total_tasks_counts_tasks : Prop :=
  forall t stats,
    fst (dashboard_stats t) = Json stats ->
    totalTasks stats = sum_over tasks_of_plan (rows (study_plans t)).

(* ================================================================== *)
(** * Sample requests and tables *)
(* ================================================================== *)

(** A reply of three cards, whatever the prompt asks for. *)
Definition three_cards : list generated_card :=
  [ {| question := Some "What is a tree?"; answer := Some "A connected acyclic graph" |};
    {| question := Some "What is a leaf?"; answer := Some "A vertex of degree one" |};
    {| question := Some "What is a forest?"; answer := Some "A disjoint union of trees" |} ].

Definition ask_five : generate_flashcards_body :=
  {| gf_topic := Some "Graph theory"; gf_count := Some 5 |}.

Definition generate_three : request :=
  PostGenerateFlashcards (fun _ => Some three_cards) 1000 ask_five.

(** A set is generated, then deleted while no foreign key guards its
    cards. *)
Definition tables_after_generate : tables := serve NoForeignKey empty_tables generate_three.

Definition tables_after_delete : tables :=
  serve NoForeignKey tables_after_generate (DeleteFlashcard 1).

Definition mark_first_known : save_flashcard_status_body :=
  {| ss_setId := 1; ss_cardId := 1; ss_known := true |}.

Definition tables_one_known : tables :=
  {| study_plans := empty_table; notes := empty_table;
     flashcard_sets :=
       {| rows := [ {| fs_id := 1; fs_topic := "Graph theory"; fs_total_count := 2;
                       fs_known_count := 1; fs_created_at := 1000 |} ];
          auto_increment := 2 |};
     flashcards :=
       {| rows := [ {| fc_id := 1; fc_set_id := 1; fc_question := "What is a tree?";
                       fc_answer := "A connected acyclic graph"; fc_known := true |};
                    {| fc_id := 2; fc_set_id := 1; fc_question := "What is a leaf?";
                       fc_answer := "A vertex of degree one"; fc_known := false |} ];
          auto_increment := 3 |};
     chat_history := empty_table |}.

Definition two_calls : list save_flashcard_status_body :=
  [ {| ss_setId := 1; ss_cardId := 2; ss_known := true |};
    {| ss_setId := 1; ss_cardId := 1; ss_known := false |} ].

Definition one_week_plan : list week_entry :=
  [ {| week := 1; topic := "Introduction and Fundamentals"; hours := 14;
       tasks := ["Read chapters 1-3"; "Complete practice exercises"] |} ].

Definition algorithms_row : study_plan_row :=
  {| sp_id := 1; sp_course_name := "Algorithms"; sp_deadline := 1000000 + 7 * day_ms;
     sp_hours_per_day := 2; sp_days_until := 7; sp_total_hours := 14;
     sp_plan_json := one_week_plan; sp_progress := 0; sp_completed := false;
     sp_created_at := 1000000 |}.

Definition tables_one_plan : tables :=
  with_study_plans empty_tables {| rows := [algorithms_row]; auto_increment := 2 |}.

(** The requests that lead to [tables_one_known] and to [tables_one_plan]. *)
Definition generate_two : request :=
  PostGenerateFlashcards
    (fun _ => Some [ {| question := Some "What is a tree?";
                        answer := Some "A connected acyclic graph" |};
                     {| question := Some "What is a leaf?";
                        answer := Some "A vertex of degree one" |} ])
    1000 {| gf_topic := Some "Graph theory"; gf_count := Some 2 |}.

Definition generate_algorithms : request :=
  PostGenerateStudyPlan (fun _ => Some one_week_plan) 1000000
    {| courseName := Some "Algorithms"; deadline := Some (1000000 + 7 * day_ms);
       hoursPerDay := Some 2 |}.

Definition export_chat_txt : download_export_body :=
  {| de_type := Some "chat"; de_id := None; de_format := Some "txt" |}.

(* ================================================================== *)
(** * Read routes *)
(* ================================================================== *)

(** [ORDER BY created_at DESC].  [insert_desc] puts a row before the first
    row that is strictly older; rows of one instant, whose order the
    database leaves open, stay in the order of the scan. *)
Fixpoint insert_desc {R : Type} (key : R -> Z) (x : R) (l : list R) : list R :=
  match l with
  | [] => [x]
  | y :: rest => if key y <? key x then x :: l else y :: insert_desc key x rest
  end.

Fixpoint order_by_desc {R : Type} (key : R -> Z) (l : list R) : list R :=
  match l with
  | [] => []
  | x :: rest => insert_desc key x (order_by_desc key rest)
  end.

(** [GET /studyplans]. *)
Definition get_studyplans : handler (list study_plan) :=
  try_catch "Failed to fetch study plans"
    (fun t =>
       let rows := order_by_desc sp_created_at (rows (study_plans t)) in
       let studyPlans := map study_plan_of_row rows in
       ret (Json studyPlans) t).

Definition note_of_row (r : note_row) : note :=
  {| note_id := n_id r; note_title := n_title r; note_content := n_content r;
     note_source := n_source r; note_createdAt := n_created_at r |}.

(** [GET /notes-history]. *)
Definition get_notes_history : handler (list note) :=
  try_catch "Failed to fetch notes history"
    (fun t =>
       let rows := order_by_desc n_created_at (rows (notes t)) in
       ret (Json (map note_of_row rows)) t).

(** The loop [for (const set of sets)] of the history route: one [SELECT]
    of cards per set, the set with its cards pushed on [flashcards]. *)
Fixpoint load_cards (sets : list flashcard_set_row) (history : list flashcard_set)
    : db (list flashcard_set) :=
  match sets with
  | [] => ret history
  | set0 :: rest =>
      cards <- select_cards (fs_id set0) ;;
      load_cards rest
        (history ++ [ {| set_id := fs_id set0;
                         set_topic := fs_topic set0;
                         set_cards := cards;
                         set_createdAt := fs_created_at set0;
                         set_knownCount := fs_known_count set0;
                         set_totalCount := fs_total_count set0 |} ])
  end.

(** [GET /flashcards-history]. *)
Definition get_flashcards_history : handler (list flashcard_set) :=
  try_catch "Failed to fetch flashcards"
    (fun t =>
       let sets := order_by_desc fs_created_at (rows (flashcard_sets t)) in
       (flashcards <- load_cards sets [] ;;
        ret (Json flashcards)) t).

Definition chat_response_of_row (r : chat_row) : chat_response :=
  {| cr_id := ch_id r; cr_role := ch_role r; cr_content := ch_content r;
     cr_timestamp := ch_created_at r |}.

(** [GET /chat-history]. *)
Definition get_chat_history : handler (list chat_response) :=
  try_catch "Failed to fetch chat history"
    (rows <- select_chat_history ;;
     ret (Json (map chat_response_of_row rows))).

(* ================================================================== *)
(** * Further notions: ids, counts and the rows that the routes write *)
(* ================================================================== *)

(** The ids of a table are pairwise distinct and below its counter. *)
Definition table_ok {R : Type} (key : R -> Z) (tb : table R) : Prop :=
  NoDup (map key (rows tb))
  /\ (forall r, In r (rows tb) -> key r < auto_increment tb).

Definition tables_ok (t : tables) : Prop :=
  table_ok sp_id (study_plans t)
  /\ table_ok n_id (notes t)
  /\ table_ok fs_id (flashcard_sets t)
  /\ table_ok fc_id (flashcards t)
  /\ table_ok ch_id (chat_history t).

Definition note_exists (id : Z) (t : tables) : Prop :=
  exists r, In r (rows (notes t)) /\ n_id r = id.

(** The card rows of a set. *)
Definition cards_of (setId : Z) (t : tables) : list flashcard_row :=
  select_rows (fun c => fc_set_id c =? setId) (flashcards t).

(** No set has more cards than its [total_count] says. *)
Definition cards_within_total (t : tables) : Prop :=
  forall s, In s (rows (flashcard_sets t)) ->
            Z.of_nat (List.length (cards_of (fs_id s) t)) <= fs_total_count s.

(** A stored set as the history route lists it, with the cards that the
    card table holds for it. *)
Definition set_with_cards (t : tables) (s : flashcard_set_row) : flashcard_set :=
  {| set_id := fs_id s; set_topic := fs_topic s;
     set_cards := map card_of_row (cards_of (fs_id s) t);
     set_createdAt := fs_created_at s; set_knownCount := fs_known_count s;
     set_totalCount := fs_total_count s |}.

(** Descending order of a key along a list. *)
Definition descending {R : Type} (key : R -> Z) (l : list R) : Prop :=
  StronglySorted (fun a b => key b <= key a) l.

(** A stored plan with its progress columns written. *)
Definition with_progress (progress : Z) (completed : bool) (r : study_plan_row)
    : study_plan_row :=
  {| sp_id := sp_id r; sp_course_name := sp_course_name r;
     sp_deadline := sp_deadline r; sp_hours_per_day := sp_hours_per_day r;
     sp_days_until := sp_days_until r; sp_total_hours := sp_total_hours r;
     sp_plan_json := sp_plan_json r; sp_progress := progress;
     sp_completed := completed; sp_created_at := sp_created_at r |}.

(** A card as a response carries it, with its [known] flag written when
    it has the id [cardId]. *)
Definition with_known (cardId : Z) (known : bool) (c : card) : card :=
  if card_id c =? cardId
  then {| card_id := card_id c; card_question := card_question c;
          card_answer := card_answer c; card_known := known |}
  else c.

(** The turn that the chat route hands to the model for a stored row. *)
Definition turn_of_row (row : chat_row) : chat_turn :=
  {| turn_role := match ch_role row with
                  | user => model_user
                  | assistant => model_model
                  end;
     turn_text := ch_content row |}.

(** The rows that the chat route writes on tables [t]. *)
Definition user_row (now : Z) (message : string) (t : tables) : chat_row :=
  {| ch_id := auto_increment (chat_history t); ch_role := user;
     ch_content := message; ch_created_at := now |}.

Definition assistant_row (now : Z) (reply : string) (t : tables) : chat_row :=
  {| ch_id := auto_increment (chat_history t) + 1; ch_role := assistant;
     ch_content := reply; ch_created_at := now |}.

(** The contents of the notes that the local-file and the AI producers
    build. *)
Definition local_file_content (toLocaleString : Z -> string) (now : Z)
    (name text : string) : string :=
  "# " +++ name +++ nl +++ nl +++ text +++ nl +++ nl
  +++ "---" +++ nl +++ "*Processed on " +++ toLocaleString now +++ "*".

Definition ai_note_content (toLocaleString : Z -> string) (now : Z) (text : string)
    : string :=
  text +++ nl +++ nl +++ "---" +++ nl
  +++ "*Generated by AI on " +++ toLocaleString now +++ "*".

(** A reply whose element after the elements [good] lacks a property. *)
Definition lacks_field (g : generated_card) : Prop :=
  question g = None \/ answer g = None.

(* ================================================================== *)
(** * Further sample requests *)
(* ================================================================== *)

Definition lecture_file : upload_body :=
  {| fileName := Some "lecture 1.txt"; fileContent := Some "Trees are connected." |}.

Definition ask_trees : generate_ai_notes_body :=
  {| an_topic := Some "Trees"; an_content := None |}.

Definition echo_model (history : list chat_turn) (message : string) : option string :=
  Some ("You said: " +++ message).

Definition halved_row : study_plan_row := with_progress 50 false algorithms_row.

Definition broken_cards : list generated_card :=
  [ {| question := Some "What is a tree?"; answer := Some "A connected acyclic graph" |};
    {| question := Some "What is a leaf?"; answer := None |};
    {| question := Some "What is a forest?"; answer := Some "A disjoint union of trees" |} ].

(* ================================================================== *)
(** * Facts about the statements *)
(* ================================================================== *)

Lemma map_update_nowhere {R : Type} (where_ : R -> bool) (set : R -> R) (l : list R) :
  (forall r, In r l -> where_ r = false) ->
  map (fun r => if where_ r then set r else r) l = l.
Proof.
  induction l as [|x l IH]; intros H; simpl; [reflexivity|].
  rewrite (H x (or_introl eq_refl)). f_equal.
  apply IH. intros r Hr. apply H. now right.
Qed.

Lemma filter_update_other {R : Type} (p where_ : R -> bool) (set : R -> R) (l : list R) :
  (forall r, where_ r = true -> p r = false) ->
  (forall r, where_ r = true -> p (set r) = false) ->
  filter p (map (fun r => if where_ r then set r else r) l) = filter p l.
Proof.
  intros H1 H2. induction l as [|x l IH]; simpl; [reflexivity|].
  destruct (where_ x) eqn:W.
  - rewrite (H1 x W), (H2 x W). exact IH.
  - destruct (p x); [f_equal|]; exact IH.
Qed.

Lemma filter_nothing {R : Type} (p : R -> bool) (l : list R) :
  (forall r, In r l -> p r = false) -> filter p l = [].
Proof.
  induction l as [|x l IH]; intros H; simpl; [reflexivity|].
  rewrite (H x (or_introl eq_refl)). apply IH. intros r Hr. apply H. now right.
Qed.

Lemma filter_all {R : Type} (p : R -> bool) (l : list R) :
  (forall r, In r l -> p r = true) -> filter p l = l.
Proof.
  induction l as [|x l IH]; intros H; simpl; [reflexivity|].
  rewrite (H x (or_introl eq_refl)). f_equal. apply IH. intros r Hr. apply H. now right.
Qed.

Lemma filter_nonempty_In {R : Type} (p : R -> bool) (l : list R) (x : R) (rest : list R) :
  filter p l = x :: rest -> In x l /\ p x = true.
Proof.
  intros H. apply filter_In. rewrite H. now left.
Qed.

Lemma filter_filter_other {R : Type} (p q : R -> bool) (l : list R) :
  (forall r, p r = true -> q r = true) -> filter p (filter q l) = filter p l.
Proof.
  intros H. induction l as [|x l IH]; simpl; [reflexivity|].
  destruct (q x) eqn:Q; simpl.
  - destruct (p x); [f_equal|]; exact IH.
  - destruct (p x) eqn:P; [|exact IH]. rewrite (H x P) in Q. discriminate Q.
Qed.

Lemma In_map_eq {A B : Type} (f : A -> B) (l l' : list A) (x : A) :
  map f l' = map f l -> In x l' -> exists y, In y l /\ f y = f x.
Proof.
  intros Hm Hin. apply (in_map f) in Hin. rewrite Hm in Hin.
  apply in_map_iff in Hin as (y & Hy & Hin). now exists y.
Qed.

Lemma In_update_rows {R : Type} (where_ : R -> bool) (set : R -> R) (t : table R) (r : R) :
  In r (rows (update_rows where_ set t)) ->
  exists r0, In r0 (rows t) /\ r = (if where_ r0 then set r0 else r0).
Proof.
  unfold update_rows. cbn [rows]. intros H. apply in_map_iff in H as (r0 & <- & H0).
  now exists r0.
Qed.

Lemma delete_rows_gone {R : Type} (where_ : R -> bool) (t : table R) (r : R) :
  In r (rows (delete_rows where_ t)) -> where_ r = false.
Proof.
  unfold delete_rows. cbn [rows]. intros H. apply filter_In in H as [_ H].
  now apply negb_true_iff in H.
Qed.

Lemma tables_eq (t u : tables) :
  study_plans t = study_plans u -> notes t = notes u ->
  flashcard_sets t = flashcard_sets u -> flashcards t = flashcards u ->
  chat_history t = chat_history u -> t = u.
Proof.
  destruct t, u; simpl; intros; subst; reflexivity.
Qed.

Lemma update_rows_idem {R : Type} (where_ : R -> bool) (set : R -> R) (t : table R) :
  (forall r, where_ r = true -> where_ (set r) = true) ->
  (forall r, set (set r) = set r) ->
  update_rows where_ set (update_rows where_ set t) = update_rows where_ set t.
Proof.
  intros Hw Hs. unfold update_rows. cbn [rows auto_increment]. f_equal.
  rewrite map_map. apply map_ext. intros r.
  destruct (where_ r) eqn:W.
  - rewrite (Hw r W). apply Hs.
  - rewrite W. reflexivity.
Qed.

Lemma select_update_rows {R : Type} (p where_ : R -> bool) (set : R -> R) (t : table R) :
  (forall r, p (set r) = p r) ->
  select_rows p (update_rows where_ set t)
  = map (fun r => if where_ r then set r else r) (select_rows p t).
Proof.
  intros Hp. unfold select_rows, update_rows. cbn [rows].
  induction (rows t) as [|x l IH]; simpl; [reflexivity|].
  assert (p (if where_ x then set x else x) = p x) as ->
    by (destruct (where_ x); [apply Hp | reflexivity]).
  destruct (p x); simpl; now rewrite IH.
Qed.

(* ================================================================== *)
(** * Flashcards: generation *)
(* ================================================================== *)

(** The loop of the generate route leaves the sets alone, appends rows of
    the set to the cards, and returns one unknown card per element when
    it returns. *)
Lemma insert_cards_spec (setId : Z) (generatedCards : list generated_card) :
  forall (cards : list card) (t : tables),
    let r := insert_cards setId generatedCards cards t in
    flashcard_sets (snd r) = flashcard_sets t
    /\ study_plans (snd r) = study_plans t
    /\ notes (snd r) = notes t
    /\ chat_history (snd r) = chat_history t
    /\ (exists added,
          rows (flashcards (snd r)) = rows (flashcards t) ++ added
          /\ Forall (fun c => fc_set_id c = setId /\ fc_known c = false) added
          /\ auto_increment (flashcards (snd r))
             = auto_increment (flashcards t) + Z.of_nat (List.length added))
    /\ (forall cards', fst r = Returned cards' ->
          exists new,
            cards' = cards ++ new
            /\ List.length new = List.length generatedCards
            /\ Forall (fun c => card_known c = false) new)
    /\ (Forall has_fields generatedCards ->
          exists cards', fst r = Returned cards').
Proof.
  induction generatedCards as [|c rest IH]; intros cards t; simpl.
  - repeat split; try reflexivity.
    + exists []. rewrite app_nil_r. repeat split; [constructor | simpl; lia].
    + intros cards' H. inversion H; subst. exists []. rewrite app_nil_r.
      repeat split. constructor.
    + intros _. now exists cards.
  - unfold bind, insert_flashcard.
    destruct (question c) as [q|] eqn:Q; [destruct (answer c) as [a|] eqn:A|].
    + cbn [insert_row fst snd].
      match goal with
      | |- context [insert_cards setId rest ?cs ?t1] =>
          specialize (IH cs t1); cbv zeta in IH;
          destruct (insert_cards setId rest cs t1) as [o t2] eqn:E
      end.
      cbn [fst snd] in *.
      destruct IH as (Hs & Hp & Hn & Hc & (added & Hrows & Hadded & Hai) & Hret & Htot).
      repeat split; try assumption.
      * eexists (_ :: added). split; [|split].
        -- rewrite Hrows. cbn. rewrite <- app_assoc. reflexivity.
        -- constructor; [cbn; split; reflexivity | exact Hadded].
        -- rewrite Hai. cbn [flashcards with_flashcards auto_increment List.length]. lia.
      * intros cards' H. destruct (Hret cards' H) as (new & -> & Hlen & Hnew).
        eexists (_ :: new). rewrite <- app_assoc. split; [reflexivity|].
        split; [simpl; now rewrite Hlen|].
        constructor; [reflexivity | exact Hnew].
      * intros H. inversion H; subst. now apply Htot.
    + cbn [fst snd]. repeat split; try reflexivity.
      * exists []. rewrite app_nil_r. repeat split; [constructor | simpl; lia].
      * intros cards' H. discriminate H.
      * intros H. inversion H as [|? ? [_ Ha] ?]; subst. now elim Ha.
    + cbn [fst snd]. repeat split; try reflexivity.
      * exists []. rewrite app_nil_r. repeat split; [constructor | simpl; lia].
      * intros cards' H. discriminate H.
      * intros H. inversion H as [|? ? [Hq _] ?]; subst. now elim Hq.
Qed.

(** C1.  When the reply of the model parses to an array [generatedCards],
    [/generate-flashcards] appends to [flashcard_sets] one row whose
    [total_count] is the length of that array (the requested [count] only
    reaches the prompt) and whose [known_count] is 0; a set that the route
    returns has [knownCount] 0, [totalCount] equal to the same length and
    only cards that are not known; and the route does return a set when
    every element of the array has a question and an answer. *)
Theorem generate_flashcards_total_count :
  forall generateContent now body t generatedCards,
    generateContent (flashcards_prompt (or_Z (gf_count body) 5) (gf_topic body))
      = Some generatedCards ->
    let r := generate_flashcards generateContent now body t in
    rows (flashcard_sets (snd r))
      = rows (flashcard_sets t)
        ++ [ {| fs_id := auto_increment (flashcard_sets t);
                fs_topic := or_string (gf_topic body) "General Study";
                fs_total_count := Z.of_nat (List.length generatedCards);
                fs_known_count := 0;
                fs_created_at := now |} ]
    /\ (forall fs, fst r = Json fs ->
          set_id fs = auto_increment (flashcard_sets t)
          /\ set_knownCount fs = 0
          /\ set_totalCount fs = Z.of_nat (List.length generatedCards)
          /\ List.length (set_cards fs) = List.length generatedCards
          /\ Forall (fun c => card_known c = false) (set_cards fs))
    /\ (Forall has_fields generatedCards ->
          exists fs, fst r = Json fs).
Proof.
  intros generateContent now body t generatedCards Hgen.
  unfold generate_flashcards, try_catch, bind. rewrite Hgen.
  cbn [await ret insert_flashcard_set insert_row].
  match goal with
  | |- context [insert_cards ?i generatedCards [] ?t1] =>
      pose proof (insert_cards_spec i generatedCards [] t1) as H;
      cbv zeta in H; destruct (insert_cards i generatedCards [] t1) as [o t2] eqn:E
  end.
  cbn [fst snd] in H.
  destruct H as (Hs & _ & _ & _ & _ & Hret & Htot).
  destruct o as [cards|]; cbn [fst snd ret].
  - destruct (Hret cards eq_refl) as (new & Hc & Hlen & Hnew). simpl in Hc. subst new.
    split; [rewrite Hs; reflexivity|]. split.
    + intros fs Hfs. inversion Hfs; subst fs; cbn.
      rewrite Hlen. repeat split; trivial.
    + intros _. eexists. reflexivity.
  - split; [rewrite Hs; reflexivity|]. split.
    + intros fs Hfs. discriminate Hfs.
    + intros Hall. destruct (Htot Hall) as (cards' & Hc). discriminate Hc.
Qed.

(** The scenario of the specification: five cards requested, three
    returned, [total_count] 3. *)
Lemma generate_flashcards_total_count_witness :
  let r := generate_flashcards (fun _ => Some three_cards) 1000 ask_five empty_tables in
  rows (flashcard_sets (snd r))
    = [ {| fs_id := 1; fs_topic := "Graph theory"; fs_total_count := 3;
           fs_known_count := 0; fs_created_at := 1000 |} ]
  /\ (forall fs, fst r = Json fs ->
        set_id fs = 1
        /\ set_knownCount fs = 0
        /\ set_totalCount fs = 3
        /\ List.length (set_cards fs) = 3%nat
        /\ Forall (fun c => card_known c = false) (set_cards fs))
  /\ (Forall has_fields three_cards ->
        exists fs, fst r = Json fs).
Proof.
  exact (generate_flashcards_total_count (fun _ => Some three_cards) 1000 ask_five
           empty_tables three_cards eq_refl).
Defined.

Lemma known_filter_unknown (p : flashcard_row -> bool) (added : list flashcard_row) (k : Z) :
  Forall (fun c => fc_set_id c = k /\ fc_known c = false) added ->
  filter fc_known (filter p added) = [].
Proof.
  intros H. apply filter_nothing. intros r Hr. apply filter_In in Hr as [Hr _].
  rewrite Forall_forall in H. now apply H.
Qed.

(** What the generate route does to the two flashcard tables. *)
Lemma generate_flashcards_tables generateContent (now : Z) (body : generate_flashcards_body)
    (t : tables) :
  let t' := snd (generate_flashcards generateContent now body t) in
  t' = t
  \/ exists new added,
       rows (flashcard_sets t') = rows (flashcard_sets t) ++ [new]
       /\ auto_increment (flashcard_sets t') = auto_increment (flashcard_sets t) + 1
       /\ fs_id new = auto_increment (flashcard_sets t)
       /\ fs_known_count new = 0
       /\ rows (flashcards t') = rows (flashcards t) ++ added
       /\ Forall (fun c => fc_set_id c = auto_increment (flashcard_sets t)
                           /\ fc_known c = false) added.
Proof.
  unfold generate_flashcards, try_catch, bind.
  destruct (generateContent _) as [generatedCards|]; [|left; reflexivity].
  right. cbn [await ret insert_flashcard_set insert_row].
  match goal with
  | |- context [insert_cards ?i generatedCards [] ?t1] =>
      pose proof (insert_cards_spec i generatedCards [] t1) as H;
      cbv zeta in H; destruct (insert_cards i generatedCards [] t1) as [o t2] eqn:E
  end.
  cbn [fst snd] in H. destruct H as (Hs & _ & _ & _ & (added & Hrows & Hadded & _) & _).
  eexists. exists added.
  destruct o as [cards|]; cbn [fst snd ret]; rewrite Hs; cbn; repeat split; assumption.
Qed.

Lemma known_cards_app (setId : Z) (t t' : tables) (added : list flashcard_row) (k : Z) :
  rows (flashcards t') = rows (flashcards t) ++ added ->
  Forall (fun c => fc_set_id c = k /\ fc_known c = false) added ->
  known_cards setId t' = known_cards setId t.
Proof.
  intros Hrows Hadded. unfold known_cards, select_rows.
  rewrite Hrows, !filter_app, (known_filter_unknown _ added k Hadded), app_nil_r.
  reflexivity.
Qed.

Lemma known_cards_fresh (t : tables) :
  set_ids_below_counter t -> known_cards (auto_increment (flashcard_sets t)) t = 0.
Proof.
  intros [_ Hc]. unfold known_cards, select_rows.
  rewrite (filter_nothing (fun r => fc_set_id r =? auto_increment (flashcard_sets t))).
  - reflexivity.
  - intros r Hr. apply Z.eqb_neq. specialize (Hc r Hr). lia.
Qed.

(** The generate route keeps the two invariants. *)
Lemma generate_flashcards_invariant generateContent (now : Z)
    (body : generate_flashcards_body) (t : tables) :
  set_ids_below_counter t -> (forall setId, known_count_consistent setId t) ->
  let t' := snd (generate_flashcards generateContent now body t) in
  set_ids_below_counter t' /\ (forall setId, known_count_consistent setId t').
Proof.
  intros Hb Hk.
  destruct (generate_flashcards_tables generateContent now body t)
    as [->|(new & added & Hsets & Hai & Hid & Hkc & Hcards & Hadded)]; [now split|].
  cbv zeta. split.
  - split.
    + intros s Hs. rewrite Hsets in Hs. rewrite Hai.
      apply in_app_or in Hs as [Hs|[<-|[]]]; [|lia].
      pose proof (proj1 Hb s Hs). lia.
    + intros c Hc. rewrite Hcards in Hc. rewrite Hai.
      apply in_app_or in Hc as [Hc|Hc].
      * pose proof (proj2 Hb c Hc). lia.
      * rewrite Forall_forall in Hadded. destruct (Hadded c Hc) as [-> _]. lia.
  - intros setId r Hr Hrid. rewrite Hsets in Hr.
    rewrite (known_cards_app setId t _ added _ Hcards Hadded).
    apply in_app_or in Hr as [Hr|[<-|[]]].
    + now apply Hk.
    + rewrite Hkc, <- Hrid, Hid. symmetry. now apply known_cards_fresh.
Qed.

Lemma generate_flashcards_cards_have_sets generateContent (now : Z)
    (body : generate_flashcards_body) (t : tables) :
  cards_have_sets t ->
  cards_have_sets (snd (generate_flashcards generateContent now body t)).
Proof.
  intros Hc.
  destruct (generate_flashcards_tables generateContent now body t)
    as [->|(new & added & Hsets & Hai & Hid & Hkc & Hcards & Hadded)]; [exact Hc|].
  intros c Hin. rewrite Hcards in Hin. unfold set_exists. rewrite Hsets.
  apply in_app_or in Hin as [Hin|Hin].
  - destruct (Hc c Hin) as (s & Hs & Hsid). exists s. split; [|exact Hsid].
    apply in_or_app. now left.
  - rewrite Forall_forall in Hadded. destruct (Hadded c Hin) as [-> _].
    exists new. split; [|exact Hid]. apply in_or_app. right. now left.
Qed.

(** The generate route leaves the other three tables alone. *)
Lemma generate_flashcards_tables_others generateContent (now : Z)
    (body : generate_flashcards_body) (t : tables) :
  let t' := snd (generate_flashcards generateContent now body t) in
  study_plans t' = study_plans t /\ notes t' = notes t /\ chat_history t' = chat_history t.
Proof.
  unfold generate_flashcards, try_catch, bind.
  destruct (generateContent _) as [generatedCards|]; [|now repeat split].
  cbn [await ret insert_flashcard_set insert_row].
  match goal with
  | |- context [insert_cards ?i generatedCards [] ?t1] =>
      pose proof (insert_cards_spec i generatedCards [] t1) as H;
      cbv zeta in H; destruct (insert_cards i generatedCards [] t1) as [o t2] eqn:E
  end.
  cbn [fst snd] in H. destruct H as (_ & Hp & Hn & Hc & _).
  destruct o as [cards|]; cbn [fst snd ret]; rewrite Hp, Hn, Hc; repeat split.
Qed.

(** The loop on a reply whose elements all have both properties. *)
Lemma insert_cards_complete (setId : Z) (generatedCards : list generated_card) :
  Forall has_fields generatedCards ->
  forall (cards : list card) (t : tables),
    insert_cards setId generatedCards cards t
    = (Returned (cards ++ map card_of_row
                   (card_rows setId (auto_increment (flashcards t)) generatedCards)),
       with_flashcards t
         {| rows := rows (flashcards t)
                    ++ card_rows setId (auto_increment (flashcards t)) generatedCards;
            auto_increment := auto_increment (flashcards t)
                              + Z.of_nat (List.length generatedCards) |}).
Proof.
  induction 1 as [|g rest [Hq Ha] Hrest IH]; intros cards t.
  - cbn. rewrite !app_nil_r, Z.add_0_r. destruct t as [? ? ? [? ?] ?]. reflexivity.
  - cbn [insert_cards]. unfold bind, insert_flashcard.
    destruct (question g) as [q|] eqn:Q; [|now elim Hq].
    destruct (answer g) as [a|] eqn:A; [|now elim Ha].
    cbn [insert_row fst snd]. rewrite IH.
    cbn [card_rows flashcards with_flashcards rows auto_increment map List.length].
    rewrite Q, A. cbn [show_string]. rewrite <- !app_assoc. cbn [app].
    f_equal. unfold with_flashcards. cbn. f_equal. f_equal. lia.
Qed.

Lemma nth_card_rows (setId : Z) (generatedCards : list generated_card) :
  forall (id : Z) (i : nat) (g : generated_card),
    nth_error generatedCards i = Some g ->
    nth_error (card_rows setId id generatedCards) i
    = Some {| fc_id := id + Z.of_nat i; fc_set_id := setId;
              fc_question := show_string (question g);
              fc_answer := show_string (answer g);
              fc_known := false |}.
Proof.
  induction generatedCards as [|g0 rest IH]; intros id i g H; [destruct i; discriminate H|].
  destruct i as [|i]; simpl in H.
  - inversion H; subst. cbn. now rewrite Z.add_0_r.
  - cbn [card_rows nth_error]. rewrite (IH (id + 1) i g H). do 2 f_equal. lia.
Qed.

Lemma card_rows_set_id (setId : Z) (generatedCards : list generated_card) :
  forall id c, In c (card_rows setId id generatedCards) -> fc_set_id c = setId.
Proof.
  induction generatedCards as [|g rest IH]; intros id c H; [destruct H|].
  destruct H as [<-|H]; [reflexivity | now apply (IH (id + 1))].
Qed.

Lemma generate_flashcards_complete generateContent (now : Z) (body : generate_flashcards_body)
    (t : tables) (generatedCards : list generated_card) :
  generateContent (flashcards_prompt (or_Z (gf_count body) 5) (gf_topic body))
    = Some generatedCards ->
  Forall has_fields generatedCards ->
  snd (generate_flashcards generateContent now body t)
  = with_flashcards
      (with_flashcard_sets t
         {| rows := rows (flashcard_sets t) ++ [fresh_set_row now body generatedCards t];
            auto_increment := auto_increment (flashcard_sets t) + 1 |})
      {| rows := rows (flashcards t) ++ fresh_card_rows generatedCards t;
         auto_increment := auto_increment (flashcards t)
                           + Z.of_nat (List.length generatedCards) |}.
Proof.
  intros Hgen Hall. unfold generate_flashcards, try_catch, bind. rewrite Hgen.
  cbn [await ret insert_flashcard_set insert_row].
  rewrite (insert_cards_complete _ _ Hall). reflexivity.
Qed.

(* ================================================================== *)
(** * Flashcards: status updates *)
(* ================================================================== *)

Lemma known_filter_card_of_row (l : list flashcard_row) :
  List.length (filter card_known (map card_of_row l)) = List.length (filter fc_known l).
Proof.
  induction l as [|x l IH]; simpl; [reflexivity|].
  destruct (fc_known x); simpl; now rewrite IH.
Qed.

(** The route, statement by statement. *)
Lemma save_flashcard_status_run (b : save_flashcard_status_body) (t : tables) :
  save_flashcard_status b t =
  match select_rows (fun r => fs_id r =? ss_setId b) (flashcard_sets t) with
  | set0 :: _ =>
      (Json {| set_id := fs_id set0;
               set_topic := fs_topic set0;
               set_cards := map card_of_row
                 (select_rows (fun r => fc_set_id r =? ss_setId b) (flashcards (mark_card b t)));
               set_createdAt := fs_created_at set0;
               set_knownCount := known_cards (ss_setId b) (mark_card b t);
               set_totalCount := fs_total_count set0 |},
       recount (ss_setId b) (mark_card b t))
  | [] => (Error 404 "Flashcard set not found", mark_card b t)
  end.
Proof.
  unfold save_flashcard_status, try_catch, bind, mark_card, recount, known_cards.
  cbn [update_flashcard_known select_flashcard_set fst snd with_flashcards flashcard_sets].
  destruct (select_rows (fun r => fs_id r =? ss_setId b) (flashcard_sets t)) as [|set0 rest].
  - reflexivity.
  - cbn. rewrite known_filter_card_of_row. reflexivity.
Qed.

Lemma mark_card_idem (b : save_flashcard_status_body) (t : tables) :
  mark_card b (mark_card b t) = mark_card b t.
Proof.
  unfold mark_card, update_flashcard_known. cbn [snd].
  apply tables_eq; cbn; try reflexivity.
  apply update_rows_idem.
  - intros r. cbn. trivial.
  - intros r. reflexivity.
Qed.

Lemma mark_card_sets (b : save_flashcard_status_body) (t : tables) :
  flashcard_sets (mark_card b t) = flashcard_sets t.
Proof. reflexivity. Qed.

Lemma recount_cards (setId : Z) (t : tables) :
  flashcards (recount setId t) = flashcards t.
Proof. reflexivity. Qed.

Lemma known_cards_ext (setId : Z) (t u : tables) :
  flashcards t = flashcards u -> known_cards setId t = known_cards setId u.
Proof. unfold known_cards. now intros ->. Qed.

(** A status update of one set leaves the cards of every other set, and
    so their count of known cards, as they were. *)
Lemma mark_card_other_cards (b : save_flashcard_status_body) (t : tables) (setId : Z) :
  setId <> ss_setId b ->
  select_rows (fun r => fc_set_id r =? setId) (flashcards (mark_card b t))
  = select_rows (fun r => fc_set_id r =? setId) (flashcards t).
Proof.
  intros Hne. unfold mark_card, update_flashcard_known, select_rows, update_rows.
  cbn [snd flashcards with_flashcards rows].
  apply filter_update_other.
  - intros r H. apply andb_prop in H as [_ H]. apply Z.eqb_eq in H.
    apply Z.eqb_neq. congruence.
  - intros r H. apply andb_prop in H as [_ H]. apply Z.eqb_eq in H.
    cbn. apply Z.eqb_neq. congruence.
Qed.

Lemma mark_card_other_known (b : save_flashcard_status_body) (t : tables) (setId : Z) :
  setId <> ss_setId b -> known_cards setId (mark_card b t) = known_cards setId t.
Proof.
  intros Hne. unfold known_cards. now rewrite mark_card_other_cards.
Qed.

(** After the recount, the rows of the set carry the count. *)
Lemma recount_consistent (setId : Z) (t : tables) :
  known_count_consistent setId (recount setId t).
Proof.
  intros r Hr Hid.
  rewrite (known_cards_ext setId (recount setId t) t (recount_cards setId t)).
  unfold recount, update_known_count in Hr. cbn [snd flashcard_sets with_flashcard_sets] in Hr.
  apply In_update_rows in Hr as (r0 & _ & ->).
  destruct (fs_id r0 =? setId) eqn:E.
  - reflexivity.
  - apply Z.eqb_neq in E. destruct (fs_id r0 =? setId) eqn:E'; cbn in Hid; congruence.
Qed.

Lemma recount_other_consistent (setId other : Z) (t : tables) :
  other <> setId ->
  known_count_consistent other t -> known_count_consistent other (recount setId t).
Proof.
  intros Hne Hc r Hr Hid.
  rewrite (known_cards_ext other (recount setId t) t (recount_cards setId t)).
  unfold recount, update_known_count in Hr. cbn [snd flashcard_sets with_flashcard_sets] in Hr.
  apply In_update_rows in Hr as (r0 & Hr0 & ->).
  destruct (fs_id r0 =? setId) eqn:E.
  - apply Z.eqb_eq in E. cbn in Hid. congruence.
  - now apply Hc.
Qed.

(** One call keeps the invariant of every set. *)
Lemma save_flashcard_status_preserves (b : save_flashcard_status_body) (t : tables) (setId : Z) :
  known_count_consistent setId t ->
  known_count_consistent setId (snd (save_flashcard_status b t)).
Proof.
  intros Hc. rewrite save_flashcard_status_run.
  destruct (Z.eq_dec setId (ss_setId b)) as [->|Hne].
  - destruct (select_rows _ (flashcard_sets t)) as [|set0 rest] eqn:S; cbn [snd].
    + intros r Hr Hid. rewrite mark_card_sets in Hr.
      assert (In r (select_rows (fun r => fs_id r =? ss_setId b) (flashcard_sets t))) as Hin
        by (apply filter_In; split; [exact Hr | now apply Z.eqb_eq]).
      rewrite S in Hin. destruct Hin.
    + apply recount_consistent.
  - assert (known_count_consistent setId (mark_card b t)) as Hm.
    { intros r Hr Hid. rewrite mark_card_other_known by exact Hne. now apply Hc. }
    destruct (select_rows _ (flashcard_sets t)) as [|set0 rest]; cbn [snd].
    + exact Hm.
    + now apply recount_other_consistent.
Qed.

(** One call on a set establishes its invariant, whatever the count was. *)
Lemma save_flashcard_status_establishes (b : save_flashcard_status_body) (t : tables) :
  known_count_consistent (ss_setId b) (snd (save_flashcard_status b t)).
Proof.
  rewrite save_flashcard_status_run.
  destruct (select_rows _ (flashcard_sets t)) as [|set0 rest] eqn:S; cbn [snd].
  - intros r Hr Hid. rewrite mark_card_sets in Hr.
    assert (In r (select_rows (fun r => fs_id r =? ss_setId b) (flashcard_sets t))) as Hin
      by (apply filter_In; split; [exact Hr | now apply Z.eqb_eq]).
    rewrite S in Hin. destruct Hin.
  - apply recount_consistent.
Qed.

Lemma save_all_preserves (calls : list save_flashcard_status_body) :
  forall (t : tables) (setId : Z),
    known_count_consistent setId t -> known_count_consistent setId (save_all calls t).
Proof.
  induction calls as [|b calls IH]; intros t setId Hc; [exact Hc|].
  cbn. apply IH. now apply save_flashcard_status_preserves.
Qed.

Lemma mark_card_recount (b : save_flashcard_status_body) (t : tables) (setId : Z) :
  mark_card b (recount setId (mark_card b t)) = recount setId (mark_card b t).
Proof.
  apply tables_eq; try reflexivity.
  change (flashcards (mark_card b (recount setId (mark_card b t))))
    with (flashcards (mark_card b (mark_card b t))).
  now rewrite mark_card_idem.
Qed.

Lemma recount_idem (setId : Z) (t : tables) :
  recount setId (recount setId t) = recount setId t.
Proof.
  unfold recount at 1.
  rewrite (known_cards_ext setId (recount setId t) t (recount_cards setId t)).
  unfold recount, update_known_count. cbn [snd].
  apply tables_eq; cbn; try reflexivity.
  apply update_rows_idem.
  - intros r. cbn. trivial.
  - intros r. reflexivity.
Qed.

(** Repeating a call changes neither the tables nor the response. *)
Lemma save_flashcard_status_idem (b : save_flashcard_status_body) (t : tables) :
  save_flashcard_status b (snd (save_flashcard_status b t)) = save_flashcard_status b t.
Proof.
  rewrite (save_flashcard_status_run b t).
  destruct (select_rows _ (flashcard_sets t)) as [|set0 rest] eqn:S; cbn [snd].
  - rewrite save_flashcard_status_run, mark_card_sets, S, mark_card_idem. reflexivity.
  - rewrite save_flashcard_status_run.
    rewrite mark_card_recount, recount_idem.
    unfold recount at 1. unfold update_known_count. cbn [snd flashcard_sets with_flashcard_sets].
    rewrite select_update_rows by reflexivity.
    rewrite mark_card_sets, S. cbn [map].
    assert ((fs_id set0 =? ss_setId b) = true) as E.
    { apply (filter_nonempty_In _ _ _ _ S). }
    rewrite E. cbn. reflexivity.
Qed.

Lemma select_none_of_not_exists (setId : Z) (t : tables) :
  ~ set_exists setId t ->
  select_rows (fun r => fs_id r =? setId) (flashcard_sets t) = [].
Proof.
  intros Hne. apply filter_nothing. intros r Hr. apply Z.eqb_neq. intros Hid.
  apply Hne. now exists r.
Qed.

Lemma mark_card_no_cards (b : save_flashcard_status_body) (t : tables) :
  no_cards_of (ss_setId b) t -> mark_card b t = t.
Proof.
  intros Hno. unfold mark_card, update_flashcard_known. cbn [snd].
  apply tables_eq; try reflexivity. cbn [flashcards with_flashcards].
  unfold update_rows. rewrite map_update_nowhere.
  - now destruct (flashcards t).
  - intros r Hr. apply andb_false_iff. right. apply Z.eqb_neq. now apply Hno.
Qed.

(** The status route changes no set id, in either table. *)
Lemma save_flashcard_status_set_ids (b : save_flashcard_status_body) (t : tables) :
  let t' := snd (save_flashcard_status b t) in
  auto_increment (flashcard_sets t') = auto_increment (flashcard_sets t)
  /\ map fs_id (rows (flashcard_sets t')) = map fs_id (rows (flashcard_sets t))
  /\ map fc_set_id (rows (flashcards t')) = map fc_set_id (rows (flashcards t)).
Proof.
  rewrite save_flashcard_status_run.
  assert (map fc_set_id (rows (flashcards (mark_card b t)))
          = map fc_set_id (rows (flashcards t))) as Hcards.
  { unfold mark_card, update_flashcard_known, update_rows. cbn. rewrite map_map.
    apply map_ext. intros r. now destruct (_ && _). }
  destruct (select_rows _ (flashcard_sets t)); cbn [snd].
  - repeat split. exact Hcards.
  - repeat split; [|exact Hcards].
    unfold recount, update_known_count, update_rows. cbn. rewrite map_map.
    apply map_ext. intros r. now destruct (fs_id r =? ss_setId b).
Qed.

Lemma save_flashcard_status_below (b : save_flashcard_status_body) (t : tables) :
  set_ids_below_counter t -> set_ids_below_counter (snd (save_flashcard_status b t)).
Proof.
  intros [Hs Hc]. destruct (save_flashcard_status_set_ids b t) as (Hai & Hsets & Hcards).
  split.
  - intros s Hin. rewrite Hai.
    destruct (In_map_eq fs_id _ _ s Hsets Hin) as (y & Hy & <-). now apply Hs.
  - intros c Hin. rewrite Hai.
    destruct (In_map_eq fc_set_id _ _ c Hcards Hin) as (y & Hy & <-). now apply Hc.
Qed.

Lemma save_flashcard_status_cards_have_sets (b : save_flashcard_status_body) (t : tables) :
  cards_have_sets t -> cards_have_sets (snd (save_flashcard_status b t)).
Proof.
  intros H. destruct (save_flashcard_status_set_ids b t) as (_ & Hsets & Hcards).
  intros c Hin.
  destruct (In_map_eq fc_set_id _ _ c Hcards Hin) as (y & Hy & <-).
  destruct (H y Hy) as (s & Hs & Hsid).
  apply (in_map fs_id) in Hs. rewrite <- Hsets in Hs.
  apply in_map_iff in Hs as (s' & Hs' & Hin'). exists s'. split; [exact Hin' | congruence].
Qed.

(* ================================================================== *)
(** * Flashcards: deletion *)
(* ================================================================== *)

Lemma existsb_set_exists (id : Z) (t : tables) :
  set_exists id t -> existsb (fun r => fs_id r =? id) (rows (flashcard_sets t)) = true.
Proof.
  intros (r & Hr & Hid). apply existsb_exists. exists r. split; [exact Hr|].
  now apply Z.eqb_eq.
Qed.

(** What the delete route does to the two flashcard tables. *)
Lemma delete_flashcard_tables (fk : set_id_constraint) (id : Z) (t : tables) :
  let t' := snd (delete_flashcard fk id t) in
  t' = t
  \/ (flashcard_sets t' = delete_rows (fun r => fs_id r =? id) (flashcard_sets t)
      /\ (flashcards t' = flashcards t
          \/ flashcards t' = delete_rows (fun r => fc_set_id r =? id) (flashcards t))).
Proof.
  unfold delete_flashcard, try_catch, bind, delete_flashcard_set.
  destruct fk; [| destruct (_ && _) | destruct (_ && _)]; cbn;
    first [ now left | right; split; [reflexivity | now left]
          | right; split; [reflexivity | now right] ].
Qed.

Lemma delete_flashcard_invariant (fk : set_id_constraint) (id : Z) (t : tables) :
  set_ids_below_counter t -> (forall setId, known_count_consistent setId t) ->
  let t' := snd (delete_flashcard fk id t) in
  set_ids_below_counter t' /\ (forall setId, known_count_consistent setId t').
Proof.
  intros [Hs Hc] Hk.
  destruct (delete_flashcard_tables fk id t) as [->|[Hsets Hcards]]; [now repeat split|].
  cbv zeta.
  assert (forall s, In s (rows (flashcard_sets (snd (delete_flashcard fk id t)))) ->
                    In s (rows (flashcard_sets t)) /\ fs_id s <> id) as Hsub.
  { intros s Hin. rewrite Hsets in Hin. cbn in Hin. apply filter_In in Hin as [Hin Hne].
    split; [exact Hin|]. now apply negb_true_iff, Z.eqb_neq in Hne. }
  assert (auto_increment (flashcard_sets (snd (delete_flashcard fk id t)))
          = auto_increment (flashcard_sets t)) as Hai by (now rewrite Hsets).
  split; [split|].
  - intros s Hin. rewrite Hai. now apply Hs, Hsub.
  - intros c Hin. rewrite Hai. apply Hc.
    destruct Hcards as [Hsame|Hdel]; [now rewrite <- Hsame|].
    rewrite Hdel in Hin. cbn in Hin. now apply filter_In in Hin as [Hin _].
  - intros setId r Hr Hrid. destruct (Hsub r Hr) as [Hin Hne].
    rewrite (Hk setId r Hin Hrid). unfold known_cards, select_rows.
    destruct Hcards as [->| ->]; [reflexivity|]. cbn [delete_rows rows].
    rewrite (filter_filter_other (fun c => fc_set_id c =? setId)
               (fun c => negb (fc_set_id c =? id))); [reflexivity|].
    intros c Hcs. apply Z.eqb_eq in Hcs. apply negb_true_iff, Z.eqb_neq. congruence.
Qed.

Lemma delete_flashcard_cards_have_sets (fk : set_id_constraint) (id : Z) (t : tables) :
  fk <> NoForeignKey -> cards_have_sets t ->
  cards_have_sets (snd (delete_flashcard fk id t)).
Proof.
  intros Hfk H.
  assert (forall t', flashcard_sets t' = delete_rows (fun r => fs_id r =? id) (flashcard_sets t) ->
            forall c, In c (rows (flashcards t)) -> fc_set_id c <> id ->
                      set_exists (fc_set_id c) t') as Hkeep.
  { intros t' Hsets c Hin Hne. destruct (H c Hin) as (s & Hs & Hsid).
    exists s. split; [|exact Hsid]. rewrite Hsets. cbn. apply filter_In.
    split; [exact Hs|]. apply negb_true_iff, Z.eqb_neq. congruence. }
  assert (existsb (fun r => fs_id r =? id) (rows (flashcard_sets t))
          && existsb (fun r => fc_set_id r =? id) (rows (flashcards t)) = false ->
          forall c, In c (rows (flashcards t)) -> fc_set_id c <> id) as Hunref.
  { intros E c Hin Hid. apply andb_false_iff in E as [E|E].
    - destruct (H c Hin) as (s & Hs & Hsid).
      assert (existsb (fun r => fs_id r =? id) (rows (flashcard_sets t)) = true) as E'
        by (apply existsb_exists; exists s; split; [exact Hs | apply Z.eqb_eq; congruence]).
      congruence.
    - assert (existsb (fun r => fc_set_id r =? id) (rows (flashcards t)) = true) as E'
        by (apply existsb_exists; exists c; split; [exact Hin | now apply Z.eqb_eq]).
      congruence. }
  unfold delete_flashcard, try_catch, bind, delete_flashcard_set.
  destruct fk; [now elim Hfk | |];
    destruct (existsb (fun r => fs_id r =? id) (rows (flashcard_sets t))
              && existsb (fun r => fc_set_id r =? id) (rows (flashcards t))) eqn:E;
    cbn [fst snd ret].
  - exact H.
  - intros c Hin. apply Hkeep; [reflexivity | exact Hin | now apply Hunref].
  - intros c Hin. cbn in Hin. apply filter_In in Hin as [Hin Hne].
    apply negb_true_iff, Z.eqb_neq in Hne. now apply Hkeep.
  - intros c Hin. apply Hkeep; [reflexivity | exact Hin | now apply Hunref].
Qed.

(* ================================================================== *)
(** * Invariants of the tables that the routes produce *)
(* ================================================================== *)

(** The routes of study plans, notes and chat leave the flashcard tables
    alone. *)
Lemma other_routes_keep_flashcards (fk : set_id_constraint) (t : tables) (req : request) :
  match req with
  | PostGenerateFlashcards _ _ _ | PostSaveFlashcardStatus _ | DeleteFlashcard _ => True
  | _ => flashcard_sets (serve fk t req) = flashcard_sets t
         /\ flashcards (serve fk t req) = flashcards t
  end.
Proof.
  destruct req as [g now body|body|id|now body|tls now body|g tls now body|id
                  |g now body|body|id|send now message|]; try exact I.
  - unfold serve, generate_study_plan, try_catch, bind.
    destruct (_ || _); [now split|].
    destruct (courseName body) as [cn|]; [|now split].
    destruct (deadline body) as [dl|]; [|now split].
    destruct (hoursPerDay body) as [hpd|]; [|now split].
    destruct (ceil_div (dl - now) (1000 * 60 * 60 * 24) <=? 0); [now split|].
    destruct (g _); split; reflexivity.
  - unfold serve, update_study_progress, try_catch, bind.
    cbn [update_progress select_study_plan].
    destruct (select_rows _ _); split; reflexivity.
  - split; reflexivity.
  - unfold serve, upload_pdf, try_catch, bind, insert_note.
    destruct (fileName body); split; reflexivity.
  - unfold serve, upload_local_file, try_catch, bind, insert_note.
    destruct (_ || _); [split; reflexivity|].
    destruct (fileName body); split; reflexivity.
  - unfold serve, generate_ai_notes, try_catch, bind.
    destruct (_ && _); [split; reflexivity|].
    destruct (g _); split; reflexivity.
  - split; reflexivity.
  - unfold serve, chat, try_catch, bind.
    destruct (negb _); [split; reflexivity|].
    cbn [insert_chat insert_row select_chat_history].
    destruct (send _ _); split; reflexivity.
  - split; reflexivity.
Qed.

Lemma flashcard_invariants_ext (fk : set_id_constraint) (t t' : tables) :
  flashcard_sets t' = flashcard_sets t -> flashcards t' = flashcards t ->
  set_ids_below_counter t
  /\ (forall setId, known_count_consistent setId t)
  /\ (fk <> NoForeignKey -> cards_have_sets t) ->
  set_ids_below_counter t'
  /\ (forall setId, known_count_consistent setId t')
  /\ (fk <> NoForeignKey -> cards_have_sets t').
Proof.
  unfold set_ids_below_counter, known_count_consistent, cards_have_sets,
    set_exists, known_cards.
  intros -> ->. trivial.
Qed.

(** Every set of tables that the routes produce keeps its set ids below
    the counter and every [known_count] equal to the number of known cards
    of its set; under a foreign key, of either kind, every card has its
    set. *)
Theorem reachable_invariants (fk : set_id_constraint) (t : tables) :
  reachable fk t ->
  set_ids_below_counter t
  /\ (forall setId, known_count_consistent setId t)
  /\ (fk <> NoForeignKey -> cards_have_sets t).
Proof.
  induction 1 as [|t req Hreach IH].
  - unfold set_ids_below_counter, known_count_consistent, cards_have_sets. cbn.
    repeat split; intros; contradiction.
  - pose proof (other_routes_keep_flashcards fk t req) as Hother.
    pose proof IH as (Hb & Hk & Hc).
    destruct req as [g now body|body|id|now body|tls now body|g tls now body|id
                    |g now body|body|id|send now message|];
      try (apply (flashcard_invariants_ext fk t);
           [apply Hother | apply Hother | exact IH]).
    + destruct (generate_flashcards_invariant g now body t Hb Hk) as [Hb' Hk'].
      repeat split; try assumption; try apply Hb'.
      intros Hfk. now apply generate_flashcards_cards_have_sets, Hc.
    + repeat split.
      * apply (save_flashcard_status_below body t Hb).
      * apply (save_flashcard_status_below body t Hb).
      * intros setId. now apply save_flashcard_status_preserves.
      * intros Hfk. now apply save_flashcard_status_cards_have_sets, Hc.
    + destruct (delete_flashcard_invariant fk id t Hb Hk) as [Hb' Hk'].
      repeat split; try assumption; try apply Hb'.
      intros Hfk. now apply delete_flashcard_cards_have_sets; [|apply Hc].
Qed.

Lemma reachable_after_generate : reachable NoForeignKey tables_after_generate.
Proof. apply reach_serve, reach_empty. Qed.

Lemma reachable_after_delete : reachable NoForeignKey tables_after_delete.
Proof. apply reach_serve, reachable_after_generate. Qed.

Lemma reachable_one_known (fk : set_id_constraint) : reachable fk tables_one_known.
Proof.
  change tables_one_known
    with (serve fk (serve fk empty_tables generate_two)
            (PostSaveFlashcardStatus mark_first_known)).
  apply reach_serve, reach_serve, reach_empty.
Qed.

Lemma reachable_one_plan (fk : set_id_constraint) : reachable fk tables_one_plan.
Proof.
  change tables_one_plan with (serve fk empty_tables generate_algorithms).
  apply reach_serve, reach_empty.
Qed.

Lemma generate_study_plan_complete generateContent (now : Z) (t : tables)
    (cn : string) (dl hpd : Z) (planData : list week_entry) :
  cn <> EmptyString -> hpd <> 0 -> 0 < ceil_div (dl - now) day_ms ->
  generateContent (study_plan_prompt cn (ceil_div (dl - now) day_ms)
                     (ceil_div (dl - now) day_ms * hpd) hpd) = Some planData ->
  snd (generate_study_plan generateContent now
         {| courseName := Some cn; deadline := Some dl; hoursPerDay := Some hpd |} t)
  = with_study_plans t
      {| rows := rows (study_plans t) ++ [fresh_plan_row now cn dl hpd planData t];
         auto_increment := auto_increment (study_plans t) + 1 |}.
Proof.
  intros Hcn Hhpd Hdays Hgen.
  unfold generate_study_plan, try_catch. cbn [courseName deadline hoursPerDay].
  assert (truthy_string (Some cn) = true) as ->.
  { cbn. apply negb_true_iff. now apply String.eqb_neq. }
  assert (truthy_Z (Some hpd) = true) as ->.
  { cbn. apply negb_true_iff. now apply Z.eqb_neq. }
  cbn [negb orb]. change (1000 * 60 * 60 * 24) with day_ms.
  assert ((ceil_div (dl - now) day_ms <=? 0) = false) as -> by (now apply Z.leb_gt).
  unfold bind. rewrite Hgen. reflexivity.
Qed.

(** Every set of tables that the routes produce keeps its plan ids below
    the counter. *)
Lemma reachable_plan_ids (fk : set_id_constraint) (t : tables) :
  reachable fk t -> plan_ids_below_counter t.
Proof.
  induction 1 as [|t req Hreach IH]; [intros r []|].
  assert (forall t', study_plans t' = study_plans t -> plan_ids_below_counter t') as Hsame.
  { intros t' E r Hr. unfold plan_ids_below_counter in IH. rewrite E in *. now apply IH. }
  destruct req as [g now body|body|id|now body|tls now body|g tls now body|id
                  |g now body|body|id|send now message|].
  - unfold serve, generate_study_plan, try_catch, bind.
    destruct (_ || _); [now apply Hsame|].
    destruct (courseName body) as [cn|]; [|now apply Hsame].
    destruct (deadline body) as [dl|]; [|now apply Hsame].
    destruct (hoursPerDay body) as [hpd|]; [|now apply Hsame].
    destruct (ceil_div (dl - now) (1000 * 60 * 60 * 24) <=? 0); [now apply Hsame|].
    destruct (g _); [|now apply Hsame].
    intros r Hr. cbn in Hr |- *. apply in_app_or in Hr as [Hr|[<-|[]]].
    + specialize (IH r Hr). lia.
    + cbn. lia.
  - unfold serve, update_study_progress, try_catch, bind.
    cbn [update_progress select_study_plan].
    assert (plan_ids_below_counter
              (with_study_plans t
                 (update_rows (fun r => sp_id r =? usp_id body)
                    (fun r => {| sp_id := sp_id r;
                                 sp_course_name := sp_course_name r;
                                 sp_deadline := sp_deadline r;
                                 sp_hours_per_day := sp_hours_per_day r;
                                 sp_days_until := sp_days_until r;
                                 sp_total_hours := sp_total_hours r;
                                 sp_plan_json := sp_plan_json r;
                                 sp_progress := usp_progress body;
                                 sp_completed := usp_completed body;
                                 sp_created_at := sp_created_at r |})
                    (study_plans t)))) as Hupd.
    { intros r Hr. cbn [study_plans with_study_plans] in Hr |- *.
      apply In_update_rows in Hr as (r0 & Hr0 & ->). specialize (IH r0 Hr0).
      now destruct (sp_id r0 =? usp_id body). }
    destruct (select_rows _ _); exact Hupd.
  - intros r Hr. cbn in Hr |- *. apply filter_In in Hr as [Hr _]. now apply IH.
  - unfold serve, upload_pdf, try_catch, bind, insert_note.
    destruct (fileName body); now apply Hsame.
  - unfold serve, upload_local_file, try_catch, bind, insert_note.
    destruct (_ || _); [now apply Hsame|].
    destruct (fileName body); now apply Hsame.
  - unfold serve, generate_ai_notes, try_catch, bind.
    destruct (_ && _); [now apply Hsame|].
    destruct (g _); now apply Hsame.
  - now apply Hsame.
  - destruct (generate_flashcards_tables_others g now body t) as (E & _). now apply Hsame.
  - apply Hsame. cbn [serve]. rewrite save_flashcard_status_run.
    destruct (select_rows _ _); reflexivity.
  - apply Hsame. unfold serve, delete_flashcard, try_catch, bind, delete_flashcard_set.
    destruct fk; [| destruct (_ && _) | destruct (_ && _)]; reflexivity.
  - unfold serve, chat, try_catch, bind.
    destruct (negb _); [now apply Hsame|].
    cbn [insert_chat insert_row select_chat_history].
    destruct (send _ _); now apply Hsame.
  - now apply Hsame.
Qed.

(* ================================================================== *)
(** * Flashcards: known counts, deletion and sets that do not exist *)
(* ================================================================== *)

(** C2.  The invariant "the [known_count] of a set is the number of its
    cards that are known" survives every sequence of
    [/save-flashcard-status] calls, on whichever sets; it holds on all
    tables that the routes produce, so there it holds after every such
    sequence; a call on a set establishes it for that set even where it
    did not hold; and a call repeated at once leaves the tables, hence
    [known_count], and the response as the first one left them. *)
Theorem save_flashcard_status_known_count :
  forall (setId : Z) (calls : list save_flashcard_status_body) (t : tables),
    (known_count_consistent setId t ->
     known_count_consistent setId (save_all calls t))
    /\ (forall fk, reachable fk t -> known_count_consistent setId (save_all calls t))
    /\ (forall b, known_count_consistent (ss_setId b) (save_all (b :: calls) t))
    /\ (forall b,
          save_flashcard_status b (snd (save_flashcard_status b (save_all calls t)))
          = save_flashcard_status b (save_all calls t)).
Proof.
  intros setId calls t. split; [|split; [|split]].
  - apply save_all_preserves.
  - intros fk Hreach. apply save_all_preserves.
    now apply (reachable_invariants fk t Hreach).
  - intros b. cbn. apply save_all_preserves, save_flashcard_status_establishes.
  - intros b. apply save_flashcard_status_idem.
Qed.

Lemma save_flashcard_status_known_count_witness :
  known_count_consistent 1 tables_one_known
  /\ known_count_consistent 1 (save_all two_calls tables_one_known)
  /\ known_count_consistent 1 (save_all two_calls tables_after_generate)
  /\ map fs_known_count (rows (flashcard_sets (save_all two_calls tables_one_known))) = [1].
Proof.
  assert (known_count_consistent 1 tables_one_known) as H.
  { intros r Hr _. destruct Hr as [<-|[]]. reflexivity. }
  split; [exact H|]. split; [|split].
  - exact (proj1 (save_flashcard_status_known_count 1 two_calls tables_one_known) H).
  - exact (proj1 (proj2 (save_flashcard_status_known_count 1 two_calls tables_after_generate))
             NoForeignKey (reach_serve _ _ _ (reach_empty _))).
  - reflexivity.
Defined.

(** C3, as the code has it.  [/flashcard/:id] runs one statement, on
    [flashcard_sets].  With no foreign key on [flashcards.set_id] it
    answers success, the set is gone and the card table is what it was,
    the cards of the set included.  With [ON DELETE CASCADE] it answers
    success, the set is gone and no card of a set that existed is left.
    With a foreign key that restricts, a set that has cards is not deleted:
    the route answers 500 and the tables are what they were. *)
Theorem delete_flashcard_cards_by_schema :
  forall (id : Z) (t : tables),
    (let r := delete_flashcard NoForeignKey id t in
     fst r = Json tt
     /\ ~ set_exists id (snd r)
     /\ flashcards (snd r) = flashcards t)
    /\ (let r := delete_flashcard OnDeleteCascade id t in
        fst r = Json tt
        /\ ~ set_exists id (snd r)
        /\ (set_exists id t -> no_cards_of id (snd r)))
    /\ (let r := delete_flashcard OnDeleteRestrict id t in
        set_exists id t ->
        (exists c, In c (rows (flashcards t)) /\ fc_set_id c = id) ->
        fst r = Error 500 "Failed to delete flashcard set" /\ snd r = t).
Proof.
  intros id t. split; [|split].
  - cbn. repeat split.
    intros (r & Hr & Hid). apply delete_rows_gone in Hr. apply Z.eqb_neq in Hr. congruence.
  - unfold delete_flashcard, try_catch, bind, delete_flashcard_set.
    destruct (existsb (fun r => fs_id r =? id) (rows (flashcard_sets t))) eqn:Es;
      [destruct (existsb (fun r => fc_set_id r =? id) (rows (flashcards t))) eqn:Ec|];
      cbn [andb fst snd ret].
    + repeat split.
      * intros (r & Hr & Hid). cbn in Hr. apply filter_In in Hr as [_ Hr].
        apply negb_true_iff, Z.eqb_neq in Hr. congruence.
      * intros _ c Hc. cbn in Hc. apply filter_In in Hc as [_ Hc].
        now apply negb_true_iff, Z.eqb_neq in Hc.
    + repeat split.
      * intros (r & Hr & Hid). cbn in Hr. apply filter_In in Hr as [_ Hr].
        apply negb_true_iff, Z.eqb_neq in Hr. congruence.
      * intros _ c Hc Hid. cbn in Hc.
        assert (existsb (fun r => fc_set_id r =? id) (rows (flashcards t)) = true) as E.
        { apply existsb_exists. exists c. split; [exact Hc | now apply Z.eqb_eq]. }
        congruence.
    + repeat split.
      * intros (r & Hr & Hid). cbn in Hr. apply filter_In in Hr as [_ Hr].
        apply negb_true_iff, Z.eqb_neq in Hr. congruence.
      * intros He. apply existsb_set_exists in He. congruence.
  - intros r Hset (c & Hc & Hid). subst r.
    unfold delete_flashcard, try_catch, bind, delete_flashcard_set.
    rewrite (existsb_set_exists id t Hset).
    assert (existsb (fun r => fc_set_id r =? id) (rows (flashcards t)) = true) as ->.
    { apply existsb_exists. exists c. split; [exact Hc | now apply Z.eqb_eq]. }
    split; reflexivity.
Qed.

Lemma delete_flashcard_cards_by_schema_witness :
  set_exists 1 tables_one_known
  /\ flashcards (snd (delete_flashcard NoForeignKey 1 tables_one_known))
     = flashcards tables_one_known
  /\ no_cards_of 1 (snd (delete_flashcard OnDeleteCascade 1 tables_one_known))
  /\ snd (delete_flashcard OnDeleteRestrict 1 tables_one_known) = tables_one_known.
Proof.
  assert (set_exists 1 tables_one_known) as H.
  { eexists. split; [left; reflexivity | reflexivity]. }
  pose proof (delete_flashcard_cards_by_schema 1 tables_one_known) as (Hno & Hcascade & Hrestrict).
  split; [exact H|]. split; [|split].
  - exact (proj2 (proj2 Hno)).
  - exact (proj2 (proj2 Hcascade) H).
  - refine (proj2 (Hrestrict H _)). eexists. split; [left; reflexivity | reflexivity].
Defined.

(** C3, counterexample.  A set of three cards is generated and, with no
    foreign key, deleted: the route answers success, the set is gone and
    its three cards are still in the card table. *)
Lemma delete_flashcard_leaves_cards :
  reachable NoForeignKey tables_after_generate
  /\ set_exists 1 tables_after_generate
  /\ fst (delete_flashcard NoForeignKey 1 tables_after_generate) = Json tt
  /\ map fc_set_id
       (rows (flashcards (snd (delete_flashcard NoForeignKey 1 tables_after_generate))))
     = [1; 1; 1]
  /\ ~ delete_removes_cards_always.
Proof.
  assert (set_exists 1 tables_after_generate) as He.
  { eexists. split; [left; reflexivity | reflexivity]. }
  split; [exact reachable_after_generate|]. split; [exact He|].
  split; [reflexivity|]. split; [reflexivity|].
  intros H.
  apply (H NoForeignKey 1 tables_after_generate reachable_after_generate He
           {| fc_id := 1; fc_set_id := 1; fc_question := "What is a tree?";
              fc_answer := "A connected acyclic graph"; fc_known := false |}).
  - cbn. left. reflexivity.
  - reflexivity.
Qed.

(** C5, as the code has it.  A call whose [setId] matches no set answers
    404 and writes to no table but [flashcards]; there it can only write
    the [known] column of rows that carry both the [cardId] and the
    [setId] of the call, so the tables are untouched when no card row
    refers to that [setId], which is the case on all tables that the routes
    produce under a foreign key.  And for every call, found or not, the
    cards of every other set read the same before and after. *)
Theorem save_flashcard_status_not_found :
  forall (b : save_flashcard_status_body) (t : tables),
    (~ set_exists (ss_setId b) t ->
       let r := save_flashcard_status b t in
       fst r = Error 404 "Flashcard set not found"
       /\ flashcard_sets (snd r) = flashcard_sets t
       /\ study_plans (snd r) = study_plans t
       /\ notes (snd r) = notes t
       /\ chat_history (snd r) = chat_history t
       /\ (no_cards_of (ss_setId b) t -> snd r = t)
       /\ (forall fk, fk <> NoForeignKey -> reachable fk t -> snd r = t))
    /\ (forall other, other <> ss_setId b ->
          select_rows (fun c => fc_set_id c =? other)
                      (flashcards (snd (save_flashcard_status b t)))
          = select_rows (fun c => fc_set_id c =? other) (flashcards t)).
Proof.
  intros b t. split.
  - intros Hne. rewrite save_flashcard_status_run.
    rewrite (select_none_of_not_exists _ _ Hne). cbn [fst snd].
    repeat split.
    + apply mark_card_no_cards.
    + intros fk Hfk Hreach. apply mark_card_no_cards.
      intros c Hc Hid.
      destruct (reachable_invariants fk t Hreach) as (_ & _ & Hsets).
      apply Hne. rewrite <- Hid. now apply (Hsets Hfk).
  - intros other Hother. rewrite save_flashcard_status_run.
    destruct (select_rows _ (flashcard_sets t)); cbn [snd];
      rewrite ?recount_cards; now apply mark_card_other_cards.
Qed.

Lemma save_flashcard_status_not_found_witness :
  ~ set_exists 7 tables_one_known
  /\ no_cards_of 7 tables_one_known
  /\ save_flashcard_status {| ss_setId := 7; ss_cardId := 1; ss_known := false |}
       tables_one_known
     = (Error 404 "Flashcard set not found", tables_one_known).
Proof.
  assert (~ set_exists 7 tables_one_known) as He.
  { intros (r & [<-|[]] & Hid). discriminate Hid. }
  assert (no_cards_of 7 tables_one_known) as Hc.
  { intros c [<-|[<-|[]]]; discriminate. }
  split; [exact He|]. split; [exact Hc|].
  pose proof (proj1 (save_flashcard_status_not_found
                       {| ss_setId := 7; ss_cardId := 1; ss_known := false |}
                       tables_one_known) He) as H.
  cbv zeta in H. destruct H as (H1 & _ & _ & _ & _ & H2 & _).
  specialize (H2 Hc).
  destruct (save_flashcard_status _ tables_one_known) as [res t'].
  cbn [fst snd] in H1, H2. now rewrite H1, H2.
Defined.

(** C5, counterexample.  A set of three cards is generated and, with no
    foreign key, deleted.  No set 1 exists then, yet the call for card 1 of
    set 1 writes [known] on the card left behind while it answers 404. *)
Lemma save_flashcard_status_writes_before_check :
  reachable NoForeignKey tables_after_delete
  /\ ~ set_exists 1 tables_after_delete
  /\ map fc_known (rows (flashcards tables_after_delete)) = [false; false; false]
  /\ fst (save_flashcard_status mark_first_known tables_after_delete)
     = Error 404 "Flashcard set not found"
  /\ map fc_known
       (rows (flashcards (snd (save_flashcard_status mark_first_known tables_after_delete))))
     = [true; false; false]
  /\ ~ not_found_mutates_nothing.
Proof.
  assert (~ set_exists 1 tables_after_delete) as He.
  { intros (r & Hr & _). exact Hr. }
  split; [exact reachable_after_delete|]. split; [exact He|].
  split; [reflexivity|]. split; [reflexivity|]. split; [reflexivity|].
  intros H.
  specialize (H NoForeignKey mark_first_known tables_after_delete reachable_after_delete He).
  vm_compute in H. discriminate H.
Qed.

(* ================================================================== *)
(** * Study plans *)
(* ================================================================== *)

(** [ceil_div a b] is the least integer whose product with [b] reaches
    [a]: the ceiling of the quotient. *)
Lemma ceil_div_spec (a b : Z) :
  0 < b -> (ceil_div a b - 1) * b < a <= ceil_div a b * b.
Proof.
  intros Hb. unfold ceil_div.
  pose proof (Z.div_mod (- a) b ltac:(lia)) as Hdm.
  pose proof (Z.mod_pos_bound (- a) b Hb) as Hm.
  nia.
Qed.

Lemma ceil_div_unique (a b n : Z) :
  0 < b -> (n - 1) * b < a <= n * b -> n = ceil_div a b.
Proof.
  intros Hb Hn. pose proof (ceil_div_spec a b Hb) as Hc. nia.
Qed.

(** C4.  For a body with a course name, a deadline and a non-zero number
    of hours per day, let [daysUntil] be the ceiling of the time to the
    deadline in days.  When [daysUntil <= 0] the route answers 400
    "Deadline must be in the future" and the tables are untouched.
    Otherwise, when the reply of the model parses, one row is appended to
    [study_plans] and one plan is returned, both with [daysUntil] that
    ceiling and [totalHours = daysUntil * hoursPerDay]; when it does not
    parse, the route answers 500 and the tables are untouched. *)
Theorem generate_study_plan_days_and_hours :
  forall generateContent (now : Z) (t : tables) (cn : string) (dl hpd : Z),
    cn <> EmptyString -> hpd <> 0 ->
    let body := {| courseName := Some cn; deadline := Some dl; hoursPerDay := Some hpd |} in
    let daysUntil := ceil_div (dl - now) day_ms in
    let r := generate_study_plan generateContent now body t in
    (daysUntil - 1) * day_ms < dl - now <= daysUntil * day_ms
    /\ (daysUntil <= 0 ->
          fst r = Error 400 "Deadline must be in the future" /\ snd r = t)
    /\ (0 < daysUntil ->
          match generateContent (study_plan_prompt cn daysUntil (daysUntil * hpd) hpd) with
          | Some planData =>
              exists row plan,
                rows (study_plans (snd r)) = rows (study_plans t) ++ [row]
                /\ fst r = Json plan
                /\ plan_id plan = sp_id row
                /\ sp_hours_per_day row = hpd
                /\ sp_days_until row = daysUntil
                /\ sp_total_hours row = daysUntil * hpd
                /\ plan_hoursPerDay plan = hpd
                /\ plan_daysUntil plan = daysUntil
                /\ plan_totalHours plan = daysUntil * hpd
          | None =>
              fst r = Error 500 "Failed to generate study plan from AI. Check API key/model."
              /\ snd r = t
          end).
Proof.
  intros generateContent now t cn dl hpd Hcn Hhpd body daysUntil r.
  split; [apply ceil_div_spec; reflexivity|].
  subst r. unfold generate_study_plan, try_catch. cbn [courseName deadline hoursPerDay body].
  assert (truthy_string (Some cn) = true) as ->.
  { cbn. apply negb_true_iff. now apply String.eqb_neq. }
  assert (truthy_Z (Some hpd) = true) as ->.
  { cbn. apply negb_true_iff. now apply Z.eqb_neq. }
  cbn [negb orb].
  change (1000 * 60 * 60 * 24) with day_ms. fold daysUntil.
  split.
  - intros Hle. apply Z.leb_le in Hle. rewrite Hle. split; reflexivity.
  - intros Hlt. assert ((daysUntil <=? 0) = false) as -> by (apply Z.leb_gt; exact Hlt).
    unfold bind.
    destruct (generateContent (study_plan_prompt cn daysUntil (daysUntil * hpd) hpd)) as [planData|].
    + cbn. eexists. eexists. repeat split.
    + cbn. split; reflexivity.
Qed.

(** The scenario of the specification: a deadline seven days ahead and two
    hours per day give [daysUntil = 7] and [totalHours = 14]. *)
Lemma generate_study_plan_days_and_hours_witness :
  let body := {| courseName := Some "Algorithms";
                 deadline := Some (1000000 + 7 * day_ms);
                 hoursPerDay := Some 2 |} in
  let r := generate_study_plan (fun _ => Some one_week_plan) 1000000 body empty_tables in
  ceil_div (1000000 + 7 * day_ms - 1000000) day_ms = 7
  /\ exists row plan,
       rows (study_plans (snd r)) = [row]
       /\ fst r = Json plan
       /\ plan_id plan = sp_id row
       /\ sp_hours_per_day row = 2
       /\ sp_days_until row = 7
       /\ sp_total_hours row = 14
       /\ plan_hoursPerDay plan = 2
       /\ plan_daysUntil plan = 7
       /\ plan_totalHours plan = 14.
Proof.
  split; [reflexivity|].
  refine (proj2 (proj2 (generate_study_plan_days_and_hours
            (fun _ => Some one_week_plan) 1000000 empty_tables "Algorithms"
            (1000000 + 7 * day_ms) 2 _ _)) _).
  - discriminate.
  - discriminate.
  - reflexivity.
Defined.

Lemma update_progress_nowhere (progress : Z) (completed : bool) (id : Z) (t : tables) :
  ~ plan_exists id t -> snd (update_progress progress completed id t) = t.
Proof.
  intros Hne. unfold update_progress. cbn [snd].
  apply tables_eq; try reflexivity. cbn [study_plans with_study_plans].
  unfold update_rows. rewrite map_update_nowhere.
  - now destruct (study_plans t).
  - intros r Hr. apply Z.eqb_neq. intros Hid. apply Hne. now exists r.
Qed.

(** C10.  When no plan has the [id] of the body, the [UPDATE] of
    [/update-study-progress] matches no row, the [SELECT] that follows
    returns none, and the route answers 404 with every table as it was. *)
Theorem update_study_progress_not_found :
  forall (body : update_study_progress_body) (t : tables),
    ~ plan_exists (usp_id body) t ->
    snd (update_progress (usp_progress body) (usp_completed body) (usp_id body) t) = t
    /\ update_study_progress body t = (Error 404 "Study plan not found", t).
Proof.
  intros body t Hne.
  pose proof (update_progress_nowhere (usp_progress body) (usp_completed body) _ t Hne) as Hu.
  split; [exact Hu|].
  unfold update_study_progress, try_catch, bind.
  destruct (update_progress (usp_progress body) (usp_completed body) (usp_id body) t)
    as [o t'] eqn:E.
  assert (o = Returned tt) as -> by (unfold update_progress in E; now inversion E).
  cbn [snd] in Hu. subst t'.
  unfold select_study_plan, select_rows.
  rewrite (filter_nothing (fun r => sp_id r =? usp_id body)); [reflexivity|].
  intros r Hr. apply Z.eqb_neq. intros Hid. apply Hne. now exists r.
Qed.

Lemma update_study_progress_not_found_witness :
  ~ plan_exists 9 tables_one_plan
  /\ update_study_progress {| usp_id := 9; usp_progress := 50; usp_completed := false |}
       tables_one_plan
     = (Error 404 "Study plan not found", tables_one_plan).
Proof.
  assert (~ plan_exists 9 tables_one_plan) as Hne.
  { intros (r & [<-|[]] & Hid). discriminate Hid. }
  split; [exact Hne|].
  exact (proj2 (update_study_progress_not_found
                  {| usp_id := 9; usp_progress := 50; usp_completed := false |}
                  tables_one_plan Hne)).
Defined.

(* ================================================================== *)
(** * Notes: the mock PDF upload *)
(* ================================================================== *)

(** C9.  Two [/upload-pdf] requests with the same [fileName] and any
    [fileContent] give, on the same tables at the same instant, the same
    response and the same tables; and the title and the content of the
    note, stored and returned, are the fixed template filled with the file
    name, whatever the tables and the instant. *)
Theorem upload_pdf_ignores_file_content :
  forall (now : Z) (t : tables) (name : option string) (content1 content2 : option string),
    upload_pdf now {| fileName := name; fileContent := content1 |} t
    = upload_pdf now {| fileName := name; fileContent := content2 |} t
    /\ (forall file_name,
          upload_pdf now {| fileName := Some file_name; fileContent := content1 |} t
          = (Json {| note_id := auto_increment (notes t);
                     note_title := "Notes from " +++ file_name;
                     note_content := pdf_content (Some file_name);
                     note_source := pdf;
                     note_createdAt := now |},
             with_notes t
               {| rows := rows (notes t)
                          ++ [ {| n_id := auto_increment (notes t);
                                  n_title := "Notes from " +++ file_name;
                                  n_content := pdf_content (Some file_name);
                                  n_source := pdf;
                                  n_file_name := Some file_name;
                                  n_created_at := now |} ];
                  auto_increment := auto_increment (notes t) + 1 |})).
Proof.
  intros now t name content1 content2. split; [reflexivity|].
  intros file_name. reflexivity.
Qed.

(* ================================================================== *)
(** * Dashboard *)
(* ================================================================== *)

Lemma or_sql_sum {R : Type} (e : R -> Z) (t : table R) :
  or_Z (sql_sum e t) 0 = sum_over e (rows t).
Proof.
  unfold sql_sum, sum_over. destruct (rows t) as [|x l]; [reflexivity|].
  cbn [or_Z]. destruct (Z.eqb_spec (fold_right Z.add 0 (map e (x :: l))) 0) as [E|E];
    [now rewrite E | reflexivity].
Qed.

(** C8, as the code has it.  [/dashboard-stats] writes nothing and
    returns the number of notes, the number of plans, the sum of
    [total_count] over the sets, as [totalTasks] the sum over the plans of
    the number of entries (weeks) of the plan array, and as
    [completedTasks] the sum over the plans of the floor of
    [progress / 100] times that number of entries; every sum is 0 over an
    empty table.  The [tasks] arrays inside the weeks are not read. *)
Theorem dashboard_stats_sums :
  forall t : tables,
    dashboard_stats t
    = (Json {| totalNotes := Z.of_nat (List.length (rows (notes t)));
               totalStudyPlans := Z.of_nat (List.length (rows (study_plans t)));
               totalFlashcards := sum_over fs_total_count (rows (flashcard_sets t));
               totalTasks :=
                 sum_over (fun p => Z.of_nat (List.length (sp_plan_json p)))
                          (rows (study_plans t));
               completedTasks := sum_over completed_of_row (rows (study_plans t)) |},
       t)
    /\ (forall p : study_plan_row,
          100 * completed_of_row p
            <= sp_progress p * Z.of_nat (List.length (sp_plan_json p))
            < 100 * (completed_of_row p + 1)).
Proof.
  intros t. split.
  - unfold dashboard_stats, try_catch, ret. cbn [fst snd].
    rewrite !or_sql_sum. reflexivity.
  - intros p. unfold completed_of_row, json_length.
    pose proof (Z.div_mod (sp_progress p * Z.of_nat (List.length (sp_plan_json p))) 100
                  ltac:(lia)) as Hdm.
    pose proof (Z.mod_pos_bound (sp_progress p * Z.of_nat (List.length (sp_plan_json p))) 100
                  ltac:(lia)) as Hm.
    lia.
Qed.

(** C8, counterexample.  One plan of one week with two tasks:
    [totalTasks] is 1, the number of weeks, not 2. *)
Lemma total_tasks_counts_weeks :
  reachable NoForeignKey tables_one_plan
  /\ fst (dashboard_stats tables_one_plan)
     = Json {| totalNotes := 0; totalStudyPlans := 1; totalFlashcards := 0;
               totalTasks := 1; completedTasks := 0 |}
  /\ sum_over tasks_of_plan (rows (study_plans tables_one_plan)) = 2
  /\ ~ total_tasks_counts_tasks.
Proof.
  split; [apply reachable_one_plan|]. split; [reflexivity|]. split; [reflexivity|].
  intros H. specialize (H tables_one_plan _ eq_refl). discriminate H.
Qed.

(* ================================================================== *)
(** * Export: the text carries the stored fields *)
(* ================================================================== *)

Lemma append_assoc (a b c : string) : (a +++ b) +++ c = a +++ (b +++ c).
Proof.
  induction a as [|x a IH]; simpl; [reflexivity | now rewrite IH].
Qed.

Lemma append_nil_r (a : string) : a +++ EmptyString = a.
Proof.
  induction a as [|x a IH]; simpl; [reflexivity | now rewrite IH].
Qed.

Lemma occurs_in_refl (s : string) : occurs_in s s.
Proof. exists EmptyString, EmptyString. now rewrite append_nil_r. Qed.

Lemma occurs_in_skip (a s text : string) : occurs_in s text -> occurs_in s (a +++ text).
Proof.
  intros (before & after & ->). exists (a +++ before), after. now rewrite append_assoc.
Qed.

Lemma occurs_in_crop (s text b : string) : occurs_in s text -> occurs_in s (text +++ b).
Proof.
  intros (before & after & ->). exists before, (after +++ b). now rewrite !append_assoc.
Qed.

Lemma occurs_in_trans (s u text : string) :
  occurs_in s u -> occurs_in u text -> occurs_in s text.
Proof.
  intros (b1 & a1 & ->) (b2 & a2 & ->).
  exists (b2 +++ b1), (a1 +++ a2). now rewrite !append_assoc.
Qed.

Lemma occurs_in_join (sep x : string) (xs : list string) :
  In x xs -> occurs_in x (join sep xs).
Proof.
  induction xs as [|y xs IH]; intros Hin; [destruct Hin|].
  destruct Hin as [->|Hin].
  - destruct xs as [|z xs]; [apply occurs_in_refl|].
    exists EmptyString. eexists. reflexivity.
  - destruct xs as [|z xs]; [destruct Hin|].
    change (join sep (y :: z :: xs)) with (y +++ sep +++ join sep (z :: xs)).
    now apply occurs_in_skip, occurs_in_skip, IH.
Qed.

Lemma In_map_index {A B : Type} (f : A -> Z -> B) (xs : list A) :
  forall (k : Z) (i : nat) (x : A),
    nth_error xs i = Some x -> In (f x (k + Z.of_nat i)) (map_index f k xs).
Proof.
  induction xs as [|y xs IH]; intros k i x H; [destruct i; discriminate H|].
  destruct i as [|i]; simpl in H.
  - inversion H; subst. left. f_equal. simpl. lia.
  - right. replace (k + Z.of_nat (S i)) with ((k + 1) + Z.of_nat i) by lia.
    now apply IH.
Qed.

(** A piece that the text begins with, after some pieces are skipped. *)
Ltac occurs_here :=
  exists EmptyString; eexists; rewrite ?append_assoc; reflexivity.

Ltac occurs :=
  first [ occurs_here | apply occurs_in_skip; occurs ].

(** An element of the first [join] of the text. *)
Ltac occurs_joined :=
  lazymatch goal with
  | |- occurs_in _ (join _ _ +++ _) => apply occurs_in_crop, occurs_in_join
  | |- occurs_in _ (join _ _) => apply occurs_in_join
  | |- occurs_in _ (_ +++ _) => apply occurs_in_skip; occurs_joined
  end.

Section ExportFacts.

Variable toLocaleDateString : Z -> string.
Variable toLocaleString : Z -> string.

Lemma format_week_heading (w : week_entry) :
  occurs_in ("Week " +++ show_Z (week w) +++ ": " +++ topic w +++ nl
             +++ "Hours: " +++ show_Z (hours w) +++ nl +++ "Tasks:" +++ nl)
            (format_week w).
Proof. unfold format_week. occurs. Qed.

Lemma format_week_task (w : week_entry) (task : string) :
  In task (tasks w) -> occurs_in (" " +++ nbsp +++ "- " +++ task) (format_week w).
Proof.
  intros Hin. unfold format_week. occurs_joined.
  change (" " +++ nbsp +++ "- " +++ task) with (format_task task).
  now apply in_map.
Qed.

Lemma study_plan_export_week (plan : study_plan_row) (w : week_entry) :
  In w (sp_plan_json plan) ->
  occurs_in (format_week w)
            (formatStudyPlanForExport toLocaleDateString toLocaleString plan).
Proof.
  intros Hin. unfold formatStudyPlanForExport. cbv zeta.
  rewrite !append_assoc. occurs_joined. now apply in_map.
Qed.

Lemma flashcards_export_card (set0 : flashcard_set_row) (cards : list flashcard_row)
    (i : nat) (c : flashcard_row) :
  nth_error cards i = Some c ->
  occurs_in (format_card c (Z.of_nat i))
            (formatFlashcardsForExport toLocaleString set0 cards).
Proof.
  intros Hnth. unfold formatFlashcardsForExport. cbv zeta.
  rewrite !append_assoc. occurs_joined.
  now apply (In_map_index format_card cards 0 i c).
Qed.

Lemma study_plan_export_nonempty (plan : study_plan_row) :
  String.eqb (formatStudyPlanForExport toLocaleDateString toLocaleString plan) EmptyString
  = false.
Proof. reflexivity. Qed.

Lemma flashcards_export_nonempty (set0 : flashcard_set_row) (cards : list flashcard_row) :
  String.eqb (formatFlashcardsForExport toLocaleString set0 cards) EmptyString = false.
Proof. reflexivity. Qed.

Lemma chat_export_nonempty (history : list chat_row) :
  String.eqb (formatChatHistoryForExport toLocaleString history) EmptyString = false.
Proof. reflexivity. Qed.

(** The export route reads and never writes. *)
Lemma download_export_reads (now : Z) (body : download_export_body) (t : tables) :
  snd (download_export toLocaleDateString toLocaleString now body t) = t.
Proof.
  unfold download_export, try_catch, bind, send_export.
  destruct (de_type body) as [type|]; [|reflexivity].
  destruct (String.eqb type "study").
  { destruct (de_id body) as [id|]; [|reflexivity]. cbn [await ret select_study_plan].
    destruct (select_rows _ (study_plans t)) as [|plan rest]; [reflexivity|].
    rewrite study_plan_export_nonempty. reflexivity. }
  destruct (String.eqb type "notes").
  { destruct (de_id body) as [id|]; [|reflexivity]. cbn [await ret select_note].
    destruct (select_rows _ (notes t)) as [|note0 rest]; [reflexivity|].
    destruct (String.eqb (n_content note0) EmptyString); reflexivity. }
  destruct (String.eqb type "chat").
  { cbn [select_chat_history]. rewrite chat_export_nonempty. reflexivity. }
  destruct (String.eqb type "flashcards"); [|reflexivity].
  destruct (de_id body) as [id|]; [|reflexivity]. cbn [await ret select_flashcard_set].
  destruct (select_rows _ (flashcard_sets t)) as [|set0 rest]; [reflexivity|].
  cbn [select_flashcard_rows]. rewrite flashcards_export_nonempty. reflexivity.
Qed.

Lemma fresh_flashcard_set_export generateContent (now now' : Z)
    (body : generate_flashcards_body) (t : tables)
    (generatedCards : list generated_card) (format : option string) :
  generateContent (flashcards_prompt (or_Z (gf_count body) 5) (gf_topic body))
    = Some generatedCards ->
  Forall has_fields generatedCards ->
  set_ids_below_counter t ->
  let t' := snd (generate_flashcards generateContent now body t) in
  download_export toLocaleDateString toLocaleString now'
    {| de_type := Some "flashcards"; de_id := Some (auto_increment (flashcard_sets t));
       de_format := format |} t'
  = (Json {| content := formatFlashcardsForExport toLocaleString
                          (fresh_set_row now body generatedCards t)
                          (fresh_card_rows generatedCards t);
             filename := "flashcards-"
                         +++ replace_spaces (or_string (gf_topic body) "General Study")
                         +++ "-" +++ show_Z now' +++ "." +++ show_string format |},
     t').
Proof.
  intros Hgen Hall [Hs Hc] t'. subst t'.
  rewrite (generate_flashcards_complete _ _ _ _ _ Hgen Hall).
  unfold download_export, try_catch, bind, send_export.
  cbn [de_type de_id de_format String.eqb Ascii.eqb Bool.eqb await ret
       select_flashcard_set select_flashcard_rows select_rows
       flashcard_sets flashcards with_flashcards with_flashcard_sets rows].
  unfold select_rows. cbn [rows]. rewrite filter_app.
  rewrite (filter_nothing _ (rows (flashcard_sets t)))
    by (intros r Hr; apply Z.eqb_neq; specialize (Hs r Hr); lia).
  cbn [filter fresh_set_row fs_id app]. rewrite Z.eqb_refl.
  cbn [flashcards with_flashcards rows]. rewrite filter_app.
  rewrite (filter_nothing _ (rows (flashcards t)))
    by (intros r Hr; apply Z.eqb_neq; specialize (Hc r Hr); lia).
  rewrite (filter_all _ (fresh_card_rows generatedCards t))
    by (intros r Hr; apply Z.eqb_eq; now apply (card_rows_set_id _ _ _ _ Hr)).
  rewrite flashcards_export_nonempty. reflexivity.
Qed.

Lemma fresh_study_plan_export generateContent (now now' : Z) (t : tables)
    (cn : string) (dl hpd : Z) (planData : list week_entry) (format : option string) :
  cn <> EmptyString -> hpd <> 0 -> 0 < ceil_div (dl - now) day_ms ->
  generateContent (study_plan_prompt cn (ceil_div (dl - now) day_ms)
                     (ceil_div (dl - now) day_ms * hpd) hpd) = Some planData ->
  plan_ids_below_counter t ->
  let t' := snd (generate_study_plan generateContent now
                   {| courseName := Some cn; deadline := Some dl;
                      hoursPerDay := Some hpd |} t) in
  download_export toLocaleDateString toLocaleString now'
    {| de_type := Some "study"; de_id := Some (auto_increment (study_plans t));
       de_format := format |} t'
  = (Json {| content := formatStudyPlanForExport toLocaleDateString toLocaleString
                          (fresh_plan_row now cn dl hpd planData t);
             filename := "study-plan-" +++ replace_spaces cn
                         +++ "-" +++ show_Z now' +++ "." +++ show_string format |},
     t').
Proof.
  intros Hcn Hhpd Hdays Hgen Hids t'. subst t'.
  rewrite (generate_study_plan_complete _ _ _ _ _ _ _ Hcn Hhpd Hdays Hgen).
  unfold download_export, try_catch, bind, send_export.
  cbn [de_type de_id de_format String.eqb Ascii.eqb Bool.eqb await ret
       select_study_plan study_plans with_study_plans].
  unfold select_rows. cbn [rows]. rewrite filter_app.
  rewrite (filter_nothing _ (rows (study_plans t)))
    by (intros r Hr; apply Z.eqb_neq; specialize (Hids r Hr); lia).
  cbn [filter fresh_plan_row sp_id app]. rewrite Z.eqb_refl.
  rewrite study_plan_export_nonempty. reflexivity.
Qed.

End ExportFacts.

(** C6.  The text of a study plan contains, each under its label, the
    course name, the hours per day, the total hours and the progress, and
    for every week its number, topic and hours and each of its tasks,
    after the prefix of the source (space, no-break space, hyphen, space);
    the text of a flashcard set contains its topic, its total and known
    counts, and for every card its question and its answer under the
    number of the card.  All values are the stored ones, character for
    character, integers in decimal.  And on tables that the routes
    produce, the export of a plan or of a set right after its generation
    is the text of the rows that the generation wrote: the plan row with
    the course name, hours, days and weeks of the request and the reply,
    the set row with the cards of the reply in their order. *)
Theorem export_reproduces_fields :
  forall (toLocaleDateString toLocaleString : Z -> string),
    (forall plan : study_plan_row,
       let text := formatStudyPlanForExport toLocaleDateString toLocaleString plan in
       occurs_in ("STUDY PLAN: " +++ sp_course_name plan +++ nl) text
       /\ occurs_in ("Hours per day: " +++ show_Z (sp_hours_per_day plan) +++ nl
                     +++ "Total hours: " +++ show_Z (sp_total_hours plan) +++ nl
                     +++ "Progress: " +++ show_Z (sp_progress plan) +++ "%" +++ nl) text
       /\ (forall w, In w (sp_plan_json plan) ->
             occurs_in ("Week " +++ show_Z (week w) +++ ": " +++ topic w +++ nl
                        +++ "Hours: " +++ show_Z (hours w) +++ nl
                        +++ "Tasks:" +++ nl) text
             /\ (forall task, In task (tasks w) ->
                   occurs_in (" " +++ nbsp +++ "- " +++ task) text)))
    /\ (forall (set0 : flashcard_set_row) (cards : list flashcard_row),
          let text := formatFlashcardsForExport toLocaleString set0 cards in
          occurs_in ("FLASHCARDS: " +++ fs_topic set0 +++ nl) text
          /\ occurs_in ("Total Cards: " +++ show_Z (fs_total_count set0) +++ nl
                        +++ "Known: " +++ show_Z (fs_known_count set0) +++ nl) text
          /\ (forall i c, nth_error cards i = Some c ->
                occurs_in ("Card " +++ show_Z (Z.of_nat i + 1) +++ ":" +++ nl
                           +++ "Q: " +++ fc_question c +++ nl
                           +++ "A: " +++ fc_answer c +++ nl) text))
    /\ (forall fk t generateContent now now' cn dl hpd planData format,
          reachable fk t ->
          cn <> EmptyString -> hpd <> 0 -> 0 < ceil_div (dl - now) day_ms ->
          generateContent (study_plan_prompt cn (ceil_div (dl - now) day_ms)
                             (ceil_div (dl - now) day_ms * hpd) hpd) = Some planData ->
          fst (download_export toLocaleDateString toLocaleString now'
                 {| de_type := Some "study"; de_id := Some (auto_increment (study_plans t));
                    de_format := format |}
                 (snd (generate_study_plan generateContent now
                         {| courseName := Some cn; deadline := Some dl;
                            hoursPerDay := Some hpd |} t)))
          = Json {| content := formatStudyPlanForExport toLocaleDateString toLocaleString
                                 (fresh_plan_row now cn dl hpd planData t);
                    filename := "study-plan-" +++ replace_spaces cn
                                +++ "-" +++ show_Z now' +++ "." +++ show_string format |})
    /\ (forall fk t generateContent now now' body generatedCards format,
          reachable fk t ->
          generateContent (flashcards_prompt (or_Z (gf_count body) 5) (gf_topic body))
            = Some generatedCards ->
          Forall has_fields generatedCards ->
          fst (download_export toLocaleDateString toLocaleString now'
                 {| de_type := Some "flashcards";
                    de_id := Some (auto_increment (flashcard_sets t));
                    de_format := format |}
                 (snd (generate_flashcards generateContent now body t)))
          = Json {| content := formatFlashcardsForExport toLocaleString
                                 (fresh_set_row now body generatedCards t)
                                 (fresh_card_rows generatedCards t);
                    filename := "flashcards-"
                                +++ replace_spaces (or_string (gf_topic body) "General Study")
                                +++ "-" +++ show_Z now' +++ "." +++ show_string format |}
          /\ (forall i g, nth_error generatedCards i = Some g ->
                exists id,
                  nth_error (fresh_card_rows generatedCards t) i
                  = Some {| fc_id := id;
                            fc_set_id := auto_increment (flashcard_sets t);
                            fc_question := show_string (question g);
                            fc_answer := show_string (answer g);
                            fc_known := false |})).
Proof.
  intros toLocaleDateString toLocaleString. split; [|split; [|split]].
  - intros plan text. split; [|split].
    + subst text. unfold formatStudyPlanForExport. cbv zeta. rewrite !append_assoc. occurs.
    + subst text. unfold formatStudyPlanForExport. cbv zeta. rewrite !append_assoc. occurs.
    + intros w Hw.
      pose proof (study_plan_export_week toLocaleDateString toLocaleString plan w Hw) as Hweek.
      split.
      * exact (occurs_in_trans _ _ _ (format_week_heading w) Hweek).
      * intros task Htask.
        exact (occurs_in_trans _ _ _ (format_week_task w task Htask) Hweek).
  - intros set0 cards text. split; [|split].
    + subst text. unfold formatFlashcardsForExport. cbv zeta. rewrite !append_assoc. occurs.
    + subst text. unfold formatFlashcardsForExport. cbv zeta. rewrite !append_assoc. occurs.
    + intros i c Hnth.
      refine (occurs_in_trans _ _ _ _
                (flashcards_export_card toLocaleString set0 cards i c Hnth)).
      unfold format_card. occurs.
  - intros fk t generateContent now now' cn dl hpd planData format Hreach Hcn Hhpd Hdays Hgen.
    rewrite (fresh_study_plan_export toLocaleDateString toLocaleString generateContent
               now now' t cn dl hpd planData format Hcn Hhpd Hdays Hgen
               (reachable_plan_ids fk t Hreach)).
    reflexivity.
  - intros fk t generateContent now now' body generatedCards format Hreach Hgen Hall.
    split.
    + rewrite (fresh_flashcard_set_export toLocaleDateString toLocaleString generateContent
                 now now' body t generatedCards format Hgen Hall
                 (proj1 (reachable_invariants fk t Hreach))).
      reflexivity.
    + intros i g Hnth. eexists. unfold fresh_card_rows. now apply nth_card_rows.
Qed.

Lemma export_reproduces_fields_witness :
  let text := formatStudyPlanForExport show_Z show_Z algorithms_row in
  occurs_in ("Week 1: Introduction and Fundamentals" +++ nl
             +++ "Hours: 14" +++ nl +++ "Tasks:" +++ nl) text
  /\ occurs_in (" " +++ nbsp +++ "- Complete practice exercises") text
  /\ occurs_in ("Card 2:" +++ nl +++ "Q: What is a leaf?" +++ nl
                +++ "A: A vertex of degree one" +++ nl)
       (formatFlashcardsForExport show_Z
          {| fs_id := 1; fs_topic := "Graph theory"; fs_total_count := 2;
             fs_known_count := 1; fs_created_at := 1000 |}
          (rows (flashcards tables_one_known)))
  /\ fst (download_export show_Z show_Z 2000
            {| de_type := Some "flashcards"; de_id := Some 1; de_format := Some "txt" |}
            tables_after_generate)
     = Json {| content := formatFlashcardsForExport show_Z
                            (fresh_set_row 1000 ask_five three_cards empty_tables)
                            (fresh_card_rows three_cards empty_tables);
               filename := "flashcards-Graph-theory-2000.txt" |}.
Proof.
  pose proof (export_reproduces_fields show_Z show_Z) as (Hplan & Hset & _ & Hfresh).
  destruct (Hplan algorithms_row) as (_ & _ & Hweeks).
  destruct (Hweeks {| week := 1; topic := "Introduction and Fundamentals"; hours := 14;
                      tasks := ["Read chapters 1-3"; "Complete practice exercises"] |}
                   (or_introl eq_refl)) as [Hhead Htasks].
  split; [exact Hhead|]. split; [|split].
  - apply (Htasks "Complete practice exercises"). right. left. reflexivity.
  - destruct (Hset {| fs_id := 1; fs_topic := "Graph theory"; fs_total_count := 2;
                      fs_known_count := 1; fs_created_at := 1000 |}
                   (rows (flashcards tables_one_known))) as (_ & _ & Hcards).
    exact (Hcards 1%nat _ eq_refl).
  - refine (proj1 (Hfresh NoForeignKey empty_tables (fun _ => Some three_cards) 1000 2000
                     ask_five three_cards (Some "txt") (reach_empty _) eq_refl _)).
    repeat constructor; discriminate.
Defined.

(* ================================================================== *)
(** * Export: file names *)
(* ================================================================== *)

Lemma replace_spaces_from_app (a b : string) :
  forall in_run,
    replace_spaces_from in_run (a +++ b)
    = replace_spaces_from in_run a +++ replace_spaces_from (in_run_after in_run a) b.
Proof.
  induction a as [|c a IH]; intros in_run; simpl; [reflexivity|].
  destruct (is_space c); [destruct in_run|]; simpl; now rewrite IH.
Qed.

Lemma replace_spaces_from_run (run : string) :
  all_spaces run = true ->
  replace_spaces_from true run = EmptyString /\ in_run_after true run = true.
Proof.
  unfold all_spaces. induction run as [|c run IH]; simpl; intros H; [now split|].
  apply andb_prop in H as [Hc Hrun]. rewrite Hc. now apply IH.
Qed.

Lemma replace_spaces_from_start (b : string) :
  starts_with_space b = false ->
  replace_spaces_from true b = replace_spaces_from false b.
Proof.
  destruct b as [|c b]; simpl; [reflexivity|]. now intros ->.
Qed.

(** A maximal run of white space between [a] and [b] becomes one hyphen. *)
Lemma replace_spaces_run (a run b : string) :
  run <> EmptyString -> all_spaces run = true ->
  ends_with_space a = false -> starts_with_space b = false ->
  replace_spaces (a +++ run +++ b) = replace_spaces a +++ "-" +++ replace_spaces b.
Proof.
  intros Hne Hrun Ha Hb. unfold replace_spaces, ends_with_space in *.
  rewrite replace_spaces_from_app, Ha. f_equal.
  destruct run as [|c run]; [now elim Hne|].
  unfold all_spaces in Hrun. simpl in Hrun. apply andb_prop in Hrun as [Hc Hrest].
  simpl. rewrite Hc.
  rewrite replace_spaces_from_app.
  destruct (replace_spaces_from_run run Hrest) as [-> ->].
  simpl. f_equal. now apply replace_spaces_from_start.
Qed.

(** Text without white space is kept as it is. *)
Lemma replace_spaces_none (s : string) :
  no_spaces s = true -> replace_spaces s = s.
Proof.
  unfold replace_spaces, no_spaces. induction s as [|c s IH]; simpl; intros H; [reflexivity|].
  apply andb_prop in H as [Hc Hs]. apply negb_true_iff in Hc. rewrite Hc.
  f_equal. now apply IH.
Qed.

(** The result holds no white space. *)
Lemma replace_spaces_no_spaces (s : string) : no_spaces (replace_spaces s) = true.
Proof.
  unfold replace_spaces, no_spaces. generalize false.
  induction s as [|c s IH]; intros in_run; simpl; [reflexivity|].
  destruct (is_space c) eqn:Hc; [destruct in_run|]; simpl; rewrite ?Hc, ?IH; reflexivity.
Qed.

(** C7, as the code has it.  With [stamp] the text
    [-<Date.now()>.<format>]: an export of type [study], [notes] or
    [flashcards] whose record is found is named [study-plan-], [note-] or
    [flashcards-] followed by the course name, the title or the topic with
    every maximal run of white space turned into one hyphen, then [stamp];
    an export of type [chat] is named [chat-history] then [stamp], with no
    slug; any other type answers 400; a record that is not found, or a note
    with empty content, answers 404.  The route writes to no table. *)
Theorem download_export_filename :
  forall (toLocaleDateString toLocaleString : Z -> string)
         (now : Z) (body : download_export_body) (t : tables),
    let r := download_export toLocaleDateString toLocaleString now body t in
    let stamp := "-" +++ show_Z now +++ "." +++ show_string (de_format body) in
    snd r = t
    /\ (forall id plan rest,
          de_type body = Some "study" -> de_id body = Some id ->
          select_rows (fun p => sp_id p =? id) (study_plans t) = plan :: rest ->
          fst r = Json {| content := formatStudyPlanForExport toLocaleDateString
                                       toLocaleString plan;
                          filename := "study-plan-" +++ replace_spaces (sp_course_name plan)
                                      +++ stamp |})
    /\ (forall id note0 rest,
          de_type body = Some "notes" -> de_id body = Some id ->
          select_rows (fun n => n_id n =? id) (notes t) = note0 :: rest ->
          n_content note0 <> EmptyString ->
          fst r = Json {| content := n_content note0;
                          filename := "note-" +++ replace_spaces (n_title note0) +++ stamp |})
    /\ (forall id set0 rest,
          de_type body = Some "flashcards" -> de_id body = Some id ->
          select_rows (fun s => fs_id s =? id) (flashcard_sets t) = set0 :: rest ->
          fst r = Json {| content := formatFlashcardsForExport toLocaleString set0
                                       (select_rows (fun c => fc_set_id c =? id) (flashcards t));
                          filename := "flashcards-" +++ replace_spaces (fs_topic set0)
                                      +++ stamp |})
    /\ (de_type body = Some "chat" ->
          fst r = Json {| content := formatChatHistoryForExport toLocaleString
                                       (rows (chat_history t));
                          filename := "chat-history" +++ stamp |})
    /\ (de_type body <> Some "study" -> de_type body <> Some "notes" ->
        de_type body <> Some "chat" -> de_type body <> Some "flashcards" ->
          fst r = Error 400 "Invalid export type")
    /\ (forall id,
          de_id body = Some id ->
          (de_type body = Some "study"
             /\ select_rows (fun p => sp_id p =? id) (study_plans t) = [])
          \/ (de_type body = Some "notes"
                /\ (select_rows (fun n => n_id n =? id) (notes t) = []
                    \/ exists note0 rest,
                         select_rows (fun n => n_id n =? id) (notes t) = note0 :: rest
                         /\ n_content note0 = EmptyString))
          \/ (de_type body = Some "flashcards"
                /\ select_rows (fun s => fs_id s =? id) (flashcard_sets t) = []) ->
          fst r = Error 404 "Content not found")
    /\ (forall a run b,
          run <> EmptyString -> all_spaces run = true ->
          ends_with_space a = false -> starts_with_space b = false ->
          replace_spaces (a +++ run +++ b) = replace_spaces a +++ "-" +++ replace_spaces b)
    /\ (forall s, no_spaces s = true -> replace_spaces s = s)
    /\ (forall s, no_spaces (replace_spaces s) = true).
Proof.
  intros toLocaleDateString toLocaleString now body t r stamp. subst r stamp.
  split; [apply download_export_reads|].
  unfold download_export, try_catch, bind, send_export.
  repeat apply conj.
  - intros id plan rest -> -> S. cbn. rewrite S. reflexivity.
  - intros id note0 rest -> -> S Hc. cbn. rewrite S.
    apply String.eqb_neq in Hc. rewrite Hc. reflexivity.
  - intros id set0 rest -> -> S. cbn. rewrite S. reflexivity.
  - intros ->. reflexivity.
  - intros H1 H2 H3 H4. destruct (de_type body) as [type|]; [|reflexivity].
    assert (String.eqb type "study" = false) as -> by (apply String.eqb_neq; congruence).
    assert (String.eqb type "notes" = false) as -> by (apply String.eqb_neq; congruence).
    assert (String.eqb type "chat" = false) as -> by (apply String.eqb_neq; congruence).
    assert (String.eqb type "flashcards" = false) as -> by (apply String.eqb_neq; congruence).
    reflexivity.
  - intros id -> [[-> S]|[[-> [S|(note0 & rest & S & Hc)]]|[-> S]]]; cbn; rewrite S;
      try reflexivity.
    rewrite Hc. reflexivity.
  - exact replace_spaces_run.
  - exact replace_spaces_none.
  - exact replace_spaces_no_spaces.
Qed.

Lemma download_export_filename_witness :
  filename_of_response
    (fst (download_export show_Z show_Z 1234
            {| de_type := Some "flashcards"; de_id := Some 1; de_format := Some "txt" |}
            tables_one_known))
  = Some "flashcards-Graph-theory-1234.txt"
  /\ filename_of_response
       (fst (download_export show_Z show_Z 1234 export_chat_txt tables_one_known))
     = Some "chat-history-1234.txt".
Proof.
  pose proof (download_export_filename show_Z show_Z 1234
                {| de_type := Some "flashcards"; de_id := Some 1; de_format := Some "txt" |}
                tables_one_known) as (_ & _ & _ & Hcards & _).
  pose proof (download_export_filename show_Z show_Z 1234 export_chat_txt tables_one_known)
    as (_ & _ & _ & _ & Hchat & _).
  split.
  - rewrite (Hcards 1 _ [] eq_refl eq_refl eq_refl). reflexivity.
  - rewrite (Hchat eq_refl). reflexivity.
Defined.

(** C7, counterexample.  The chat export of empty tables succeeds, under
    the name [chat-history-1234.txt], while the tables hold no title and no
    topic that a slug could come from. *)
Lemma chat_filename_has_no_slug :
  filename_of_response (fst (download_export show_Z show_Z 1234 export_chat_txt empty_tables))
  = Some "chat-history-1234.txt"
  /\ (forall title, ~ record_title empty_tables title)
  /\ ~ every_filename_has_slug.
Proof.
  assert (forall title, ~ record_title empty_tables title) as Hnone.
  { intros title [(p & [] & _)|[(n & [] & _)|(s & [] & _)]]. }
  split; [reflexivity|]. split; [exact Hnone|].
  intros H.
  destruct (H show_Z show_Z 1234 export_chat_txt empty_tables _ eq_refl)
    as (prefix & title & Htitle & _).
  exact (Hnone title Htitle).
Qed.

(* ================================================================== *)
(** * Ids: distinct and below the counter *)
(* ================================================================== *)

Lemma table_ok_empty {R : Type} (key : R -> Z) : table_ok key (@empty_table R).
Proof. split; [constructor | intros r []]. Qed.

Lemma table_ok_append {R : Type} (key : R -> Z) (tb : table R) (x : R) :
  key x = auto_increment tb ->
  table_ok key tb ->
  table_ok key {| rows := rows tb ++ [x]; auto_increment := auto_increment tb + 1 |}.
Proof.
  intros Hkey [Hnd Hlt]. unfold table_ok. simpl. split.
  - rewrite map_app. cbn [map]. rewrite Hkey.
    apply NoDup_app; [exact Hnd | repeat constructor; intros [] |].
    intros k Hk [<-|[]]. apply in_map_iff in Hk as (r & Hr & Hin).
    specialize (Hlt r Hin). lia.
  - intros r Hin. apply in_app_or in Hin as [Hin|[<-|[]]].
    + specialize (Hlt r Hin). lia.
    + rewrite Hkey. lia.
Qed.

Lemma map_key_update {R : Type} (key : R -> Z) (where_ : R -> bool) (set : R -> R)
    (l : list R) :
  (forall r, key (set r) = key r) ->
  map key (map (fun r => if where_ r then set r else r) l) = map key l.
Proof.
  intros Hkey. rewrite map_map. apply map_ext. intros r.
  destruct (where_ r); [apply Hkey | reflexivity].
Qed.

Lemma table_ok_update {R : Type} (key : R -> Z) (where_ : R -> bool) (set : R -> R)
    (tb : table R) :
  (forall r, key (set r) = key r) ->
  table_ok key tb -> table_ok key (update_rows where_ set tb).
Proof.
  intros Hkey [Hnd Hlt]. unfold table_ok, update_rows. simpl. split.
  - now rewrite map_key_update.
  - intros r Hin. apply in_map_iff in Hin as (r0 & <- & Hin).
    specialize (Hlt r0 Hin). destruct (where_ r0); [rewrite Hkey|]; exact Hlt.
Qed.

Lemma NoDup_map_filter {R : Type} (key : R -> Z) (p : R -> bool) (l : list R) :
  NoDup (map key l) -> NoDup (map key (filter p l)).
Proof.
  induction l as [|x l IH]; intros H; [constructor|].
  inversion H as [|? ? Hx Hl]; subst. cbn [filter].
  destruct (p x); [|now apply IH].
  cbn [map]. constructor; [|now apply IH].
  intros Hin. apply Hx. apply in_map_iff in Hin as (r & Hr & Hin).
  apply filter_In in Hin as [Hin _]. apply in_map_iff. now exists r.
Qed.

Lemma table_ok_delete {R : Type} (key : R -> Z) (where_ : R -> bool) (tb : table R) :
  table_ok key tb -> table_ok key (delete_rows where_ tb).
Proof.
  intros [Hnd Hlt]. unfold table_ok, delete_rows. simpl. split.
  - now apply NoDup_map_filter.
  - intros r Hin. apply filter_In in Hin as [Hin _]. now apply Hlt.
Qed.

(** In a table with distinct ids, the rows of an id are the row itself. *)
Lemma select_unique {R : Type} (key : R -> Z) (l : list R) (r : R) :
  NoDup (map key l) -> In r l ->
  filter (fun x => key x =? key r) l = [r].
Proof.
  induction l as [|x l IH]; intros Hnd Hin; [destruct Hin|].
  inversion Hnd as [|? ? Hx Hl]; subst. cbn [filter].
  destruct Hin as [->|Hin].
  - rewrite Z.eqb_refl. f_equal. apply filter_nothing.
    intros y Hy. apply Z.eqb_neq. intros E. apply Hx. rewrite <- E. now apply in_map.
  - assert ((key x =? key r) = false) as ->.
    { apply Z.eqb_neq. intros E. apply Hx. rewrite E. now apply in_map. }
    now apply IH.
Qed.

Lemma insert_cards_ok (setId : Z) (generatedCards : list generated_card) :
  forall (cards : list card) (t : tables),
    table_ok fc_id (flashcards t) ->
    table_ok fc_id (flashcards (snd (insert_cards setId generatedCards cards t))).
Proof.
  induction generatedCards as [|c rest IH]; intros cards t Hok; [exact Hok|].
  cbn [insert_cards]. unfold bind, insert_flashcard.
  destruct (question c) as [q|]; [destruct (answer c) as [a|]|]; try exact Hok.
  cbn [insert_row fst snd].
  match goal with
  | |- context [insert_cards setId rest ?cs ?t1] =>
      specialize (IH cs t1); destruct (insert_cards setId rest cs t1) as [o t2] eqn:E
  end.
  cbn [snd] in IH |- *. apply IH. cbn [flashcards with_flashcards].
  apply table_ok_append; [reflexivity | exact Hok].
Qed.

Ltac keep_ok :=
  repeat match goal with
         | H : _ /\ _ |- _ => destruct H
         end;
  (split; [|split; [|split; [|split]]]); cbn -[update_rows delete_rows table_ok];
  first [ assumption
        | apply table_ok_append; [reflexivity | assumption]
        | apply table_ok_update; [reflexivity | assumption]
        | apply table_ok_delete; assumption ].

(** Every route keeps the ids of every table distinct and below the
    counter. *)
Lemma serve_tables_ok (fk : set_id_constraint) (t : tables) (req : request) :
  tables_ok t -> tables_ok (serve fk t req).
Proof.
  unfold tables_ok. intros Hok.
  destruct req as [g now body|body|id|now body|tls now body|g tls now body|id
                  |g now body|body|id|send now message|].
  - unfold serve, generate_study_plan, try_catch, bind.
    destruct (_ || _); [exact Hok|].
    destruct (courseName body) as [cn|]; [|exact Hok].
    destruct (deadline body) as [dl|]; [|exact Hok].
    destruct (hoursPerDay body) as [hpd|]; [|exact Hok].
    destruct (ceil_div (dl - now) (1000 * 60 * 60 * 24) <=? 0); [exact Hok|].
    destruct (g _); [|exact Hok]. keep_ok.
  - unfold serve, update_study_progress, try_catch, bind.
    cbn [update_progress select_study_plan].
    destruct (select_rows _ _); keep_ok.
  - keep_ok.
  - unfold serve, upload_pdf, try_catch, bind, insert_note.
    destruct (fileName body); [|exact Hok]. keep_ok.
  - unfold serve, upload_local_file, try_catch, bind, insert_note.
    destruct (_ || _); [exact Hok|].
    destruct (fileName body); [|exact Hok]. keep_ok.
  - unfold serve, generate_ai_notes, try_catch, bind.
    destruct (_ && _); [exact Hok|].
    destruct (g _); [|exact Hok]. keep_ok.
  - keep_ok.
  - unfold serve, generate_flashcards, try_catch, bind.
    destruct (g _) as [generatedCards|]; [|exact Hok].
    cbn [await ret insert_flashcard_set insert_row].
    match goal with
    | |- context [insert_cards ?i generatedCards [] ?t1] =>
        pose proof (insert_cards_spec i generatedCards [] t1) as H;
        pose proof (insert_cards_ok i generatedCards [] t1) as Hcards;
        cbv zeta in H; destruct (insert_cards i generatedCards [] t1) as [o t2] eqn:E
    end.
    cbn [fst snd] in H, Hcards. destruct H as (Hs & Hp & Hn & Hc & _).
    destruct Hok as (H1 & H2 & H3 & H4 & H5).
    assert (table_ok fc_id (flashcards t2)) as H4' by (apply Hcards; exact H4).
    destruct o as [cards|]; cbn [fst snd ret]; rewrite Hs, Hp, Hn, Hc;
      cbn -[table_ok]; (split; [|split; [|split; [|split]]]); try assumption;
      apply table_ok_append; try reflexivity; assumption.
  - cbn [serve]. rewrite save_flashcard_status_run.
    destruct (select_rows _ _); cbn [snd]; unfold recount, mark_card,
      update_known_count, update_flashcard_known; keep_ok.
  - unfold serve, delete_flashcard, try_catch, bind, delete_flashcard_set.
    destruct fk; [| destruct (_ && _) | destruct (_ && _)]; keep_ok.
  - unfold serve, chat, try_catch, bind.
    destruct (negb _); [exact Hok|].
    cbn [insert_chat insert_row select_chat_history].
    destruct (send _ _); cbn -[table_ok]; destruct Hok as (H1 & H2 & H3 & H4 & H5);
      (split; [|split; [|split; [|split]]]); try assumption;
      first [ apply table_ok_append; [reflexivity | assumption]
            | apply (table_ok_append ch_id {| rows := _; auto_increment := _ |});
              [reflexivity|]; apply table_ok_append; [reflexivity | assumption] ].
  - keep_ok.
Qed.

Lemma reachable_tables_ok (fk : set_id_constraint) (t : tables) :
  reachable fk t -> tables_ok t.
Proof.
  induction 1 as [|t req Hreach IH].
  - repeat split; try constructor; intros r [].
  - now apply serve_tables_ok.
Qed.

(* ================================================================== *)
(** * Study plans: validation, progress and deletion *)
(* ================================================================== *)

Lemma NoDup_map_eq {R : Type} (key : R -> Z) (l : list R) (a b : R) :
  NoDup (map key l) -> In a l -> In b l -> key a = key b -> a = b.
Proof.
  induction l as [|x l IH]; intros Hnd Ha Hb E; [destruct Ha|].
  inversion Hnd as [|? ? Hx Hl]; subst.
  destruct Ha as [->|Ha], Hb as [->|Hb]; try reflexivity.
  - elim Hx. rewrite E. now apply in_map.
  - elim Hx. rewrite <- E. now apply in_map.
  - now apply IH.
Qed.

Lemma filter_negb_all {R : Type} (p : R -> bool) (l : list R) :
  (forall r, In r l -> p r = false) -> filter (fun r => negb (p r)) l = l.
Proof.
  intros H. apply filter_all. intros r Hr. now rewrite (H r Hr).
Qed.

Lemma delete_rows_nowhere {R : Type} (where_ : R -> bool) (tb : table R) :
  (forall r, In r (rows tb) -> where_ r = false) -> delete_rows where_ tb = tb.
Proof.
  intros H. unfold delete_rows. rewrite filter_negb_all by exact H. now destruct tb.
Qed.

Lemma delete_rows_idem {R : Type} (where_ : R -> bool) (tb : table R) :
  delete_rows where_ (delete_rows where_ tb) = delete_rows where_ tb.
Proof.
  apply delete_rows_nowhere. intros r Hr. now apply delete_rows_gone in Hr.
Qed.

Lemma In_delete_rows {R : Type} (where_ : R -> bool) (tb : table R) (r : R) :
  In r (rows (delete_rows where_ tb)) <-> In r (rows tb) /\ where_ r = false.
Proof.
  unfold delete_rows. simpl. rewrite filter_In. now rewrite negb_true_iff.
Qed.

(** The progress route on an id that no plan has. *)
Lemma update_study_progress_absent (body : update_study_progress_body) (t : tables) :
  ~ plan_exists (usp_id body) t ->
  update_study_progress body t = (Error 404 "Study plan not found", t).
Proof.
  intros Hne.
  pose proof (update_progress_nowhere (usp_progress body) (usp_completed body) _ t Hne) as Hu.
  unfold update_study_progress, try_catch, bind.
  destruct (update_progress (usp_progress body) (usp_completed body) (usp_id body) t)
    as [o t'] eqn:E.
  assert (o = Returned tt) as -> by (unfold update_progress in E; now inversion E).
  cbn [snd] in Hu. subst t'.
  unfold select_study_plan, select_rows.
  rewrite (filter_nothing (fun r => sp_id r =? usp_id body)); [reflexivity|].
  intros r Hr. apply Z.eqb_neq. intros Hid. apply Hne. now exists r.
Qed.

Section ExportOfRecords.

Variable toLocaleDateString : Z -> string.
Variable toLocaleString : Z -> string.

(** The export of a record that the tables do not hold. *)
Lemma export_study_absent (now : Z) (id : Z) (format : option string) (t : tables) :
  ~ plan_exists id t ->
  download_export toLocaleDateString toLocaleString now
    {| de_type := Some "study"; de_id := Some id; de_format := format |} t
  = (Error 404 "Content not found", t).
Proof.
  intros Hne. unfold download_export, try_catch, bind, send_export.
  cbn [de_type de_id String.eqb Ascii.eqb Bool.eqb await ret select_study_plan].
  unfold select_rows. rewrite (filter_nothing (fun r => sp_id r =? id)); [reflexivity|].
  intros r Hr. apply Z.eqb_neq. intros Hid. apply Hne. now exists r.
Qed.

Lemma export_note_absent (now : Z) (id : Z) (format : option string) (t : tables) :
  ~ note_exists id t ->
  download_export toLocaleDateString toLocaleString now
    {| de_type := Some "notes"; de_id := Some id; de_format := format |} t
  = (Error 404 "Content not found", t).
Proof.
  intros Hne. unfold download_export, try_catch, bind, send_export.
  cbn [de_type de_id String.eqb Ascii.eqb Bool.eqb await ret select_note].
  unfold select_rows. rewrite (filter_nothing (fun r => n_id r =? id)); [reflexivity|].
  intros r Hr. apply Z.eqb_neq. intros Hid. apply Hne. now exists r.
Qed.

Lemma export_flashcards_absent (now : Z) (id : Z) (format : option string) (t : tables) :
  ~ set_exists id t ->
  download_export toLocaleDateString toLocaleString now
    {| de_type := Some "flashcards"; de_id := Some id; de_format := format |} t
  = (Error 404 "Content not found", t).
Proof.
  intros Hne. unfold download_export, try_catch, bind, send_export.
  cbn [de_type de_id String.eqb Ascii.eqb Bool.eqb await ret select_flashcard_set].
  rewrite (select_none_of_not_exists _ _ Hne). reflexivity.
Qed.

(** The export of the one note of an id. *)
Lemma export_note_found (now : Z) (format : option string) (t : tables) (row : note_row) :
  select_rows (fun r => n_id r =? n_id row) (notes t) = [row] ->
  n_content row <> EmptyString ->
  download_export toLocaleDateString toLocaleString now
    {| de_type := Some "notes"; de_id := Some (n_id row); de_format := format |} t
  = (Json {| content := n_content row;
             filename := "note-" +++ replace_spaces (n_title row) +++ "-"
                         +++ show_Z now +++ "." +++ show_string format |}, t).
Proof.
  intros Hsel Hc. unfold download_export, try_catch, bind, send_export.
  cbn [de_type de_id de_format String.eqb Ascii.eqb Bool.eqb await ret select_note].
  rewrite Hsel. apply String.eqb_neq in Hc. rewrite Hc. reflexivity.
Qed.

End ExportOfRecords.

(** X1.  [/generate-study-plan] answers 400 "Missing required fields"
    exactly when the course name is absent or empty, the deadline is
    absent, or the hours per day are absent or 0; the tables are then what
    they were, whatever the model would reply. *)
Theorem generate_study_plan_missing_fields :
  forall generateContent (now : Z) (body : generate_study_plan_body) (t : tables),
    (truthy_string (courseName body) = false
     \/ deadline body = None
     \/ truthy_Z (hoursPerDay body) = false)
    <-> generate_study_plan generateContent now body t
        = (Error 400 "Missing required fields", t).
Proof.
  intros g now body t. unfold generate_study_plan, try_catch, bind. split.
  - intros [H|[H|H]].
    + rewrite H. reflexivity.
    + rewrite H. now rewrite orb_true_r.
    + rewrite H. now rewrite orb_true_r.
  - intros H.
    destruct (truthy_string (courseName body)) eqn:Hc; [|now left].
    destruct (deadline body) as [dl|] eqn:Hd; [|right; now left].
    destruct (truthy_Z (hoursPerDay body)) eqn:Hh; [|right; now right].
    exfalso. cbn [negb orb] in H.
    destruct (courseName body) as [cn|]; [|discriminate Hc].
    destruct (hoursPerDay body) as [hpd|]; [|discriminate Hh].
    destruct (ceil_div (dl - now) (1000 * 60 * 60 * 24) <=? 0); [discriminate H|].
    destruct (g _); discriminate H.
Qed.

Lemma generate_study_plan_missing_fields_witness :
  generate_study_plan (fun _ => Some one_week_plan) 1000000
    {| courseName := Some "Algorithms"; deadline := Some (1000000 + 7 * day_ms);
       hoursPerDay := Some 0 |} empty_tables
  = (Error 400 "Missing required fields", empty_tables).
Proof.
  apply (proj1 (generate_study_plan_missing_fields (fun _ => Some one_week_plan) 1000000
                  {| courseName := Some "Algorithms";
                     deadline := Some (1000000 + 7 * day_ms);
                     hoursPerDay := Some 0 |} empty_tables)).
  right. right. reflexivity.
Defined.

(** X2.  On tables that the routes produce, [/update-study-progress] on
    the id of a stored plan returns that plan with the progress and the
    completed flag of the body and every other field as stored (the hours
    and days are not derived again); the plan table holds the same number
    of rows, the written one in place of the stored one and all others as
    they were; no other table changes; and the same request again changes
    nothing more. *)
Theorem update_study_progress_writes_progress :
  forall (fk : set_id_constraint) (body : update_study_progress_body) (t : tables)
         (row : study_plan_row),
    reachable fk t ->
    In row (rows (study_plans t)) -> sp_id row = usp_id body ->
    let r := update_study_progress body t in
    let row' := with_progress (usp_progress body) (usp_completed body) row in
    fst r = Json (study_plan_of_row row')
    /\ (forall x, In x (rows (study_plans (snd r)))
                  <-> x = row' \/ (In x (rows (study_plans t)) /\ sp_id x <> usp_id body))
    /\ List.length (rows (study_plans (snd r))) = List.length (rows (study_plans t))
    /\ notes (snd r) = notes t
    /\ flashcard_sets (snd r) = flashcard_sets t
    /\ flashcards (snd r) = flashcards t
    /\ chat_history (snd r) = chat_history t
    /\ update_study_progress body (snd r) = r.
Proof.
  intros fk body t row Hreach Hin Hid r row'.
  destruct (reachable_tables_ok fk t Hreach) as ([Hnd _] & _).
  assert (select_rows (fun x => sp_id x =? usp_id body) (study_plans t) = [row]) as Hsel.
  { unfold select_rows. rewrite <- Hid. now apply select_unique. }
  assert ((sp_id row =? usp_id body) = true) as Hb by (now apply Z.eqb_eq).
  assert (r = (Json (study_plan_of_row row'),
               snd (update_progress (usp_progress body) (usp_completed body)
                      (usp_id body) t))) as Hr.
  { subst r. unfold update_study_progress, try_catch, bind.
    cbn [update_progress select_study_plan study_plans with_study_plans snd].
    rewrite select_update_rows by reflexivity. rewrite Hsel. cbn [map].
    rewrite Hb. reflexivity. }
  rewrite Hr. cbn [fst snd update_progress study_plans with_study_plans notes
                   flashcard_sets flashcards chat_history].
  split; [reflexivity|]. split; [|split].
  - intros x. split.
    + intros Hx. apply In_update_rows in Hx as (r0 & Hr0 & ->).
      destruct (sp_id r0 =? usp_id body) eqn:E.
      * left. apply Z.eqb_eq in E.
        assert (r0 = row) as -> by (apply (NoDup_map_eq sp_id _ _ _ Hnd Hr0 Hin); congruence).
        reflexivity.
      * right. split; [exact Hr0 | now apply Z.eqb_neq].
    + unfold update_rows. simpl. intros [->|[Hx Hne]]; apply in_map_iff.
      * exists row. split; [|exact Hin]. rewrite Hb. reflexivity.
      * exists x. split; [|exact Hx]. apply Z.eqb_neq in Hne. now rewrite Hne.
  - unfold update_rows. simpl. apply length_map.
  - repeat split.
    unfold update_study_progress, try_catch, bind.
    cbn [update_progress select_study_plan study_plans with_study_plans snd].
    rewrite update_rows_idem by (intros; reflexivity || trivial).
    rewrite select_update_rows by reflexivity. rewrite Hsel. cbn [map].
    rewrite Hb. reflexivity.
Qed.

Lemma update_study_progress_writes_progress_witness :
  update_study_progress {| usp_id := 1; usp_progress := 50; usp_completed := false |}
    tables_one_plan
  = (Json (study_plan_of_row halved_row),
     with_study_plans empty_tables {| rows := [halved_row]; auto_increment := 2 |}).
Proof.
  pose proof (update_study_progress_writes_progress NoForeignKey
                {| usp_id := 1; usp_progress := 50; usp_completed := false |}
                tables_one_plan algorithms_row (reachable_one_plan _)
                (or_introl eq_refl) eq_refl) as H.
  cbv zeta in H. destruct H as (H & _).
  destruct (update_study_progress _ tables_one_plan) as [res t'] eqn:E.
  cbn [fst] in H. rewrite H. f_equal.
  apply (f_equal snd) in E. cbn [snd] in E. rewrite <- E. reflexivity.
Defined.

(** X3.  [/studyplan/:id] always answers success.  Afterwards no plan has
    the id, every plan of another id is still there, and no other table
    has changed; an id that no plan had leaves the tables as they were;
    the request again changes nothing more; and a progress update or a
    study export of that id answers 404. *)
Theorem delete_study_plan_removes :
  forall (id : Z) (t : tables),
    let r := delete_study_plan id t in
    fst r = Json tt
    /\ ~ plan_exists id (snd r)
    /\ (forall x, sp_id x <> id ->
          (In x (rows (study_plans (snd r))) <-> In x (rows (study_plans t))))
    /\ notes (snd r) = notes t
    /\ flashcard_sets (snd r) = flashcard_sets t
    /\ flashcards (snd r) = flashcards t
    /\ chat_history (snd r) = chat_history t
    /\ (~ plan_exists id t -> snd r = t)
    /\ delete_study_plan id (snd r) = r
    /\ (forall body, usp_id body = id ->
          update_study_progress body (snd r) = (Error 404 "Study plan not found", snd r))
    /\ (forall toLocaleDateString toLocaleString now format,
          download_export toLocaleDateString toLocaleString now
            {| de_type := Some "study"; de_id := Some id; de_format := format |} (snd r)
          = (Error 404 "Content not found", snd r)).
Proof.
  intros id t r.
  assert (r = (Json tt, with_study_plans t
                          (delete_rows (fun x => sp_id x =? id) (study_plans t)))) as ->
    by reflexivity.
  cbn [fst snd study_plans with_study_plans notes flashcard_sets flashcards chat_history].
  assert (~ plan_exists id (with_study_plans t
                              (delete_rows (fun x => sp_id x =? id) (study_plans t)))) as Hgone.
  { intros (x & Hx & Hid). cbn [study_plans with_study_plans] in Hx.
    apply delete_rows_gone in Hx. apply Z.eqb_neq in Hx. congruence. }
  split; [reflexivity|]. split; [exact Hgone|]. split; [|repeat split].
  - intros x Hne. rewrite In_delete_rows. rewrite <- Z.eqb_neq in Hne. tauto.
  - intros Hno. apply tables_eq; try reflexivity. cbn [study_plans with_study_plans].
    apply delete_rows_nowhere. intros x Hx. apply Z.eqb_neq. intros Hid.
    apply Hno. now exists x.
  - unfold delete_study_plan, try_catch, bind. cbn [fst snd ret study_plans with_study_plans].
    rewrite delete_rows_idem. reflexivity.
  - intros body Hb. apply update_study_progress_absent. now rewrite Hb.
  - intros tld tls now format. now apply export_study_absent.
Qed.

Lemma delete_study_plan_removes_witness :
  ~ plan_exists 9 tables_one_plan
  /\ delete_study_plan 9 tables_one_plan = (Json tt, tables_one_plan)
  /\ snd (delete_study_plan 1 tables_one_plan)
     = with_study_plans empty_tables {| rows := []; auto_increment := 2 |}.
Proof.
  assert (~ plan_exists 9 tables_one_plan) as Hne.
  { intros (r & [<-|[]] & Hid). discriminate Hid. }
  split; [exact Hne|]. split; [|reflexivity].
  pose proof (delete_study_plan_removes 9 tables_one_plan) as H. cbv zeta in H.
  destruct H as (H1 & _ & _ & _ & _ & _ & _ & H2 & _). specialize (H2 Hne).
  destruct (delete_study_plan 9 tables_one_plan) as [res t'].
  cbn [fst snd] in H1, H2. now rewrite H1, H2.
Defined.

(* ================================================================== *)
(** * Lists in descending order of creation *)
(* ================================================================== *)

Lemma insert_desc_perm {R : Type} (key : R -> Z) (x : R) (l : list R) :
  Permutation (insert_desc key x l) (x :: l).
Proof.
  induction l as [|y l IH]; cbn [insert_desc]; [reflexivity|].
  destruct (key y <? key x); [reflexivity|].
  rewrite IH. apply perm_swap.
Qed.

Lemma order_by_desc_perm {R : Type} (key : R -> Z) (l : list R) :
  Permutation (order_by_desc key l) l.
Proof.
  induction l as [|x l IH]; cbn [order_by_desc]; [reflexivity|].
  rewrite insert_desc_perm. now constructor.
Qed.

Lemma insert_desc_sorted {R : Type} (key : R -> Z) (x : R) (l : list R) :
  descending key l -> descending key (insert_desc key x l).
Proof.
  unfold descending. induction l as [|y l IH]; intros Hs; cbn [insert_desc].
  - repeat constructor.
  - inversion Hs as [|? ? Hl Hy]; subst.
    destruct (key y <? key x) eqn:E.
    + apply Z.ltb_lt in E. constructor; [exact Hs|].
      constructor; [lia|]. rewrite Forall_forall in Hy |- *.
      intros z Hz. specialize (Hy z Hz). lia.
    + apply Z.ltb_ge in E. constructor; [now apply IH|].
      rewrite Forall_forall in Hy |- *. intros z Hz.
      apply (Permutation_in _ (insert_desc_perm key x l)) in Hz.
      destruct Hz as [<-|Hz]; [exact E | now apply Hy].
Qed.

Lemma order_by_desc_sorted {R : Type} (key : R -> Z) (l : list R) :
  descending key (order_by_desc key l).
Proof.
  induction l as [|x l IH]; cbn [order_by_desc]; [constructor|].
  now apply insert_desc_sorted.
Qed.

Lemma In_order_by_desc {R : Type} (key : R -> Z) (l : list R) (x : R) :
  In x (order_by_desc key l) <-> In x l.
Proof.
  split; apply Permutation_in; [|symmetry]; apply order_by_desc_perm.
Qed.

(* ================================================================== *)
(** * Notes: producers, history, export and deletion *)
(* ================================================================== *)

Lemma append_nonempty (a : string) (c : ascii) (b : string) :
  String.eqb (a +++ String c b) EmptyString = false.
Proof. destruct a; reflexivity. Qed.

(** The rows of the id that the next insert gets: none so far, and the
    inserted row afterwards. *)
Lemma select_fresh {R : Type} (key : R -> Z) (tb : table R) (x : R) :
  table_ok key tb -> key x = auto_increment tb ->
  filter (fun r => key r =? auto_increment tb) (rows tb ++ [x]) = [x].
Proof.
  intros [_ Hlt] Hx. rewrite filter_app, filter_nothing.
  - cbn. now rewrite Hx, Z.eqb_refl.
  - intros r Hr. apply Z.eqb_neq. specialize (Hlt r Hr). lia.
Qed.

Lemma fresh_id_absent {R : Type} (key : R -> Z) (tb : table R) (r : R) :
  table_ok key tb -> In r (rows tb) -> key r <> auto_increment tb.
Proof. intros [_ Hlt] Hr. specialize (Hlt r Hr). lia. Qed.

Section NotesRoundTrip.

Variable toLocaleDateString : Z -> string.
Variable toLocaleString : Z -> string.

(** A note row appended under the next id is what the export of that id
    returns and what the history lists. *)
Lemma appended_note_exported (t : tables) (now : Z) (format : option string)
    (row : note_row) :
  table_ok n_id (notes t) -> n_id row = auto_increment (notes t) ->
  n_content row <> EmptyString ->
  let t' := with_notes t {| rows := rows (notes t) ++ [row];
                            auto_increment := auto_increment (notes t) + 1 |} in
  download_export toLocaleDateString toLocaleString now
    {| de_type := Some "notes"; de_id := Some (auto_increment (notes t));
       de_format := format |} t'
  = (Json {| content := n_content row;
             filename := "note-" +++ replace_spaces (n_title row) +++ "-"
                         +++ show_Z now +++ "." +++ show_string format |}, t')
  /\ exists listed,
       get_notes_history t' = (Json listed, t') /\ In (note_of_row row) listed.
Proof.
  intros Hok Hid Hc t'. split.
  - rewrite <- Hid. apply export_note_found; [|exact Hc].
    unfold select_rows. subst t'. cbn [notes with_notes rows]. rewrite Hid.
    now apply select_fresh.
  - eexists. split; [reflexivity|]. apply in_map, In_order_by_desc.
    subst t'. cbn [notes with_notes rows]. apply in_or_app. right. now left.
Qed.

End NotesRoundTrip.

(** X4.  [/upload-local-file] answers 400 "Missing file data", with the
    tables as they were, exactly when the file name or the file content is
    absent or empty.  Otherwise, on tables that the routes produce, it
    returns a note under an id that no note had, titled after the file
    name, whose content holds the file content character for character;
    the notes export of that id returns this content, and the notes
    history lists the note. *)
Theorem upload_local_file_round_trip :
  forall (toLocaleDateString toLocaleString : Z -> string) (now : Z)
         (body : upload_body) (t : tables),
    ((truthy_string (fileName body) = false \/ truthy_string (fileContent body) = false)
     <-> upload_local_file toLocaleString now body t = (Error 400 "Missing file data", t))
    /\ (forall fk name text now' format,
          reachable fk t ->
          fileName body = Some name -> name <> EmptyString ->
          fileContent body = Some text -> text <> EmptyString ->
          let r := upload_local_file toLocaleString now body t in
          let id := auto_increment (notes t) in
          let content := local_file_content toLocaleString now name text in
          fst r = Json {| note_id := id; note_title := "Notes from " +++ name;
                          note_content := content; note_source := local_file;
                          note_createdAt := now |}
          /\ ~ note_exists id t
          /\ occurs_in text content
          /\ download_export toLocaleDateString toLocaleString now'
               {| de_type := Some "notes"; de_id := Some id; de_format := format |} (snd r)
             = (Json {| content := content;
                        filename := "note-" +++ replace_spaces ("Notes from " +++ name)
                                    +++ "-" +++ show_Z now' +++ "." +++ show_string format |},
                snd r)
          /\ exists listed n,
               get_notes_history (snd r) = (Json listed, snd r)
               /\ In n listed /\ note_id n = id
               /\ note_title n = "Notes from " +++ name
               /\ note_content n = content /\ note_source n = local_file).
Proof.
  intros tld tls now body t. split.
  - unfold upload_local_file, try_catch, bind. split.
    + intros [H|H]; rewrite H; [reflexivity | now rewrite orb_true_r].
    + intros H.
      destruct (truthy_string (fileName body)) eqn:Hn; [|now left].
      destruct (truthy_string (fileContent body)) eqn:Hc; [|now right].
      exfalso. cbn [negb orb] in H. unfold insert_note in H.
      destruct (fileName body); [discriminate H | discriminate Hn].
  - intros fk name text now' format Hreach Hname Hne Htext Hte r id content.
    destruct (reachable_tables_ok fk t Hreach) as (_ & Hok & _).
    assert (r = (Json {| note_id := id; note_title := "Notes from " +++ name;
                         note_content := content; note_source := local_file;
                         note_createdAt := now |},
                 with_notes t
                   {| rows := rows (notes t)
                              ++ [ {| n_id := id; n_title := "Notes from " +++ name;
                                      n_content := content; n_source := local_file;
                                      n_file_name := Some name; n_created_at := now |} ];
                      auto_increment := auto_increment (notes t) + 1 |})) as ->.
    { subst r. unfold upload_local_file, try_catch, bind, insert_note.
      rewrite Hname, Htext. cbn [truthy_string].
      apply String.eqb_neq in Hne, Hte. rewrite Hne, Hte. reflexivity. }
    cbn [fst snd].
    split; [reflexivity|]. split; [|split].
    + intros (x & Hx & Hid). now apply (fresh_id_absent n_id _ x Hok Hx).
    + subst content. unfold local_file_content. occurs.
    + destruct (appended_note_exported tld tls t now' format
                  {| n_id := id; n_title := "Notes from " +++ name;
                     n_content := content; n_source := local_file;
                     n_file_name := Some name; n_created_at := now |}
                  Hok eq_refl) as [Hexp (listed & Hlist & Hin)].
      { apply String.eqb_neq. reflexivity. }
      split; [exact Hexp|]. exists listed. eexists.
      split; [exact Hlist|]. split; [exact Hin|]. repeat split.
Qed.

Lemma upload_local_file_round_trip_witness :
  upload_local_file show_Z 1000 {| fileName := Some "notes.txt"; fileContent := None |}
    empty_tables
  = (Error 400 "Missing file data", empty_tables)
  /\ download_export show_Z show_Z 2000
       {| de_type := Some "notes"; de_id := Some 1; de_format := Some "txt" |}
       (snd (upload_local_file show_Z 1000 lecture_file empty_tables))
     = (Json {| content := local_file_content show_Z 1000 "lecture 1.txt"
                             "Trees are connected.";
                filename := "note-Notes-from-lecture-1.txt-2000.txt" |},
        snd (upload_local_file show_Z 1000 lecture_file empty_tables)).
Proof.
  split.
  - apply (proj1 (proj1 (upload_local_file_round_trip show_Z show_Z 1000
                           {| fileName := Some "notes.txt"; fileContent := None |}
                           empty_tables))).
    right. reflexivity.
  - refine (proj1 (proj2 (proj2 (proj2
              (proj2 (upload_local_file_round_trip show_Z show_Z 1000 lecture_file
                        empty_tables)
                 NoForeignKey "lecture 1.txt" "Trees are connected." 2000 (Some "txt")
                 (reach_empty _) eq_refl _ eq_refl _))))); discriminate.
Defined.

(** X5.  [/generate-ai-notes] answers 400 "Missing topic or content",
    with the tables as they were, exactly when both the topic and the
    content are absent or empty.  When one of them is given and the model
    fails, it answers 500 and the tables are as they were.  When the model
    replies, on tables that the routes produce, the note gets an id that no
    note had, the topic as its title ("AI Generated Notes" when there is
    none) and the reply followed by the footer as its content; the notes
    export of that id returns this content. *)
Theorem generate_ai_notes_round_trip :
  forall generateContent (toLocaleDateString toLocaleString : Z -> string) (now : Z)
         (body : generate_ai_notes_body) (t : tables),
    let r := generate_ai_notes generateContent toLocaleString now body t in
    ((truthy_string (an_topic body) = false /\ truthy_string (an_content body) = false)
     <-> r = (Error 400 "Missing topic or content", t))
    /\ (truthy_string (an_topic body) = true \/ truthy_string (an_content body) = true ->
        generateContent (ai_notes_prompt (an_topic body) (an_content body)) = None ->
        r = (Error 500 "Failed to generate AI notes from AI. Check API key/model.", t))
    /\ (forall fk text now' format,
          reachable fk t ->
          truthy_string (an_topic body) = true \/ truthy_string (an_content body) = true ->
          generateContent (ai_notes_prompt (an_topic body) (an_content body)) = Some text ->
          let id := auto_increment (notes t) in
          let title := or_string (an_topic body) "AI Generated Notes" in
          let content := ai_note_content toLocaleString now text in
          fst r = Json {| note_id := id; note_title := title; note_content := content;
                          note_source := ai; note_createdAt := now |}
          /\ ~ note_exists id t
          /\ (exists footer, content = text +++ footer)
          /\ download_export toLocaleDateString toLocaleString now'
               {| de_type := Some "notes"; de_id := Some id; de_format := format |} (snd r)
             = (Json {| content := content;
                        filename := "note-" +++ replace_spaces title
                                    +++ "-" +++ show_Z now' +++ "." +++ show_string format |},
                snd r)).
Proof.
  intros g tld tls now body t r. subst r. split; [|split].
  - unfold generate_ai_notes, try_catch, bind. split.
    + intros [H1 H2]. rewrite H1, H2. reflexivity.
    + intros H.
      destruct (truthy_string (an_topic body)), (truthy_string (an_content body));
        cbn [negb andb] in H; try (now split);
        exfalso; destruct (g _); discriminate H.
  - intros Htruthy Hgen. unfold generate_ai_notes, try_catch, bind.
    assert (negb (truthy_string (an_topic body)) && negb (truthy_string (an_content body))
            = false) as ->.
    { destruct Htruthy as [-> | ->]; [reflexivity | apply andb_false_r]. }
    rewrite Hgen. reflexivity.
  - intros fk text now' format Hreach Htruthy Hgen id title content.
    destruct (reachable_tables_ok fk t Hreach) as (_ & Hok & _).
    unfold generate_ai_notes, try_catch, bind. fold (ai_note_content tls now text).
    assert (negb (truthy_string (an_topic body)) && negb (truthy_string (an_content body))
            = false) as ->.
    { destruct Htruthy as [-> | ->]; [reflexivity | apply andb_false_r]. }
    rewrite Hgen. cbn [await ret insert_ai_note insert_row fst snd].
    split; [reflexivity|]. split; [|split].
    + intros (x & Hx & Hid). now apply (fresh_id_absent n_id _ x Hok Hx).
    + eexists. reflexivity.
    + refine (proj1 (appended_note_exported tld tls t now' format
                       {| n_id := id; n_title := title; n_content := content;
                          n_source := ai; n_file_name := None; n_created_at := now |}
                       Hok eq_refl _)).
      apply String.eqb_neq. subst content. unfold ai_note_content.
      change nl with (String (Ascii.Ascii false true false true false false false false)
                        EmptyString).
      apply append_nonempty.
Qed.

Lemma generate_ai_notes_round_trip_witness :
  generate_ai_notes (fun _ => Some "A tree is a connected acyclic graph.") show_Z 1000
    {| an_topic := None; an_content := Some EmptyString |} empty_tables
  = (Error 400 "Missing topic or content", empty_tables)
  /\ fst (generate_ai_notes (fun _ => Some "A tree is a connected acyclic graph.")
            show_Z 1000 ask_trees empty_tables)
     = Json {| note_id := 1; note_title := "Trees";
               note_content := ai_note_content show_Z 1000
                                 "A tree is a connected acyclic graph.";
               note_source := ai; note_createdAt := 1000 |}.
Proof.
  split.
  - apply (proj1 (proj1 (generate_ai_notes_round_trip
                           (fun _ => Some "A tree is a connected acyclic graph.")
                           show_Z show_Z 1000
                           {| an_topic := None; an_content := Some EmptyString |}
                           empty_tables))).
    split; reflexivity.
  - exact (proj1 (proj2 (proj2 (generate_ai_notes_round_trip
                                  (fun _ => Some "A tree is a connected acyclic graph.")
                                  show_Z show_Z 1000 ask_trees empty_tables))
                    NoForeignKey "A tree is a connected acyclic graph." 2000 (Some "txt")
                    (reach_empty _) (or_introl eq_refl) eq_refl)).
Defined.

(** X6.  On tables that the routes produce, a note that [/upload-pdf]
    returns has an id that no note had; the notes export of that id
    returns the template filled with the file name, and the notes history
    lists the note.  A body without a file name answers 500 and stores
    nothing. *)
Theorem upload_pdf_round_trip :
  forall (fk : set_id_constraint) (toLocaleDateString toLocaleString : Z -> string)
         (now now' : Z) (t : tables) (text format : option string),
    reachable fk t ->
    upload_pdf now {| fileName := None; fileContent := text |} t
      = (Error 500 "Failed to upload PDF", t)
    /\ forall name,
         let r := upload_pdf now {| fileName := Some name; fileContent := text |} t in
         let id := auto_increment (notes t) in
         ~ note_exists id t
         /\ download_export toLocaleDateString toLocaleString now'
              {| de_type := Some "notes"; de_id := Some id; de_format := format |} (snd r)
            = (Json {| content := pdf_content (Some name);
                       filename := "note-" +++ replace_spaces ("Notes from " +++ name)
                                   +++ "-" +++ show_Z now' +++ "." +++ show_string format |},
               snd r)
         /\ exists listed n,
              get_notes_history (snd r) = (Json listed, snd r)
              /\ In n listed /\ note_id n = id
              /\ note_title n = "Notes from " +++ name
              /\ note_content n = pdf_content (Some name)
              /\ note_source n = pdf.
Proof.
  intros fk tld tls now now' t text format Hreach.
  destruct (reachable_tables_ok fk t Hreach) as (_ & Hok & _).
  split; [reflexivity|]. intros name r id. split.
  - intros (x & Hx & Hid). now apply (fresh_id_absent n_id _ x Hok Hx).
  - destruct (appended_note_exported tld tls t now' format
                {| n_id := id; n_title := "Notes from " +++ name;
                   n_content := pdf_content (Some name); n_source := pdf;
                   n_file_name := Some name; n_created_at := now |}
                Hok eq_refl) as [Hexp (listed & Hlist & Hin)].
    { apply String.eqb_neq. reflexivity. }
    split; [exact Hexp|]. exists listed. eexists.
    split; [exact Hlist|]. split; [exact Hin|]. repeat split.
Qed.

Lemma upload_pdf_round_trip_witness :
  download_export show_Z show_Z 2000
    {| de_type := Some "notes"; de_id := Some 1; de_format := Some "pdf" |}
    (snd (upload_pdf 1000 {| fileName := Some "graphs.pdf"; fileContent := None |}
            empty_tables))
  = (Json {| content := pdf_content (Some "graphs.pdf");
             filename := "note-Notes-from-graphs.pdf-2000.pdf" |},
     snd (upload_pdf 1000 {| fileName := Some "graphs.pdf"; fileContent := None |}
            empty_tables)).
Proof.
  exact (proj1 (proj2 (proj2 (upload_pdf_round_trip NoForeignKey show_Z show_Z 1000 2000
                                empty_tables None (Some "pdf") (reach_empty _))
                         "graphs.pdf"))).
Defined.

(** X7.  [/note/:id] always answers success.  Afterwards no note has the
    id, every note of another id is still there, and no other table has
    changed; an id that no note had leaves the tables as they were; the
    request again changes nothing more; and the notes export of that id
    answers 404. *)
Theorem delete_note_removes :
  forall (id : Z) (t : tables),
    let r := delete_note id t in
    fst r = Json tt
    /\ ~ note_exists id (snd r)
    /\ (forall x, n_id x <> id ->
          (In x (rows (notes (snd r))) <-> In x (rows (notes t))))
    /\ study_plans (snd r) = study_plans t
    /\ flashcard_sets (snd r) = flashcard_sets t
    /\ flashcards (snd r) = flashcards t
    /\ chat_history (snd r) = chat_history t
    /\ (~ note_exists id t -> snd r = t)
    /\ delete_note id (snd r) = r
    /\ (forall toLocaleDateString toLocaleString now format,
          download_export toLocaleDateString toLocaleString now
            {| de_type := Some "notes"; de_id := Some id; de_format := format |} (snd r)
          = (Error 404 "Content not found", snd r)).
Proof.
  intros id t r.
  assert (r = (Json tt, with_notes t (delete_rows (fun x => n_id x =? id) (notes t)))) as ->
    by reflexivity.
  cbn [fst snd study_plans with_notes notes flashcard_sets flashcards chat_history].
  assert (~ note_exists id (with_notes t (delete_rows (fun x => n_id x =? id) (notes t))))
    as Hgone.
  { intros (x & Hx & Hid). cbn [notes with_notes] in Hx.
    apply delete_rows_gone in Hx. apply Z.eqb_neq in Hx. congruence. }
  split; [reflexivity|]. split; [exact Hgone|]. split; [|repeat split].
  - intros x Hne. rewrite In_delete_rows. rewrite <- Z.eqb_neq in Hne. tauto.
  - intros Hno. apply tables_eq; try reflexivity. cbn [notes with_notes].
    apply delete_rows_nowhere. intros x Hx. apply Z.eqb_neq. intros Hid.
    apply Hno. now exists x.
  - unfold delete_note, try_catch, bind. cbn [fst snd ret notes with_notes].
    rewrite delete_rows_idem. reflexivity.
  - intros tld tls now format. now apply export_note_absent.
Qed.

Lemma delete_note_removes_witness :
  ~ note_exists 5 empty_tables
  /\ delete_note 5 empty_tables = (Json tt, empty_tables).
Proof.
  assert (~ note_exists 5 empty_tables) as Hne by (intros (r & [] & _)).
  split; [exact Hne|].
  pose proof (delete_note_removes 5 empty_tables) as H. cbv zeta in H.
  destruct H as (H1 & _ & _ & _ & _ & _ & _ & H2 & _). specialize (H2 Hne).
  destruct (delete_note 5 empty_tables) as [res t'].
  cbn [fst snd] in H1, H2. now rewrite H1, H2.
Defined.

(* ================================================================== *)
(** * Chat: the stored conversation *)
(* ================================================================== *)

Lemma chat_run sendMessage (now : Z) (m : string) (t : tables) :
  m <> EmptyString ->
  chat sendMessage now (Some m) t
  = match sendMessage (map turn_of_row (rows (chat_history t) ++ [user_row now m t])) m with
    | Some reply =>
        (Json {| cr_id := auto_increment (chat_history t) + 1; cr_role := assistant;
                 cr_content := reply; cr_timestamp := now |},
         with_chat_history t
           {| rows := rows (chat_history t) ++ [user_row now m t; assistant_row now reply t];
              auto_increment := auto_increment (chat_history t) + 1 + 1 |})
    | None =>
        (Error 500 "Failed to process chat message from AI. Check API key/model.",
         with_chat_history t
           {| rows := rows (chat_history t) ++ [user_row now m t];
              auto_increment := auto_increment (chat_history t) + 1 |})
    end.
Proof.
  intros Hm. apply String.eqb_neq in Hm.
  unfold chat, try_catch, bind. cbn [truthy_string show_string]. rewrite Hm.
  cbn [negb insert_chat insert_row select_chat_history chat_history with_chat_history rows
       auto_increment].
  change (map _ (rows (chat_history t) ++ _))
    with (map turn_of_row (rows (chat_history t) ++ [user_row now m t])).
  destruct (sendMessage _ m) as [reply|]; cbn [await ret throw]; [|reflexivity].
  unfold with_chat_history, assistant_row. cbn. rewrite <- app_assoc. reflexivity.
Qed.

(** X8.  [/chat] answers 400 "Message is required", with the tables as
    they were, exactly when the message is absent or empty.  Otherwise it
    stores the message as a user row under the next id and asks the model
    with the stored conversation, that row included, as history.  When the
    model fails, the route answers 500 and the user row stays stored.  When
    the model replies, the reply is stored as an assistant row under the id
    after that of the user row, and the response carries that id, the
    reply and the instant of the request; no other table changes. *)
Theorem chat_stores_conversation :
  forall sendMessage (now : Z) (message : option string) (t : tables),
    let r := chat sendMessage now message t in
    (truthy_string message = false <-> r = (Error 400 "Message is required", t))
    /\ (forall m, message = Some m -> m <> EmptyString ->
        let asked := map turn_of_row (rows (chat_history t) ++ [user_row now m t]) in
        (sendMessage asked m = None ->
           r = (Error 500 "Failed to process chat message from AI. Check API key/model.",
                with_chat_history t
                  {| rows := rows (chat_history t) ++ [user_row now m t];
                     auto_increment := auto_increment (chat_history t) + 1 |}))
        /\ (forall reply, sendMessage asked m = Some reply ->
           r = (Json {| cr_id := auto_increment (chat_history t) + 1; cr_role := assistant;
                        cr_content := reply; cr_timestamp := now |},
                with_chat_history t
                  {| rows := rows (chat_history t)
                             ++ [user_row now m t; assistant_row now reply t];
                     auto_increment := auto_increment (chat_history t) + 1 + 1 |}))).
Proof.
  intros sendMessage now message t r. subst r. split.
  - split.
    + intros H. unfold chat, try_catch, bind. rewrite H. reflexivity.
    + intros H. destruct message as [m|]; [|reflexivity].
      cbn [truthy_string]. destruct (String.eqb m EmptyString) eqn:E; [reflexivity|].
      apply String.eqb_neq in E. rewrite (chat_run _ _ _ _ E) in H.
      destruct (sendMessage _ m); discriminate H.
  - intros m -> Hm asked. subst asked. rewrite (chat_run _ _ _ _ Hm). split.
    + intros ->. reflexivity.
    + intros reply ->. reflexivity.
Qed.

Lemma chat_stores_conversation_witness :
  chat echo_model 1000 (Some "Hello") empty_tables
  = (Json {| cr_id := 2; cr_role := assistant; cr_content := "You said: Hello";
             cr_timestamp := 1000 |},
     with_chat_history empty_tables
       {| rows := [ {| ch_id := 1; ch_role := user; ch_content := "Hello";
                       ch_created_at := 1000 |};
                    {| ch_id := 2; ch_role := assistant; ch_content := "You said: Hello";
                       ch_created_at := 1000 |} ];
          auto_increment := 3 |}).
Proof.
  refine (proj2 (proj2 (chat_stores_conversation echo_model 1000 (Some "Hello") empty_tables)
                   "Hello" eq_refl _) "You said: Hello" eq_refl).
  discriminate.
Defined.

Section ChatFacts.

Variable toLocaleDateString : Z -> string.
Variable toLocaleString : Z -> string.


Lemma chat_export_run (now : Z) (format : option string) (t : tables) :
  download_export toLocaleDateString toLocaleString now
    {| de_type := Some "chat"; de_id := None; de_format := format |} t
  = (Json {| content := formatChatHistoryForExport toLocaleString (rows (chat_history t));
             filename := "chat-history-" +++ show_Z now +++ "." +++ show_string format |},
     t).
Proof. reflexivity. Qed.

End ChatFacts.



(** X10.  [DELETE /chat-history] answers success and leaves no message:
    the chat history is then the empty list, and the chat export is still
    a file, holding the heading alone.  The other tables are as they were,
    and so is the id counter: on tables that the routes produce, the reply
    to the next message gets an id above that of every message that was
    ever stored. *)
Theorem clear_chat_history_empties :
  forall (t : tables),
    let r := clear_chat_history t in
    fst r = Json tt
    /\ get_chat_history (snd r) = (Json [], snd r)
    /\ study_plans (snd r) = study_plans t
    /\ notes (snd r) = notes t
    /\ flashcard_sets (snd r) = flashcard_sets t
    /\ flashcards (snd r) = flashcards t
    /\ clear_chat_history (snd r) = r
    /\ (forall toLocaleDateString toLocaleString now format,
          download_export toLocaleDateString toLocaleString now
            {| de_type := Some "chat"; de_id := None; de_format := format |} (snd r)
          = (Json {| content := "CHAT HISTORY" +++ nl +++ repeat_string "=" 50 +++ nl +++ nl;
                     filename := "chat-history-" +++ show_Z now +++ "."
                                 +++ show_string format |}, snd r))
    /\ (forall fk sendMessage now m answered old,
          reachable fk t -> m <> EmptyString ->
          fst (chat sendMessage now (Some m) (snd r)) = Json answered ->
          In old (rows (chat_history t)) ->
          ch_id old < cr_id answered).
Proof.
  intros t r.
  assert (r = (Json tt, with_chat_history t
                          {| rows := []; auto_increment := auto_increment (chat_history t) |}))
    as ->.
  { subst r. unfold clear_chat_history, try_catch, bind, delete_rows. cbn.
    rewrite (filter_nothing (fun _ : chat_row => false)); [reflexivity | reflexivity]. }
  cbn [fst snd]. do 7 (split; [reflexivity|]). split.
  - intros tld tls now format. rewrite chat_export_run. reflexivity.
  - intros fk sendMessage now m answered old Hreach Hm Hans Hold.
    destruct (reachable_tables_ok fk t Hreach) as (_ & _ & _ & _ & [_ Hlt]).
    specialize (Hlt old Hold).
    rewrite (chat_run _ _ _ _ Hm) in Hans.
    destruct (sendMessage _ m); [|discriminate Hans].
    cbn [fst] in Hans. inversion Hans; subst answered.
    cbn [cr_id chat_history with_chat_history auto_increment]. lia.
Qed.

Lemma clear_chat_history_empties_witness :
  fst (chat echo_model 3000 (Some "Again")
         (snd (clear_chat_history (snd (chat echo_model 1000 (Some "Hello") empty_tables)))))
  = Json {| cr_id := 4; cr_role := assistant; cr_content := "You said: Again";
            cr_timestamp := 3000 |}
  /\ 2 < 4.
Proof.
  split; [reflexivity|].
  refine (proj2 (proj2 (proj2 (proj2 (proj2 (proj2 (proj2 (proj2
            (clear_chat_history_empties
               (snd (chat echo_model 1000 (Some "Hello") empty_tables))))))))))
            NoForeignKey echo_model 3000 "Again"
            {| cr_id := 4; cr_role := assistant; cr_content := "You said: Again";
               cr_timestamp := 3000 |}
            {| ch_id := 2; ch_role := assistant; ch_content := "You said: Hello";
               ch_created_at := 1000 |}
            (reach_serve _ _ (PostChat echo_model 1000 (Some "Hello")) (reach_empty _))
            _ eq_refl _).
  - discriminate.
  - right. left. reflexivity.
Defined.

(* ================================================================== *)
(** * Flashcards: cards, counts and failed generations *)
(* ================================================================== *)

(** A reply has a question and an answer in every element, or a first
    element that lacks one. *)
Lemma has_fields_or_lacks (generatedCards : list generated_card) :
  Forall has_fields generatedCards
  \/ exists good bad rest,
       generatedCards = good ++ bad :: rest /\ Forall has_fields good /\ lacks_field bad.
Proof.
  induction generatedCards as [|g l IH]; [left; constructor|].
  destruct (question g) as [q|] eqn:Q; [destruct (answer g) as [a|] eqn:A|].
  - destruct IH as [IH|(good & bad & rest & -> & Hgood & Hbad)].
    + left. constructor; [|exact IH]. split; congruence.
    + right. exists (g :: good), bad, rest. split; [reflexivity|].
      split; [|exact Hbad]. constructor; [|exact Hgood]. split; congruence.
  - right. exists [], g, l. repeat split; [constructor | now right].
  - right. exists [], g, l. repeat split; [constructor | now left].
Qed.

(** The loop stops at the first element that lacks a property: the rows of
    the elements before it are stored, nothing of the rest. *)
Lemma insert_cards_partial (setId : Z) (good : list generated_card) (bad : generated_card)
    (rest : list generated_card) :
  Forall has_fields good -> lacks_field bad ->
  forall (cards : list card) (t : tables),
    insert_cards setId (good ++ bad :: rest) cards t
    = (Thrown,
       with_flashcards t
         {| rows := rows (flashcards t) ++ card_rows setId (auto_increment (flashcards t)) good;
            auto_increment := auto_increment (flashcards t) + Z.of_nat (List.length good) |}).
Proof.
  intros Hgood Hbad. induction Hgood as [|g good [Hq Ha] Hgood IH]; intros cards t.
  - cbn [app insert_cards card_rows List.length]. unfold bind, insert_flashcard.
    rewrite app_nil_r, Z.add_0_r.
    assert (with_flashcards t {| rows := rows (flashcards t);
                                 auto_increment := auto_increment (flashcards t) |} = t) as ->
      by (destruct t as [? ? ? [? ?] ?]; reflexivity).
    destruct Hbad as [-> | Hbad]; [reflexivity|].
    rewrite Hbad. destruct (question bad); reflexivity.
  - cbn [app insert_cards]. unfold bind, insert_flashcard.
    destruct (question g) as [q|] eqn:Q; [|now elim Hq].
    destruct (answer g) as [a|] eqn:A; [|now elim Ha].
    cbn [insert_row fst snd]. rewrite IH.
    cbn [card_rows flashcards with_flashcards rows auto_increment List.length].
    rewrite Q, A. cbn [show_string]. rewrite <- !app_assoc. cbn [app].
    f_equal. unfold with_flashcards. cbn. f_equal. f_equal. lia.
Qed.

Lemma card_rows_length (setId : Z) (generatedCards : list generated_card) :
  forall id, List.length (card_rows setId id generatedCards) = List.length generatedCards.
Proof.
  induction generatedCards as [|g l IH]; intros id; simpl; [reflexivity | now rewrite IH].
Qed.

Lemma card_rows_ids (setId : Z) (generatedCards : list generated_card) :
  forall id c, In c (card_rows setId id generatedCards) ->
               id <= fc_id c < id + Z.of_nat (List.length generatedCards).
Proof.
  induction generatedCards as [|g l IH]; intros id c H; [destruct H|].
  destruct H as [<-|H]; cbn [fc_id List.length]; [lia|].
  specialize (IH (id + 1) c H). lia.
Qed.

(** The tables after a generation whose reply parsed: the set row with
    the length of the reply, and the card rows of the elements before the
    first one that lacks a property. *)
Lemma generate_flashcards_stored generateContent (now : Z) (body : generate_flashcards_body)
    (t : tables) (generatedCards : list generated_card) :
  generateContent (flashcards_prompt (or_Z (gf_count body) 5) (gf_topic body))
    = Some generatedCards ->
  exists stored,
    (List.length stored <= List.length generatedCards)%nat
    /\ snd (generate_flashcards generateContent now body t)
       = with_flashcards
           (with_flashcard_sets t
              {| rows := rows (flashcard_sets t) ++ [fresh_set_row now body generatedCards t];
                 auto_increment := auto_increment (flashcard_sets t) + 1 |})
           {| rows := rows (flashcards t) ++ fresh_card_rows stored t;
              auto_increment := auto_increment (flashcards t)
                                + Z.of_nat (List.length stored) |}.
Proof.
  intros Hgen.
  destruct (has_fields_or_lacks generatedCards)
    as [Hall|(good & bad & rest & E & Hgood & Hbad)].
  - exists generatedCards. split; [lia|]. now apply generate_flashcards_complete.
  - subst generatedCards. exists good. split; [rewrite length_app; lia|].
    unfold generate_flashcards, try_catch, bind. rewrite Hgen.
    cbn [await ret insert_flashcard_set insert_row].
    rewrite (insert_cards_partial _ _ _ _ Hgood Hbad). reflexivity.
Qed.

Lemma cards_within_total_ext (t t' : tables) :
  flashcard_sets t' = flashcard_sets t -> flashcards t' = flashcards t ->
  cards_within_total t -> cards_within_total t'.
Proof.
  unfold cards_within_total, cards_of. intros -> ->. trivial.
Qed.

Lemma filter_filter_length {R : Type} (p q : R -> bool) (l : list R) :
  (List.length (filter p (filter q l)) <= List.length (filter p l))%nat.
Proof.
  induction l as [|x l IH]; simpl; [lia|].
  destruct (q x); simpl; destruct (p x); simpl; lia.
Qed.

Lemma cards_of_mark_card (b : save_flashcard_status_body) (t : tables) (setId : Z) :
  List.length (cards_of setId (mark_card b t)) = List.length (cards_of setId t).
Proof.
  unfold cards_of, mark_card, update_flashcard_known. cbn [snd flashcards with_flashcards].
  rewrite select_update_rows by reflexivity. apply length_map.
Qed.

Lemma save_flashcard_status_within_total (b : save_flashcard_status_body) (t : tables) :
  cards_within_total t -> cards_within_total (snd (save_flashcard_status b t)).
Proof.
  intros H. rewrite save_flashcard_status_run.
  destruct (select_rows _ (flashcard_sets t)) as [|set0 rest]; cbn [snd].
  - intros s Hs. rewrite cards_of_mark_card. now apply H.
  - intros s Hs. unfold recount, update_known_count in Hs.
    cbn [snd flashcard_sets with_flashcard_sets] in Hs.
    apply In_update_rows in Hs as (s0 & Hs0 & ->).
    assert (Z.of_nat (List.length (cards_of (fs_id s0) (mark_card b t)))
            <= fs_total_count s0) as Hle
      by (rewrite cards_of_mark_card; now apply H).
    destruct (fs_id s0 =? ss_setId b); exact Hle.
Qed.

Lemma delete_flashcard_within_total (fk : set_id_constraint) (id : Z) (t : tables) :
  cards_within_total t -> cards_within_total (snd (delete_flashcard fk id t)).
Proof.
  intros H.
  destruct (delete_flashcard_tables fk id t) as [->|[Hsets Hcards]]; [exact H|].
  intros s Hs. rewrite Hsets in Hs. cbn [delete_rows rows] in Hs.
  apply filter_In in Hs as [Hs _]. specialize (H s Hs). unfold cards_of in *.
  destruct Hcards as [-> | ->]; [exact H|].
  unfold select_rows, delete_rows in *. cbn [rows].
  pose proof (filter_filter_length (fun c => fc_set_id c =? fs_id s)
                (fun r => negb (fc_set_id r =? id)) (rows (flashcards t))).
  lia.
Qed.

Lemma generate_flashcards_within_total generateContent (now : Z)
    (body : generate_flashcards_body) (t : tables) :
  set_ids_below_counter t -> cards_within_total t ->
  cards_within_total (snd (generate_flashcards generateContent now body t)).
Proof.
  intros [Hs Hc] H.
  destruct (generateContent (flashcards_prompt (or_Z (gf_count body) 5) (gf_topic body)))
    as [generatedCards|] eqn:Hgen.
  2:{ unfold generate_flashcards, try_catch, bind. rewrite Hgen. exact H. }
  destruct (generate_flashcards_stored _ now body t _ Hgen) as (stored & Hlen & ->).
  intros s Hin. unfold cards_of, select_rows.
  cbn [flashcard_sets flashcards with_flashcards with_flashcard_sets rows] in *.
  rewrite filter_app, length_app.
  apply in_app_or in Hin as [Hin|[<-|[]]].
  - rewrite (filter_nothing _ (fresh_card_rows stored t)).
    + specialize (H s Hin). unfold cards_of, select_rows in H. cbn [List.length]. lia.
    + intros c Hcin. apply card_rows_set_id in Hcin. apply Z.eqb_neq.
      specialize (Hs s Hin). lia.
  - cbn [fresh_set_row fs_id fs_total_count].
    rewrite (filter_nothing _ (rows (flashcards t)))
      by (intros c Hcin; apply Z.eqb_neq; specialize (Hc c Hcin); lia).
    pose proof (filter_length_le (fun c => fc_set_id c =? auto_increment (flashcard_sets t))
                  (fresh_card_rows stored t)) as Hf.
    unfold fresh_card_rows in *. rewrite card_rows_length in Hf. cbn [List.length]. lia.
Qed.

Lemma reachable_within_total (fk : set_id_constraint) (t : tables) :
  reachable fk t -> cards_within_total t.
Proof.
  induction 1 as [|t req Hreach IH].
  - intros s [].
  - pose proof (other_routes_keep_flashcards fk t req) as Hother.
    destruct (reachable_invariants fk t Hreach) as (Hb & _ & _).
    destruct req;
      try exact (cards_within_total_ext _ _ (proj1 Hother) (proj2 Hother) IH).
    + now apply generate_flashcards_within_total.
    + now apply save_flashcard_status_within_total.
    + now apply delete_flashcard_within_total.
Qed.

(** X11.  On tables that the routes produce, under any of the schemas,
    every stored set has [0 <= known_count <= number of its card rows <=
    total_count]; and a set that [/save-flashcard-status] returns has
    [0 <= knownCount <= number of its cards <= totalCount]. *)
Theorem flashcard_counts_bounded :
  forall (fk : set_id_constraint) (t : tables),
    reachable fk t ->
    (forall s, In s (rows (flashcard_sets t)) ->
       0 <= fs_known_count s <= Z.of_nat (List.length (cards_of (fs_id s) t))
       /\ Z.of_nat (List.length (cards_of (fs_id s) t)) <= fs_total_count s)
    /\ (forall b fs, fst (save_flashcard_status b t) = Json fs ->
          0 <= set_knownCount fs <= Z.of_nat (List.length (set_cards fs))
          /\ Z.of_nat (List.length (set_cards fs)) <= set_totalCount fs).
Proof.
  intros fk t Hreach.
  pose proof (reachable_within_total fk t Hreach) as Hw.
  destruct (reachable_invariants fk t Hreach) as (_ & Hk & _).
  split.
  - intros s Hs. split; [|now apply Hw].
    rewrite (Hk (fs_id s) s Hs eq_refl). unfold known_cards, cards_of.
    pose proof (filter_length_le fc_known
                  (select_rows (fun r => fc_set_id r =? fs_id s) (flashcards t))).
    lia.
  - intros b fs Hfs. rewrite save_flashcard_status_run in Hfs.
    destruct (select_rows _ (flashcard_sets t)) as [|set0 rest] eqn:S; [discriminate Hfs|].
    apply filter_nonempty_In in S as [Hin Hid]. apply Z.eqb_eq in Hid.
    pose proof (cards_of_mark_card b t (ss_setId b)) as Hlen.
    specialize (Hw set0 Hin). rewrite Hid in Hw.
    unfold cards_of in Hlen, Hw. unfold known_cards in Hfs.
    remember (select_rows (fun r => fc_set_id r =? ss_setId b) (flashcards (mark_card b t)))
      as marked eqn:Hm.
    pose proof (filter_length_le fc_known marked).
    cbn [fst] in Hfs. inversion Hfs; subst fs. clear Hfs.
    cbn [set_knownCount set_cards set_totalCount]. rewrite length_map. lia.
Qed.

Lemma flashcard_counts_bounded_witness :
  Forall (fun s =>
            0 <= fs_known_count s
              <= Z.of_nat (List.length (cards_of (fs_id s) tables_one_known))
            /\ Z.of_nat (List.length (cards_of (fs_id s) tables_one_known))
               <= fs_total_count s)
         (rows (flashcard_sets tables_one_known)).
Proof.
  apply Forall_forall.
  exact (proj1 (flashcard_counts_bounded NoForeignKey tables_one_known
                  (reachable_one_known NoForeignKey))).
Defined.

(** The cards that the status route returns: those of the set, the flag
    of the card of the request written. *)
Lemma marked_cards (b : save_flashcard_status_body) (t : tables) :
  map card_of_row (cards_of (ss_setId b) (mark_card b t))
  = map (with_known (ss_cardId b) (ss_known b))
        (map card_of_row (cards_of (ss_setId b) t)).
Proof.
  unfold cards_of, mark_card, update_flashcard_known. cbn [snd flashcards with_flashcards].
  rewrite select_update_rows by reflexivity. rewrite !map_map.
  apply map_ext_in. intros r Hr. apply filter_In in Hr as [_ Hr]. rewrite Hr, andb_true_r.
  unfold with_known, card_of_row. cbn [card_id].
  destruct (fc_id r =? ss_cardId b); reflexivity.
Qed.

Lemma mark_card_absent (b : save_flashcard_status_body) (t : tables) :
  (forall c, In c (cards_of (ss_setId b) t) -> fc_id c <> ss_cardId b) ->
  mark_card b t = t.
Proof.
  intros Hno. unfold mark_card, update_flashcard_known. cbn [snd].
  apply tables_eq; try reflexivity. cbn [flashcards with_flashcards].
  unfold update_rows. rewrite map_update_nowhere.
  - now destruct (flashcards t).
  - intros r Hr. destruct (fc_set_id r =? ss_setId b) eqn:E; [|apply andb_false_r].
    rewrite andb_true_r. apply Z.eqb_neq. apply Hno.
    apply filter_In. now split.
Qed.

Lemma recount_consistent_same (setId : Z) (t : tables) :
  known_count_consistent setId t -> recount setId t = t.
Proof.
  intros Hk. unfold recount, update_known_count. cbn [snd].
  apply tables_eq; try reflexivity. cbn [flashcard_sets with_flashcard_sets].
  unfold update_rows.
  replace (map _ (rows (flashcard_sets t))) with (rows (flashcard_sets t)).
  - now destruct (flashcard_sets t).
  - symmetry. rewrite <- (map_id (rows (flashcard_sets t))) at 2.
    apply map_ext_in. intros r Hr.
    destruct (fs_id r =? setId) eqn:E; [|reflexivity].
    apply Z.eqb_eq in E. rewrite <- (Hk r Hr E). now destruct r.
Qed.

(** X12.  On tables that the routes produce, [/save-flashcard-status] on
    a set that exists returns that set with its stored topic, creation
    time and [total_count], with its cards in their stored order, the
    [known] flag of the card of the request written and every other card
    as it was, and with [knownCount] the number of those cards that are
    then known.  Only the [known] column of the card table is written.
    When the set has no card of the requested id, the route still answers
    with the set, and the tables are as they were. *)
Theorem save_flashcard_status_marks_card :
  forall (fk : set_id_constraint) (b : save_flashcard_status_body) (t : tables)
         (s : flashcard_set_row),
    reachable fk t -> In s (rows (flashcard_sets t)) -> fs_id s = ss_setId b ->
    let r := save_flashcard_status b t in
    let cards := map (with_known (ss_cardId b) (ss_known b))
                     (map card_of_row (cards_of (ss_setId b) t)) in
    fst r = Json {| set_id := fs_id s; set_topic := fs_topic s; set_cards := cards;
                    set_createdAt := fs_created_at s;
                    set_knownCount := Z.of_nat (List.length (filter card_known cards));
                    set_totalCount := fs_total_count s |}
    /\ map fc_id (rows (flashcards (snd r))) = map fc_id (rows (flashcards t))
    /\ map fc_set_id (rows (flashcards (snd r))) = map fc_set_id (rows (flashcards t))
    /\ map fc_question (rows (flashcards (snd r))) = map fc_question (rows (flashcards t))
    /\ map fc_answer (rows (flashcards (snd r))) = map fc_answer (rows (flashcards t))
    /\ ((forall c, In c (cards_of (ss_setId b) t) -> fc_id c <> ss_cardId b) ->
        snd r = t /\ cards = map card_of_row (cards_of (ss_setId b) t)).
Proof.
  intros fk b t s Hreach Hs Hid r cards. subst r cards.
  destruct (reachable_tables_ok fk t Hreach) as (_ & _ & [Hnd _] & _).
  destruct (reachable_invariants fk t Hreach) as (_ & Hk & _).
  assert (select_rows (fun r => fs_id r =? ss_setId b) (flashcard_sets t) = [s]) as Hsel
    by (rewrite <- Hid; exact (select_unique fs_id _ s Hnd Hs)).
  rewrite save_flashcard_status_run, Hsel. cbn [fst snd].
  rewrite recount_cards. fold (cards_of (ss_setId b) (mark_card b t)).
  unfold known_cards. fold (cards_of (ss_setId b) (mark_card b t)).
  rewrite <- known_filter_card_of_row, marked_cards.
  split; [reflexivity|].
  assert (forall (A : Type) (f : flashcard_row -> A),
            (forall x known, f {| fc_id := fc_id x; fc_set_id := fc_set_id x;
                                  fc_question := fc_question x; fc_answer := fc_answer x;
                                  fc_known := known |} = f x) ->
            map f (rows (flashcards (mark_card b t))) = map f (rows (flashcards t))) as Hcol.
  { intros A f Hf. unfold mark_card, update_flashcard_known, update_rows.
    cbn [snd flashcards with_flashcards rows]. rewrite map_map. apply map_ext.
    intros x. destruct (_ && _); [apply Hf | reflexivity]. }
  do 4 (split; [apply Hcol; reflexivity|]).
  intros Hno. rewrite <- marked_cards, (mark_card_absent b t Hno).
  split; [|reflexivity]. apply recount_consistent_same, Hk.
Qed.

Lemma save_flashcard_status_marks_card_witness :
  fst (save_flashcard_status {| ss_setId := 1; ss_cardId := 2; ss_known := true |}
         tables_one_known)
  = Json {| set_id := 1; set_topic := "Graph theory";
            set_cards :=
              [ {| card_id := 1; card_question := "What is a tree?";
                   card_answer := "A connected acyclic graph"; card_known := true |};
                {| card_id := 2; card_question := "What is a leaf?";
                   card_answer := "A vertex of degree one"; card_known := true |} ];
            set_createdAt := 1000; set_knownCount := 2; set_totalCount := 2 |}.
Proof.
  exact (proj1 (save_flashcard_status_marks_card NoForeignKey
                  {| ss_setId := 1; ss_cardId := 2; ss_known := true |} tables_one_known
                  {| fs_id := 1; fs_topic := "Graph theory"; fs_total_count := 2;
                     fs_known_count := 1; fs_created_at := 1000 |}
                  (reachable_one_known NoForeignKey) (or_introl eq_refl) eq_refl)).
Defined.

(** X13.  When the model fails or its reply does not parse,
    [/generate-flashcards] answers 500 and the tables are as they were.
    When the reply parses and its first element without a question or an
    answer comes after the elements [good], the route answers 500 as well,
    but the set row, with the length of the whole reply as [total_count],
    and the card rows of [good] stay stored: on tables that the routes
    produce, a later status request on that set returns it with that
    [totalCount] and with the cards of [good] only. *)
Theorem generate_flashcards_partial_failure :
  forall generateContent (now : Z) (body : generate_flashcards_body) (t : tables),
    let r := generate_flashcards generateContent now body t in
    let prompt := flashcards_prompt (or_Z (gf_count body) 5) (gf_topic body) in
    (generateContent prompt = None ->
       r = (Error 500 "Failed to generate flashcards from AI. Check API key/model.", t))
    /\ (forall good bad rest,
          generateContent prompt = Some (good ++ bad :: rest) ->
          Forall has_fields good -> lacks_field bad ->
          r = (Error 500 "Failed to generate flashcards from AI. Check API key/model.",
               with_flashcards
                 (with_flashcard_sets t
                    {| rows := rows (flashcard_sets t)
                               ++ [fresh_set_row now body (good ++ bad :: rest) t];
                       auto_increment := auto_increment (flashcard_sets t) + 1 |})
                 {| rows := rows (flashcards t) ++ fresh_card_rows good t;
                    auto_increment := auto_increment (flashcards t)
                                      + Z.of_nat (List.length good) |})
          /\ (forall fk cardId known,
                reachable fk t ->
                exists fs,
                  fst (save_flashcard_status
                         {| ss_setId := auto_increment (flashcard_sets t);
                            ss_cardId := cardId; ss_known := known |} (snd r)) = Json fs
                  /\ set_totalCount fs = Z.of_nat (List.length (good ++ bad :: rest))
                  /\ List.length (set_cards fs) = List.length good)).
Proof.
  intros generateContent now body t r prompt. subst r prompt. split.
  - intros Hgen. unfold generate_flashcards, try_catch, bind. now rewrite Hgen.
  - intros good bad rest Hgen Hgood Hbad.
    assert (generate_flashcards generateContent now body t
            = (Error 500 "Failed to generate flashcards from AI. Check API key/model.",
               with_flashcards
                 (with_flashcard_sets t
                    {| rows := rows (flashcard_sets t)
                               ++ [fresh_set_row now body (good ++ bad :: rest) t];
                       auto_increment := auto_increment (flashcard_sets t) + 1 |})
                 {| rows := rows (flashcards t) ++ fresh_card_rows good t;
                    auto_increment := auto_increment (flashcards t)
                                      + Z.of_nat (List.length good) |})) as ->.
    { unfold generate_flashcards, try_catch, bind. rewrite Hgen.
      cbn [await ret insert_flashcard_set insert_row].
      rewrite (insert_cards_partial _ _ _ _ Hgood Hbad). reflexivity. }
    split; [reflexivity|].
    intros fk cardId known Hreach. cbn [snd].
    destruct (reachable_invariants fk t Hreach) as ([Hs Hc] & _ & _).
    rewrite save_flashcard_status_run. cbn [ss_setId].
    unfold select_rows at 1.
    cbn [flashcard_sets with_flashcards with_flashcard_sets rows].
    rewrite filter_app, (filter_nothing _ (rows (flashcard_sets t)))
      by (intros x Hx; apply Z.eqb_neq; specialize (Hs x Hx); lia).
    cbn [filter app fresh_set_row fs_id]. rewrite Z.eqb_refl.
    eexists. split; [reflexivity|].
    cbn [set_totalCount set_cards fs_total_count]. split; [reflexivity|].
    rewrite length_map.
    match goal with
    | |- context [mark_card ?b ?u] =>
        pose proof (cards_of_mark_card b u (auto_increment (flashcard_sets t))) as Hlen
    end.
    unfold cards_of in Hlen. cbn [ss_setId] in Hlen. rewrite Hlen. clear Hlen.
    unfold select_rows. cbn [flashcards with_flashcards rows].
    rewrite filter_app, (filter_nothing _ (rows (flashcards t)))
      by (intros x Hx; apply Z.eqb_neq; specialize (Hc x Hx); lia).
    rewrite filter_all
      by (intros x Hx; apply Z.eqb_eq; now apply (card_rows_set_id _ _ _ _ Hx)).
    cbn [app]. apply card_rows_length.
Qed.

Lemma generate_flashcards_partial_failure_witness :
  generate_flashcards (fun _ => Some broken_cards) 1000 ask_five empty_tables
  = (Error 500 "Failed to generate flashcards from AI. Check API key/model.",
     with_flashcards
       (with_flashcard_sets empty_tables
          {| rows := [ {| fs_id := 1; fs_topic := "Graph theory"; fs_total_count := 3;
                          fs_known_count := 0; fs_created_at := 1000 |} ];
             auto_increment := 2 |})
       {| rows := [ {| fc_id := 1; fc_set_id := 1; fc_question := "What is a tree?";
                       fc_answer := "A connected acyclic graph"; fc_known := false |} ];
          auto_increment := 2 |}).
Proof.
  refine (proj1 (proj2 (generate_flashcards_partial_failure (fun _ => Some broken_cards)
                          1000 ask_five empty_tables)
                   [ {| question := Some "What is a tree?";
                        answer := Some "A connected acyclic graph" |} ]
                   {| question := Some "What is a leaf?"; answer := None |}
                   [ {| question := Some "What is a forest?";
                        answer := Some "A disjoint union of trees" |} ]
                   eq_refl _ _)).
  - constructor; [split; discriminate | constructor].
  - right. reflexivity.
Defined.

(* ================================================================== *)
(** * The list routes *)
(* ================================================================== *)

Lemma descending_map {A B : Type} (f : A -> B) (key : A -> Z) (key' : B -> Z) (l : list A) :
  (forall x, key' (f x) = key x) -> descending key l -> descending key' (map f l).
Proof.
  intros Hf. unfold descending. induction 1 as [|x l Hl IH Hx]; cbn [map]; constructor.
  - exact IH.
  - rewrite Forall_forall in Hx |- *. intros y Hy.
    apply in_map_iff in Hy as (z & <- & Hz). rewrite !Hf. now apply Hx.
Qed.

(** The loop of the history route reads and never writes; it pushes one
    entry per set, in the order of the sets. *)
Lemma load_cards_run (sets : list flashcard_set_row) :
  forall (history : list flashcard_set) (t : tables),
    load_cards sets history t = (Returned (history ++ map (set_with_cards t) sets), t).
Proof.
  induction sets as [|s sets IH]; intros history t; cbn [load_cards map].
  - unfold ret. now rewrite app_nil_r.
  - unfold bind, select_cards. rewrite IH, <- app_assoc. reflexivity.
Qed.

Lemma get_flashcards_history_run (t : tables) :
  get_flashcards_history t
  = (Json (map (set_with_cards t) (order_by_desc fs_created_at (rows (flashcard_sets t)))), t).
Proof.
  unfold get_flashcards_history, try_catch, bind. now rewrite load_cards_run.
Qed.

(** X14.  Each of [/studyplans], [/notes-history] and [/flashcards-history]
    writes nothing and lists every stored record exactly once, the latest
    creation time first.  An entry of the flashcards history carries the
    cards that the card table holds for its set; on tables that the routes
    produce its [knownCount] is the number of those cards that are known,
    and it has no more cards than its [totalCount]. *)
Theorem list_routes_newest_first :
  forall t : tables,
    (exists listed,
       get_studyplans t = (Json listed, t)
       /\ Permutation listed (map study_plan_of_row (rows (study_plans t)))
       /\ descending plan_createdAt listed)
    /\ (exists listed,
          get_notes_history t = (Json listed, t)
          /\ Permutation listed (map note_of_row (rows (notes t)))
          /\ descending note_createdAt listed)
    /\ (exists listed,
          get_flashcards_history t = (Json listed, t)
          /\ Permutation listed (map (set_with_cards t) (rows (flashcard_sets t)))
          /\ descending set_createdAt listed
          /\ (forall e, In e listed ->
                exists s, In s (rows (flashcard_sets t))
                          /\ set_id e = fs_id s
                          /\ set_cards e = map card_of_row (cards_of (fs_id s) t))
          /\ (forall fk, reachable fk t ->
                forall e, In e listed ->
                  set_knownCount e = Z.of_nat (List.length (filter card_known (set_cards e)))
                  /\ Z.of_nat (List.length (set_cards e)) <= set_totalCount e)).
Proof.
  intros t. split; [|split].
  - eexists. split; [reflexivity|]. split.
    + apply Permutation_map, order_by_desc_perm.
    + apply (descending_map _ sp_created_at); [reflexivity | apply order_by_desc_sorted].
  - eexists. split; [reflexivity|]. split.
    + apply Permutation_map, order_by_desc_perm.
    + apply (descending_map _ n_created_at); [reflexivity | apply order_by_desc_sorted].
  - eexists. split; [apply get_flashcards_history_run|]. split; [|split; [|split]].
    + apply Permutation_map, order_by_desc_perm.
    + apply (descending_map _ fs_created_at); [reflexivity | apply order_by_desc_sorted].
    + intros e He. apply in_map_iff in He as (s & <- & Hs).
      apply In_order_by_desc in Hs. now exists s.
    + intros fk Hreach e He. apply in_map_iff in He as (s & <- & Hs).
      apply In_order_by_desc in Hs.
      pose proof (reachable_within_total fk t Hreach s Hs) as Hw.
      destruct (reachable_invariants fk t Hreach) as (_ & Hk & _).
      cbn [set_with_cards set_knownCount set_cards set_totalCount].
      rewrite known_filter_card_of_row, length_map. split; [|exact Hw].
      exact (Hk (fs_id s) s Hs eq_refl).
Qed.

(** X15.  On tables that the routes produce, a set that
    [/generate-flashcards] returns is listed by the flashcards history
    right afterwards under its id, with the same topic, the same cards and
    the same counts; and a set whose deletion [/flashcard/:id] answered
    with success is no longer listed, its export answers 404 and a status
    request on it answers 404.  Deleting an id that no set has changes
    nothing, under every schema. *)
Theorem flashcard_set_listed_until_deleted :
  forall (fk : set_id_constraint) (t : tables),
    (forall generateContent now body fs,
       reachable fk t ->
       fst (generate_flashcards generateContent now body t) = Json fs ->
       exists listed e,
         fst (get_flashcards_history (snd (generate_flashcards generateContent now body t)))
         = Json listed
         /\ In e listed
         /\ set_id e = set_id fs /\ set_topic e = set_topic fs
         /\ set_cards e = set_cards fs
         /\ set_knownCount e = set_knownCount fs
         /\ set_totalCount e = set_totalCount fs)
    /\ (forall id,
          fst (delete_flashcard fk id t) = Json tt ->
          let t' := snd (delete_flashcard fk id t) in
          (exists listed,
             fst (get_flashcards_history t') = Json listed
             /\ forall e, In e listed -> set_id e <> id)
          /\ (forall toLocaleDateString toLocaleString now format,
                download_export toLocaleDateString toLocaleString now
                  {| de_type := Some "flashcards"; de_id := Some id; de_format := format |} t'
                = (Error 404 "Content not found", t'))
          /\ (forall cardId known,
                fst (save_flashcard_status
                       {| ss_setId := id; ss_cardId := cardId; ss_known := known |} t')
                = Error 404 "Flashcard set not found"))
    /\ (forall id, ~ set_exists id t -> delete_flashcard fk id t = (Json tt, t)).
Proof.
  intros fk t. split; [|split].
  - intros generateContent now body fs Hreach Hfs.
    destruct (reachable_invariants fk t Hreach) as ([Hs Hc] & _ & _).
    destruct (generateContent (flashcards_prompt (or_Z (gf_count body) 5) (gf_topic body)))
      as [generatedCards|] eqn:Hgen.
    2:{ unfold generate_flashcards, try_catch, bind in Hfs. rewrite Hgen in Hfs.
        discriminate Hfs. }
    destruct (has_fields_or_lacks generatedCards)
      as [Hall|(good & bad & rest & -> & Hgood & Hbad)].
    2:{ unfold generate_flashcards, try_catch, bind in Hfs. rewrite Hgen in Hfs.
        cbn [await ret insert_flashcard_set insert_row] in Hfs.
        rewrite (insert_cards_partial _ _ _ _ Hgood Hbad) in Hfs. discriminate Hfs. }
    rewrite (generate_flashcards_complete _ _ _ _ _ Hgen Hall).
    unfold generate_flashcards, try_catch, bind in Hfs. rewrite Hgen in Hfs.
    cbn [await ret insert_flashcard_set insert_row] in Hfs.
    rewrite (insert_cards_complete _ _ Hall) in Hfs. cbn [fst app] in Hfs.
    cbn [flashcards with_flashcard_sets auto_increment] in Hfs.
    inversion Hfs; subst fs. clear Hfs.
    rewrite get_flashcards_history_run. cbn [fst].
    eexists. eexists. split; [reflexivity|]. split.
    + apply in_map. apply In_order_by_desc.
      cbn [flashcard_sets with_flashcards with_flashcard_sets rows].
      apply in_or_app. right. left. reflexivity.
    + cbn [set_with_cards set_id set_topic set_cards set_knownCount set_totalCount
           fresh_set_row fs_id fs_topic fs_known_count fs_total_count].
      rewrite length_map, card_rows_length.
      repeat split. f_equal.
      unfold cards_of, select_rows. cbn [flashcards with_flashcards rows].
      rewrite filter_app, (filter_nothing _ (rows (flashcards t)))
        by (intros x Hx; apply Z.eqb_neq; specialize (Hc x Hx); lia).
      apply filter_all. intros x Hx. apply Z.eqb_eq.
      now apply (card_rows_set_id _ _ _ _ Hx).
  - intros id Hok t'.
    assert (~ set_exists id t') as Hgone.
    { subst t'. destruct (delete_flashcard_tables fk id t) as [E|[Hsets _]].
      - revert Hok E. unfold delete_flashcard, try_catch, bind, delete_flashcard_set.
        destruct fk; cbn [fst snd ret].
        + intros _ _ (r & Hr & Hid). apply delete_rows_gone in Hr.
          apply Z.eqb_neq in Hr. congruence.
        + destruct (_ && _); cbn [fst snd]; [discriminate|].
          intros _ _ (r & Hr & Hid). apply delete_rows_gone in Hr.
          apply Z.eqb_neq in Hr. congruence.
        + destruct (_ && _); cbn [fst snd]; intros _ _ (r & Hr & Hid);
            apply delete_rows_gone in Hr; apply Z.eqb_neq in Hr; congruence.
      - intros (r & Hr & Hid). rewrite Hsets in Hr. apply delete_rows_gone in Hr.
        apply Z.eqb_neq in Hr. congruence. }
    split; [|split].
    + rewrite get_flashcards_history_run. eexists. split; [reflexivity|].
      intros e He Hid. apply in_map_iff in He as (s & <- & Hs).
      apply In_order_by_desc in Hs. apply Hgone. now exists s.
    + intros tld tls now format. now apply export_flashcards_absent.
    + intros cardId known. rewrite save_flashcard_status_run. cbn [ss_setId].
      now rewrite (select_none_of_not_exists _ _ Hgone).
  - intros id Hne.
    assert (delete_rows (fun r => fs_id r =? id) (flashcard_sets t) = flashcard_sets t) as Hd.
    { apply delete_rows_nowhere. intros r Hr. apply Z.eqb_neq. intros Hid.
      apply Hne. now exists r. }
    assert (existsb (fun r => fs_id r =? id) (rows (flashcard_sets t)) = false) as He.
    { apply not_true_is_false. intros H. apply existsb_exists in H as (r & Hr & Hid).
      apply Z.eqb_eq in Hid. apply Hne. now exists r. }
    unfold delete_flashcard, try_catch, bind, delete_flashcard_set.
    rewrite Hd, He. cbn [andb].
    assert (with_flashcard_sets t (flashcard_sets t) = t) as -> by (now destruct t).
    destruct fk; reflexivity.
Qed.

Lemma flashcard_set_listed_until_deleted_witness :
  fst (get_flashcards_history (snd (delete_flashcard OnDeleteCascade 1 tables_one_known)))
  = Json []
  /\ delete_flashcard OnDeleteRestrict 7 tables_one_known = (Json tt, tables_one_known).
Proof.
  split; [reflexivity|].
  refine (proj2 (proj2 (flashcard_set_listed_until_deleted OnDeleteRestrict tables_one_known))
            7 _).
  intros (r & [<-|[]] & Hid). discriminate Hid.
Defined.

Lemma list_routes_newest_first_witness :
  exists listed,
    get_flashcards_history tables_one_known = (Json listed, tables_one_known)
    /\ Forall (fun e =>
                 set_knownCount e = Z.of_nat (List.length (filter card_known (set_cards e)))
                 /\ Z.of_nat (List.length (set_cards e)) <= set_totalCount e) listed.
Proof.
  destruct (proj2 (proj2 (list_routes_newest_first tables_one_known)))
    as (listed & Hrun & _ & _ & _ & Hcounts).
  exists listed. split; [exact Hrun|]. apply Forall_forall.
  exact (Hcounts NoForeignKey (reachable_one_known NoForeignKey)).
Defined.

(** X16.  A plan that [/generate-study-plan] returns is listed by
    [/studyplans] right afterwards, on tables that the routes produce,
    under its id, with the same course name, hours per day, days, total
    hours and weeks, with progress 0 and not completed; and no stored plan
    had that id. *)
Theorem generated_plan_listed :
  forall (fk : set_id_constraint) generateContent (now : Z)
         (body : generate_study_plan_body) (t : tables) (plan : study_plan),
    reachable fk t ->
    fst (generate_study_plan generateContent now body t) = Json plan ->
    let t' := snd (generate_study_plan generateContent now body t) in
    ~ plan_exists (plan_id plan) t
    /\ exists listed e,
         get_studyplans t' = (Json listed, t')
         /\ In e listed
         /\ plan_id e = plan_id plan
         /\ plan_courseName e = plan_courseName plan
         /\ plan_hoursPerDay e = plan_hoursPerDay plan
         /\ plan_daysUntil e = plan_daysUntil plan
         /\ plan_totalHours e = plan_totalHours plan
         /\ plan_plan e = plan_plan plan
         /\ plan_progress e = 0 /\ plan_completed e = false.
Proof.
  intros fk generateContent now body t plan Hreach Hplan t'. subst t'.
  destruct (reachable_tables_ok fk t Hreach) as (Hok & _).
  revert Hplan. unfold generate_study_plan, try_catch, bind.
  destruct (_ || _); [discriminate|].
  destruct (courseName body) as [cn|]; [|discriminate].
  destruct (deadline body) as [dl|]; [|discriminate].
  destruct (hoursPerDay body) as [hpd|]; [|discriminate].
  destruct (_ <=? 0); [discriminate|].
  destruct (generateContent _) as [planData|]; [|discriminate].
  cbn [await ret insert_study_plan insert_row fst snd]. intros Hplan.
  inversion Hplan; subst plan. clear Hplan. cbn [plan_id]. split.
  - intros (x & Hx & Hid). now apply (fresh_id_absent sp_id _ x Hok Hx).
  - eexists. eexists. split; [reflexivity|]. split.
    + apply in_map. apply In_order_by_desc. cbn [study_plans with_study_plans rows].
      apply in_or_app. right. left. reflexivity.
    + repeat split.
Qed.

Lemma generated_plan_listed_witness :
  ~ plan_exists 1 empty_tables
  /\ exists listed e,
       get_studyplans tables_one_plan = (Json listed, tables_one_plan)
       /\ In e listed
       /\ plan_id e = 1
       /\ plan_courseName e = "Algorithms"
       /\ plan_hoursPerDay e = 2
       /\ plan_daysUntil e = 7
       /\ plan_totalHours e = 14
       /\ plan_plan e = one_week_plan
       /\ plan_progress e = 0 /\ plan_completed e = false.
Proof.
  exact (generated_plan_listed NoForeignKey (fun _ => Some one_week_plan) 1000000
           {| courseName := Some "Algorithms"; deadline := Some (1000000 + 7 * day_ms);
              hoursPerDay := Some 2 |}
           empty_tables
           {| plan_id := 1; plan_courseName := "Algorithms";
              plan_deadline := 1000000 + 7 * day_ms; plan_hoursPerDay := 2;
              plan_daysUntil := 7; plan_totalHours := 14; plan_plan := one_week_plan;
              plan_progress := 0; plan_completed := false; plan_createdAt := 1000000 |}
           (reach_empty _) eq_refl).
Defined.

Lemma sum_over_bounds {R : Type} (lo hi : R -> Z) (l : list R) :
  (forall r, In r l -> lo r <= hi r) -> sum_over lo l <= sum_over hi l.
Proof.
  unfold sum_over. induction l as [|x l IH]; intros H; cbn [map fold_right]; [lia|].
  pose proof (H x (or_introl eq_refl)).
  assert (forall r, In r l -> lo r <= hi r) as Hl by (intros r Hr; apply H; now right).
  specialize (IH Hl). lia.
Qed.

Lemma sum_over_ext {R : Type} (e e' : R -> Z) (l : list R) :
  (forall r, In r l -> e r = e' r) -> sum_over e l = sum_over e' l.
Proof.
  unfold sum_over. intros H. f_equal. now apply map_ext_in.
Qed.

Lemma sum_over_zero {R : Type} (l : list R) : sum_over (fun _ => 0) l = 0.
Proof.
  unfold sum_over. induction l as [|x l IH]; cbn [map fold_right]; [reflexivity | lia].
Qed.

(** X17.  While every stored progress is between 0 and 100,
    [/dashboard-stats] reports [0 <= completedTasks <= totalTasks]; the
    two are equal when every plan is at 100, and [completedTasks] is 0
    when every plan is at 0, as on plans that were generated and never
    updated. *)
Theorem dashboard_completed_within_total :
  forall (t : tables) (stats : dashboard_stats_body),
    (forall p, In p (rows (study_plans t)) -> 0 <= sp_progress p <= 100) ->
    fst (dashboard_stats t) = Json stats ->
    0 <= completedTasks stats <= totalTasks stats
    /\ ((forall p, In p (rows (study_plans t)) -> sp_progress p = 100) ->
        completedTasks stats = totalTasks stats)
    /\ ((forall p, In p (rows (study_plans t)) -> sp_progress p = 0) ->
        completedTasks stats = 0).
Proof.
  intros t stats Hp Hstats.
  unfold dashboard_stats, try_catch, ret in Hstats. cbn [fst] in Hstats.
  rewrite !or_sql_sum in Hstats. inversion Hstats; subst stats. clear Hstats.
  cbn [completedTasks totalTasks].
  assert (forall p, In p (rows (study_plans t)) ->
            0 <= completed_of_row p <= json_length p) as Hrow.
  { intros p Hin. specialize (Hp p Hin). unfold completed_of_row, json_length.
    pose proof (Nat2Z.is_nonneg (List.length (sp_plan_json p))) as Hn. split.
    - apply Z.div_pos; nia.
    - apply Z.div_le_upper_bound; nia. }
  split; [split|split].
  - rewrite <- (sum_over_zero (rows (study_plans t))).
    apply sum_over_bounds. intros p Hin. now apply Hrow.
  - apply sum_over_bounds. intros p Hin. now apply Hrow.
  - intros Hall. apply sum_over_ext. intros p Hin. unfold completed_of_row.
    rewrite (Hall p Hin), Z.mul_comm. now apply Z.div_mul.
  - intros Hall.
    rewrite (sum_over_ext completed_of_row (fun _ => 0)).
    + apply sum_over_zero.
    + intros p Hin. unfold completed_of_row. now rewrite (Hall p Hin).
Qed.

Lemma dashboard_completed_within_total_witness :
  fst (dashboard_stats tables_one_plan)
  = Json {| totalNotes := 0; totalStudyPlans := 1; totalFlashcards := 0;
            totalTasks := 1; completedTasks := 0 |}
  /\ 0 <= completedTasks {| totalNotes := 0; totalStudyPlans := 1; totalFlashcards := 0;
                            totalTasks := 1; completedTasks := 0 |}
       <= totalTasks {| totalNotes := 0; totalStudyPlans := 1; totalFlashcards := 0;
                        totalTasks := 1; completedTasks := 0 |}.
Proof.
  split; [reflexivity|].
  refine (proj1 (dashboard_completed_within_total tables_one_plan _ _ eq_refl)).
  intros p [<-|[]]. cbn. lia.
Defined.

(** X18.  On tables that the routes produce, under any of the schemas, the
    ids of each table are pairwise distinct and below the counter of the
    table, which no route lowers: an id is never given twice, also after a
    deletion.  So a set that [/generate-flashcards] returns gets an id
    that no card row refers to, and does not take over the cards that a
    deleted set has left behind. *)
Theorem record_ids_never_reused :
  forall (fk : set_id_constraint) (t : tables),
    reachable fk t ->
    NoDup (map sp_id (rows (study_plans t)))
    /\ NoDup (map n_id (rows (notes t)))
    /\ NoDup (map fs_id (rows (flashcard_sets t)))
    /\ NoDup (map fc_id (rows (flashcards t)))
    /\ NoDup (map ch_id (rows (chat_history t)))
    /\ (forall req,
          auto_increment (study_plans t) <= auto_increment (study_plans (serve fk t req))
          /\ auto_increment (notes t) <= auto_increment (notes (serve fk t req))
          /\ auto_increment (flashcard_sets t)
             <= auto_increment (flashcard_sets (serve fk t req))
          /\ auto_increment (flashcards t) <= auto_increment (flashcards (serve fk t req))
          /\ auto_increment (chat_history t)
             <= auto_increment (chat_history (serve fk t req)))
    /\ (forall generateContent now body fs,
          fst (generate_flashcards generateContent now body t) = Json fs ->
          ~ set_exists (set_id fs) t /\ cards_of (set_id fs) t = []).
Proof.
  intros fk t Hreach.
  destruct (reachable_tables_ok fk t Hreach)
    as ([Hp _] & [Hn _] & [Hs Hslt] & [Hc _] & [Hh _]).
  do 5 (split; [assumption|]). split.
  - intros req. destruct req as [g now body|body|id|now body|tls now body|g tls now body|id
                                |g now body|body|id|send now message|]; unfold serve.
    + unfold generate_study_plan, try_catch, bind.
      destruct (_ || _); [cbn; lia|].
      destruct (courseName body) as [cn|]; [|cbn; lia].
      destruct (deadline body) as [dl|]; [|cbn; lia].
      destruct (hoursPerDay body) as [hpd|]; [|cbn; lia].
      destruct (_ <=? 0); [cbn; lia|].
      destruct (g _); cbn; lia.
    + unfold update_study_progress, try_catch, bind.
      cbn [update_progress select_study_plan].
      destruct (select_rows _ _); cbn; lia.
    + cbn; lia.
    + unfold upload_pdf, try_catch, bind, insert_note.
      destruct (fileName body); cbn; lia.
    + unfold upload_local_file, try_catch, bind, insert_note.
      destruct (_ || _); [cbn; lia|].
      destruct (fileName body); cbn; lia.
    + unfold generate_ai_notes, try_catch, bind.
      destruct (_ && _); [cbn; lia|].
      destruct (g _); cbn; lia.
    + cbn; lia.
    + destruct (generate_flashcards_tables_others g now body t) as (-> & -> & ->).
      destruct (g (flashcards_prompt (or_Z (gf_count body) 5) (gf_topic body)))
        as [generatedCards|] eqn:Hgen.
      * destruct (generate_flashcards_stored _ now body t _ Hgen) as (stored & _ & ->).
        cbn. lia.
      * unfold generate_flashcards, try_catch, bind. rewrite Hgen. cbn. lia.
    + rewrite save_flashcard_status_run.
      destruct (select_rows _ _); cbn; lia.
    + unfold delete_flashcard, try_catch, bind, delete_flashcard_set.
      destruct fk; [| destruct (_ && _) | destruct (_ && _)]; cbn; lia.
    + unfold chat, try_catch, bind.
      destruct (negb _); [cbn; lia|].
      cbn [insert_chat insert_row select_chat_history].
      destruct (send _ _); cbn; lia.
    + cbn; lia.
  - intros generateContent now body fs Hfs.
    destruct (reachable_invariants fk t Hreach) as ([_ Hcards] & _ & _).
    assert (set_id fs = auto_increment (flashcard_sets t)) as ->.
    { revert Hfs. unfold generate_flashcards, try_catch, bind.
      destruct (generateContent _) as [generatedCards|]; [|discriminate].
      cbn [await ret insert_flashcard_set insert_row].
      destruct (insert_cards _ _ _ _) as [[cards|] u]; [|discriminate].
      cbn [fst ret]. intros H. inversion H. reflexivity. }
    split.
    + intros (s & Hin & Hid). specialize (Hslt s Hin). lia.
    + apply filter_nothing. intros c Hin. apply Z.eqb_neq. specialize (Hcards c Hin). lia.
Qed.

Lemma record_ids_never_reused_witness :
  map fc_set_id (rows (flashcards tables_after_delete)) = [1; 1; 1]
  /\ ~ set_exists 2 tables_after_delete
  /\ cards_of 2 tables_after_delete = [].
Proof.
  split; [reflexivity|].
  refine (proj2 (proj2 (proj2 (proj2 (proj2 (proj2
            (record_ids_never_reused NoForeignKey tables_after_delete
               reachable_after_delete))))))
            (fun _ => Some three_cards) 2000 ask_five
            {| set_id := 2; set_topic := "Graph theory";
               set_cards := map card_of_row (card_rows 2 4 three_cards);
               set_createdAt := 2000; set_knownCount := 0; set_totalCount := 3 |}
            eq_refl).
Defined.
